(** * PolicyKit policy engine models: a shallow embedding

    This development models [policykit/policyengine/models.py]: the
    DataStore scratch space, proposals and their vote tallies, the
    constitution and platform actions with their permission gate, and
    action bundles.  Python objects are records, the database is a
    record of finite maps, and methods that touch the database or may
    raise are computations in a state-and-exception monad. *)

From Stdlib Require Import ZArith Ascii String List DecimalString DecimalZ Lia.
From stdpp Require Import gmap strings list fin_maps.
Import ListNotations.
Set Warnings "-register-all".

(** ** JSON values and the text codec used by [DataStore]

    [json.dumps] and [json.loads] belong to Python's library, not to the
    modelled file.  They are modelled by a printer that follows the
    library's default layout (items separated by a comma and a space, keys
    by a colon and a space) and a recursive-descent reader.  Numbers are
    integers; strings escape the quote and the backslash.  A Python [dict]
    is an association list in insertion order whose keys are strings. *)

Module Json.

Inductive json : Type :=
| JNull
| JBool (b : bool)
| JInt (z : Z)
| JStr (s : string)
| JArr (l : list json)
| JObj (d : list (string * json)).

(** The double quote (code 34) and the backslash (code 92). *)
Abbreviation DQ := (Ascii false true false false false true false false) (only parsing).
Abbreviation BSL := (Ascii false false true true true false true false) (only parsing).

Definition is_ws (c : ascii) : bool :=
  (Ascii.eqb c " " || Ascii.eqb c "009" || Ascii.eqb c "010" || Ascii.eqb c "013")%char.

Definition is_num_char (c : ascii) : bool :=
  existsb (Ascii.eqb c) ["-"; "0"; "1"; "2"; "3"; "4"; "5"; "6"; "7"; "8"; "9"]%char.

Fixpoint skip_ws (s : list ascii) : list ascii :=
  match s with
  | c :: r => if is_ws c then skip_ws r else s
  | [] => []
  end.

Fixpoint strip_prefix (p s : list ascii) : option (list ascii) :=
  match p, s with
  | [], _ => Some s
  | a :: p', b :: s' => if Ascii.eqb a b then strip_prefix p' s' else None
  | _ :: _, [] => None
  end.

Fixpoint span_num (s : list ascii) : list ascii * list ascii :=
  match s with
  | c :: r => if is_num_char c then let '(d, t) := span_num r in (c :: d, t) else ([], s)
  | [] => ([], [])
  end.

(** *** Printing ([json.dumps]) *)

Fixpoint escape (s : list ascii) : list ascii :=
  match s with
  | [] => []
  | c :: r => if (Ascii.eqb c DQ || Ascii.eqb c BSL)%bool then BSL :: c :: escape r else c :: escape r
  end.

Definition print_string (s : string) : list ascii :=
  DQ :: escape (list_ascii_of_string s) ++ [DQ].

Definition print_int (z : Z) : list ascii :=
  list_ascii_of_string (NilEmpty.string_of_int (Z.to_int z)).

Definition sep_item : list ascii := [","; " "]%char.
Definition sep_key : list ascii := [":"; " "]%char.

Fixpoint join {A : Type} (f : A -> list ascii) (l : list A) : list ascii :=
  match l with
  | [] => []
  | [v] => f v
  | v :: r => f v ++ sep_item ++ join f r
  end.

Fixpoint print (j : json) : list ascii :=
  match j with
  | JNull => ["n"; "u"; "l"; "l"]%char
  | JBool true => ["t"; "r"; "u"; "e"]%char
  | JBool false => ["f"; "a"; "l"; "s"; "e"]%char
  | JInt z => print_int z
  | JStr s => print_string s
  | JArr l => "["%char :: join print l ++ ["]"%char]
  | JObj d =>
      "{"%char ::
      join (fun kv => let '(k, v) := kv in print_string k ++ sep_key ++ print v) d
      ++ ["}"%char]
  end.

(** *** Reading ([json.loads])

    Each reader returns the value read and the rest of the text.  The
    fuel bounds the nesting depth; the length of the text is enough. *)

(** The characters of a string up to its closing quote. *)
Fixpoint parse_string_body (s : list ascii) : option (list ascii * list ascii) :=
  match s with
  | [] => None
  | c :: r =>
      if Ascii.eqb c DQ then Some ([], r)
      else if Ascii.eqb c BSL then
        match r with
        | e :: r' =>
            if (Ascii.eqb e DQ || Ascii.eqb e BSL)%bool then
              match parse_string_body r' with
              | Some (t, u) => Some (e :: t, u)
              | None => None
              end
            else None
        | [] => None
        end
      else
        match parse_string_body r with
        | Some (t, u) => Some (c :: t, u)
        | None => None
        end
  end.

Definition parse_int (s : list ascii) : option (Z * list ascii) :=
  let '(d, r) := span_num s in
  match NilEmpty.int_of_string (string_of_list_ascii d) with
  | Some i => Some (Z.of_int i, r)
  | None => None
  end.

(** [d[k] = v]: the value of an existing key is replaced in place, a new
    key goes last. *)
Fixpoint dict_set (d : list (string * json)) (k : string) (v : json) : list (string * json) :=
  match d with
  | [] => [(k, v)]
  | (k', v') :: r => if String.eqb k' k then (k', v) :: r else (k', v') :: dict_set r k v
  end.

(** The [dict] built from the members read: a repeated key keeps its
    first position and its last value. *)
Definition dict_of_pairs (l : list (string * json)) : list (string * json) :=
  fold_left (fun acc kv => dict_set acc (fst kv) (snd kv)) l [].

Fixpoint parse_value (fuel : nat) (s : list ascii) : option (json * list ascii) :=
  match fuel with
  | O => None
  | S f =>
      match skip_ws s with
      | [] => None
      | c :: r =>
          if is_num_char c then
            match parse_int (c :: r) with
            | Some (z, t) => Some (JInt z, t)
            | None => None
            end
          else if Ascii.eqb c DQ then
            match parse_string_body r with
            | Some (t, u) => Some (JStr (string_of_list_ascii t), u)
            | None => None
            end
          else if Ascii.eqb c "n" then
            match strip_prefix ["u"; "l"; "l"]%char r with
            | Some t => Some (JNull, t)
            | None => None
            end
          else if Ascii.eqb c "t" then
            match strip_prefix ["r"; "u"; "e"]%char r with
            | Some t => Some (JBool true, t)
            | None => None
            end
          else if Ascii.eqb c "f" then
            match strip_prefix ["a"; "l"; "s"; "e"]%char r with
            | Some t => Some (JBool false, t)
            | None => None
            end
          else if Ascii.eqb c "[" then
            match strip_prefix ["]"%char] (skip_ws r) with
            | Some t => Some (JArr [], t)
            | None =>
                match parse_elems f r with
                | Some (l, t) => Some (JArr l, t)
                | None => None
                end
            end
          else if Ascii.eqb c "{" then
            match strip_prefix ["}"%char] (skip_ws r) with
            | Some t => Some (JObj [], t)
            | None =>
                match parse_members f r with
                | Some (l, t) => Some (JObj (dict_of_pairs l), t)
                | None => None
                end
            end
          else None
      end
  end
with parse_elems (fuel : nat) (s : list ascii) : option (list json * list ascii) :=
  match fuel with
  | O => None
  | S f =>
      match parse_value f s with
      | Some (v, r) =>
          match strip_prefix [","%char] (skip_ws r) with
          | Some t =>
              match parse_elems f t with
              | Some (l, u) => Some (v :: l, u)
              | None => None
              end
          | None =>
              match strip_prefix ["]"%char] (skip_ws r) with
              | Some t => Some ([v], t)
              | None => None
              end
          end
      | None => None
      end
  end
with parse_members (fuel : nat) (s : list ascii) : option (list (string * json) * list ascii) :=
  match fuel with
  | O => None
  | S f =>
      match strip_prefix [DQ] (skip_ws s) with
      | Some r =>
          match parse_string_body r with
          | Some (k, r1) =>
              match strip_prefix [":"%char] (skip_ws r1) with
              | Some r2 =>
                  match parse_value f r2 with
                  | Some (v, r3) =>
                      match strip_prefix [","%char] (skip_ws r3) with
                      | Some t =>
                          match parse_members f t with
                          | Some (l, u) => Some ((string_of_list_ascii k, v) :: l, u)
                          | None => None
                          end
                      | None =>
                          match strip_prefix ["}"%char] (skip_ws r3) with
                          | Some t => Some ([(string_of_list_ascii k, v)], t)
                          | None => None
                          end
                      end
                  | None => None
                  end
              | None => None
              end
          | None => None
          end
      | None => None
      end
  end.

Definition dumps (j : json) : string := string_of_list_ascii (print j).

Definition loads (s : string) : option json :=
  let t := list_ascii_of_string s in
  match parse_value (S (length t)) t with
  | Some (j, r) => match skip_ws r with [] => Some j | _ => None end
  | None => None
  end.


Definition print_member (kv : string * json) : list ascii :=
  let '(k, v) := kv in print_string k ++ sep_key ++ print v.

(** A value of Python: the keys of every [dict] in it are distinct. *)
Fixpoint wf (j : json) : Prop :=
  match j with
  | JArr l => (fix all (l : list json) : Prop :=
                 match l with [] => True | v :: r => wf v /\ all r end) l
  | JObj d => List.NoDup (map fst d) /\
              (fix all (d : list (string * json)) : Prop :=
                 match d with [] => True | kv :: r => wf (snd kv) /\ all r end) d
  | _ => True
  end.



(** Python's [dict] operations used by the store. *)

Fixpoint dict_get (d : list (string * json)) (k : string) : option json :=
  match d with
  | [] => None
  | (k', v) :: r => if String.eqb k' k then Some v else dict_get r k
  end.

Definition dict_pop (d : list (string * json)) (k : string) : list (string * json) :=
  List.filter (fun kv => negb (String.eqb (fst kv) k)) d.

(** Truth value of a Python object ([not res] in [DataStore.remove]). *)
Definition truthy (j : json) : bool :=
  match j with
  | JNull => false
  | JBool b => b
  | JInt z => negb (Z.eqb z 0%Z)
  | JStr s => negb (String.eqb s EmptyString)
  | JArr l => match l with [] => false | _ => true end
  | JObj d => match d with [] => false | _ => true end
  end.

(** *** The reader inverts the printer *)

Lemma json_ind2 (P : json -> Prop) :
  P JNull -> (forall b, P (JBool b)) -> (forall z, P (JInt z)) ->
  (forall s, P (JStr s)) ->
  (forall l, Forall P l -> P (JArr l)) ->
  (forall d, Forall (fun kv => P (snd kv)) d -> P (JObj d)) ->
  forall j, P j.
Proof.
  intros Hn Hb Hz Hs Ha Ho.
  fix IH 1.
  intros [ | b | z | s | l | d ]; [ apply Hn | apply Hb | apply Hz | apply Hs | | ].
  - apply Ha. induction l as [ | v l IHl ]; constructor; [ apply IH | exact IHl ].
  - apply Ho. induction d as [ | [k v] d IHd ]; constructor; [ apply IH | exact IHd ].
Qed.

Lemma wf_arr l : wf (JArr l) <-> Forall wf l.
Proof.
  simpl. induction l as [ | v l IHl ]; split; intros H.
  - constructor.
  - exact I.
  - destruct H as [H1 H2]. constructor; [ exact H1 | apply IHl, H2 ].
  - inversion H; subst. split; [ assumption | apply IHl; assumption ].
Qed.

Lemma wf_obj d :
  wf (JObj d) <-> List.NoDup (map fst d) /\ Forall (fun kv => wf (snd kv)) d.
Proof.
  simpl. split; intros [Hn H]; split; try exact Hn.
  - induction d as [ | kv d IHd ]; [ constructor | ].
    destruct H as [H1 H2]. constructor; [ exact H1 | ].
    apply IHd; [ | exact H2 ]. simpl in Hn. inversion Hn; assumption.
  - clear Hn. induction H; [ exact I | split; assumption ].
Qed.

Definition follow_ok (rest : list ascii) : Prop :=
  match rest with
  | [] => True
  | c :: _ => is_num_char c = false
  end.

Lemma num_char_head c :
  is_num_char c = true ->
  is_ws c = false /\ Ascii.eqb c "]" = false /\ Ascii.eqb c "}" = false.
Proof.
  destruct c as [[] [] [] [] [] [] [] []]; vm_compute; intuition congruence.
Qed.

Lemma uint_chars d :
  Forall (fun c => is_num_char c = true)
         (list_ascii_of_string (NilEmpty.string_of_uint d)).
Proof. induction d; simpl; constructor; auto. Qed.

Lemma print_int_chars z : Forall (fun c => is_num_char c = true) (print_int z).
Proof.
  unfold print_int. destruct (Z.to_int z) as [d | d]; simpl.
  - apply uint_chars.
  - constructor; [ reflexivity | apply uint_chars ].
Qed.

Lemma pos_uint_nonnil p : Pos.to_uint p <> Decimal.Nil.
Proof. apply DecimalPos.Unsigned.to_uint_nonnil. Qed.

Lemma print_int_nonempty z : print_int z <> [].
Proof.
  unfold print_int. destruct z as [ | p | p ]; simpl; try discriminate.
  generalize (pos_uint_nonnil p). destruct (Pos.to_uint p); simpl; congruence.
Qed.

Lemma span_num_app d rest :
  Forall (fun c => is_num_char c = true) d -> follow_ok rest ->
  span_num (d ++ rest) = (d, rest).
Proof.
  intros Hd Hr. induction Hd as [ | c d Hc _ IH ]; simpl.
  - destruct rest as [ | c r ]; [ reflexivity | ]. simpl in Hr. simpl. now rewrite Hr.
  - now rewrite Hc, IH.
Qed.

Lemma parse_int_print z rest :
  follow_ok rest -> parse_int (print_int z ++ rest) = Some (z, rest).
Proof.
  intros Hr. unfold parse_int.
  rewrite (span_num_app _ _ (print_int_chars z) Hr).
  unfold print_int. rewrite string_of_list_ascii_of_string.
  now rewrite NilEmpty.isi, DecimalZ.of_to.
Qed.

Lemma parse_string_escape l rest :
  parse_string_body (escape l ++ DQ :: rest) = Some (l, rest).
Proof.
  induction l as [ | c l IH ]; [ reflexivity | ].
  simpl. destruct (Ascii.eqb c DQ) eqn:E1; simpl.
  - rewrite E1. simpl. now rewrite IH.
  - destruct (Ascii.eqb c BSL) eqn:E2; simpl.
    + rewrite E2. rewrite Bool.orb_true_r. now rewrite IH.
    + now rewrite E1, E2, IH.
Qed.

Definition head_ok (s : list ascii) : Prop :=
  match s with
  | c :: _ => is_ws c = false /\ Ascii.eqb c "]" = false /\ Ascii.eqb c "}" = false
  | [] => False
  end.

Lemma print_head j : head_ok (print j).
Proof.
  destruct j as [ | [] | z | s | l | d ]; simpl; try (repeat split; reflexivity).
  generalize (print_int_chars z) (print_int_nonempty z).
  destruct (print_int z) as [ | c r ]; [ congruence | ].
  intros H _. inversion H; subst. now apply num_char_head.
Qed.

Lemma skip_ws_head s rest : head_ok s -> skip_ws (s ++ rest) = s ++ rest.
Proof. destruct s as [ | c r ]; [ intros [] | ]. simpl. intros [-> _]. reflexivity. Qed.

Lemma strip_close_head (b : ascii) s rest :
  head_ok s -> (b = "]" \/ b = "}")%char -> strip_prefix [b] (s ++ rest) = None.
Proof.
  destruct s as [ | c r ]; [ intros [] | ]. simpl. intros (_ & H1 & H2) [-> | ->].
  - rewrite Ascii.eqb_sym, H1. reflexivity.
  - rewrite Ascii.eqb_sym, H2. reflexivity.
Qed.


Lemma dict_set_fresh d k v :
  ~ List.In k (map fst d) -> dict_set d k v = d ++ [(k, v)].
Proof.
  induction d as [ | [k' v'] d IH ]; simpl; intros H; [ reflexivity | ].
  destruct (String.eqb_spec k' k) as [-> | _].
  - exfalso. apply H. now left.
  - f_equal. apply IH. intros Hin. apply H. now right.
Qed.

Lemma dict_of_pairs_app acc d :
  List.NoDup (map fst (acc ++ d)) ->
  fold_left (fun a kv => dict_set a (fst kv) (snd kv)) d acc = acc ++ d.
Proof.
  revert acc. induction d as [ | [k v] d IH ]; intros acc H; simpl.
  - now rewrite app_nil_r.
  - rewrite dict_set_fresh.
    + rewrite IH; rewrite <- app_assoc; [ reflexivity | exact H ].
    + rewrite map_app in H. simpl in H. apply NoDup_remove_2 in H.
      intros Hin. apply H. apply in_or_app. now left.
Qed.

Lemma dict_of_pairs_nodup d : List.NoDup (map fst d) -> dict_of_pairs d = d.
Proof. intros H. unfold dict_of_pairs. now rewrite dict_of_pairs_app. Qed.

Lemma parse_value_space fuel s : parse_value fuel (" "%char :: s) = parse_value fuel s.
Proof. destruct fuel; reflexivity. Qed.

Lemma parse_elems_space fuel s : parse_elems fuel (" "%char :: s) = parse_elems fuel s.
Proof. destruct fuel; [ reflexivity | ]. simpl. now rewrite parse_value_space. Qed.

Lemma parse_members_space fuel s : parse_members fuel (" "%char :: s) = parse_members fuel s.
Proof. destruct fuel; reflexivity. Qed.

Definition rt (j : json) : Prop :=
  forall fuel rest, (length (print j) <= fuel)%nat -> follow_ok rest ->
    parse_value fuel (print j ++ rest) = Some (j, rest).

Lemma join_cons {A} (f : A -> list ascii) v w r :
  join f (v :: w :: r) = f v ++ sep_item ++ join f (w :: r).
Proof. reflexivity. Qed.

Lemma rt_elems l :
  Forall rt l -> l <> [] -> forall fuel rest,
  (length (join print l) + 1 <= fuel)%nat ->
  parse_elems fuel (join print l ++ "]"%char :: rest) = Some (l, rest).
Proof.
  induction 1 as [ | v l Hv Hl IH ]; [ congruence | intros _ ].
  intros [ | f ] rest Hf; [ lia | ].
  destruct l as [ | w r ].
  - simpl in *. rewrite Hv; [ reflexivity | | reflexivity ].
    lia.
  - rewrite join_cons in *. specialize (IH ltac:(congruence)).
    remember (join print (w :: r)) as tl eqn:Etl. clear Etl.
    rewrite !length_app in Hf. simpl in Hf.
    cbn [parse_elems]. rewrite <- !app_assoc.
    rewrite Hv; [ | lia | reflexivity ].
    cbn. rewrite parse_elems_space, IH; [ reflexivity | lia ].
Qed.

Lemma parse_member_key k rest :
  match strip_prefix [DQ] (skip_ws (print_string k ++ rest)) with
  | Some r => parse_string_body r
  | None => None
  end = Some (list_ascii_of_string k, rest).
Proof.
  unfold print_string. cbn. rewrite <- app_assoc. apply parse_string_escape.
Qed.

Lemma rt_members d :
  Forall (fun kv => rt (snd kv)) d -> d <> [] -> forall fuel rest,
  (length (join print_member d) + 1 <= fuel)%nat ->
  parse_members fuel (join print_member d ++ "}"%char :: rest) = Some (d, rest).
Proof.
  induction 1 as [ | [k v] d Hv Hd IH ]; [ congruence | intros _ ].
  intros [ | f ] rest Hf; [ lia | ]. simpl in Hv.
  destruct d as [ | w r ].
  - simpl in Hf. rewrite !length_app in Hf. simpl in Hf.
    cbn [parse_members join print_member]. rewrite <- !app_assoc.
    generalize (parse_member_key k (sep_key ++ print v ++ "}"%char :: rest)).
    destruct (strip_prefix _ _) as [ r0 | ]; [ | discriminate ].
    intros ->. cbn. rewrite parse_value_space, Hv; [ | lia | reflexivity ].
    cbn. now rewrite string_of_list_ascii_of_string.
  - rewrite join_cons in *. specialize (IH ltac:(congruence)).
    remember (join print_member (w :: r)) as tl eqn:Etl. clear Etl.
    unfold print_member in Hf. rewrite !length_app in Hf. simpl in Hf.
    cbn [parse_members]. unfold print_member. rewrite <- !app_assoc.
    generalize (parse_member_key k (sep_key ++ print v ++ sep_item ++ tl ++ "}"%char :: rest)).
    destruct (strip_prefix _ _) as [ r0 | ]; [ | discriminate ].
    intros ->. cbn. rewrite parse_value_space, Hv; [ | lia | reflexivity ].
    cbn. rewrite parse_members_space, IH; [ | lia ].
    now rewrite string_of_list_ascii_of_string.
Qed.

Lemma parse_value_arr f r :
  parse_value (S f) ("["%char :: r) =
  match strip_prefix ["]"%char] (skip_ws r) with
  | Some t => Some (JArr [], t)
  | None =>
      match parse_elems f r with
      | Some (l, t) => Some (JArr l, t)
      | None => None
      end
  end.
Proof. reflexivity. Qed.

Lemma parse_value_obj f r :
  parse_value (S f) ("{"%char :: r) =
  match strip_prefix ["}"%char] (skip_ws r) with
  | Some t => Some (JObj [], t)
  | None =>
      match parse_members f r with
      | Some (l, t) => Some (JObj (dict_of_pairs l), t)
      | None => None
      end
  end.
Proof. reflexivity. Qed.

Lemma parse_print j : wf j -> rt j.
Proof.
  induction j as [ | b | z | s | l IH | d IH ] using json_ind2; intros Hwf fuel rest Hf Hr.
  - destruct fuel; [ simpl in Hf; lia | reflexivity ].
  - destruct fuel; [ destruct b; simpl in Hf; lia | destruct b; reflexivity ].
  - generalize (print_head (JInt z)) (parse_int_print z rest Hr) (print_int_chars z).
    simpl in *. destruct (print_int z) as [ | c r ]; [ intros [] | ].
    intros (Hws & _) Hp Hc. inversion Hc; subst.
    destruct fuel; [ simpl in Hf; lia | ].
    cbn [parse_value app skip_ws]. rewrite Hws.
    match goal with H : is_num_char c = true |- _ => rewrite H end.
    simpl in Hp. now rewrite Hp.
  - destruct fuel; [ simpl in Hf; lia | ].
    cbn. rewrite <- app_assoc. cbn. rewrite parse_string_escape.
    now rewrite string_of_list_ascii_of_string.
  - apply wf_arr in Hwf.
    assert (Hrt : Forall rt l).
    { clear Hf. induction IH; inversion Hwf; subst; constructor; auto. }
    destruct fuel as [ | f ]; [ simpl in Hf; lia | ].
    change (print (JArr l)) with ("["%char :: join print l ++ ["]"%char]) in *.
    destruct l as [ | v r ]; [ reflexivity | ].
    assert (Hh : head_ok (join print (v :: r))).
    { generalize (print_head v). destruct r; simpl; [ auto | ].
      destruct (print v); simpl; auto. }
    generalize (rt_elems (v :: r) Hrt ltac:(congruence)).
    remember (join print (v :: r)) as tl eqn:Etl. clear Etl. intros Hel.
    cbn in Hf. rewrite length_app in Hf. cbn in Hf.
    rewrite <- app_comm_cons, <- app_assoc, parse_value_arr. cbn [app].
    rewrite (skip_ws_head _ _ Hh), (strip_close_head _ _ _ Hh); [ | now left ].
    rewrite Hel; [ reflexivity | lia ].
  - apply wf_obj in Hwf. destruct Hwf as [Hnd Hwf].
    assert (Hrt : Forall (fun kv => rt (snd kv)) d).
    { clear Hf Hnd. induction IH; inversion Hwf; subst; constructor; auto. }
    destruct fuel as [ | f ]; [ simpl in Hf; lia | ].
    change (print (JObj d)) with ("{"%char :: join print_member d ++ ["}"%char]) in *.
    destruct d as [ | [k v] r ]; [ reflexivity | ].
    assert (Hh : head_ok (join print_member ((k, v) :: r))).
    { destruct r; simpl; repeat split; reflexivity. }
    generalize (rt_members ((k, v) :: r) Hrt ltac:(congruence)).
    rewrite <- (dict_of_pairs_nodup _ Hnd) at 2.
    remember (join print_member ((k, v) :: r)) as tl eqn:Etl. clear Etl. intros Hel.
    cbn in Hf. rewrite length_app in Hf. cbn in Hf.
    rewrite <- app_comm_cons, <- app_assoc, parse_value_obj. cbn [app].
    rewrite (skip_ws_head _ _ Hh), (strip_close_head _ _ _ Hh); [ | now right ].
    rewrite Hel; [ | lia ].
    now rewrite !dict_of_pairs_nodup.
Qed.

Theorem loads_dumps j : wf j -> loads (dumps j) = Some j.
Proof.
  intros Hwf. unfold loads, dumps.
  rewrite list_ascii_of_string_of_list_ascii.
  generalize (parse_print j Hwf (S (length (print j))) []).
  rewrite app_nil_r. intros ->; [ reflexivity | lia | exact I ].
Qed.



Lemma dumps_nonempty j : dumps j <> EmptyString.
Proof.
  unfold dumps. generalize (print_head j).
  destruct (print j); [ intros [] | discriminate ].
Qed.

Lemma dict_get_set_eq d k v : dict_get (dict_set d k v) k = Some v.
Proof.
  induction d as [ | [k' v'] d IH ]; simpl.
  - now rewrite String.eqb_refl.
  - destruct (String.eqb k' k) eqn:E; simpl; rewrite E; [ reflexivity | exact IH ].
Qed.


Lemma dict_get_pop_eq d k : dict_get (dict_pop d k) k = None.
Proof.
  induction d as [ | [k' v'] d IH ]; simpl; [ reflexivity | ].
  destruct (String.eqb k' k) eqn:E; simpl; [ exact IH | ].
  now rewrite E.
Qed.


Lemma dict_set_keys d k v x :
  List.In x (map fst (dict_set d k v)) -> x = k \/ List.In x (map fst d).
Proof.
  induction d as [ | [k' v'] d IH ]; simpl.
  - intros [<- | []]. now left.
  - destruct (String.eqb k' k); simpl; intros [<- | H]; auto.
    destruct (IH H); auto.
Qed.

Lemma wf_dict_set d k v : wf (JObj d) -> wf v -> wf (JObj (dict_set d k v)).
Proof.
  rewrite !wf_obj. intros [Hn Hf] Hv.
  induction d as [ | [k' v'] d IH ]; simpl.
  - split; [ repeat constructor; intros [] | repeat constructor; exact Hv ].
  - simpl in Hn. inversion Hn as [ | ? ? Hnotin Hn' ]; subst.
    inversion Hf as [ | ? ? Hv' Hf' ]; subst.
    destruct (String.eqb_spec k' k) as [-> | Hk]; simpl.
    + split; [ constructor; assumption | constructor; assumption ].
    + destruct (IH Hn' Hf') as [IH1 IH2].
      split; constructor; try assumption.
      intros Hin. apply dict_set_keys in Hin. destruct Hin; [ congruence | contradiction ].
Qed.

Lemma wf_dict_pop d k : wf (JObj d) -> wf (JObj (dict_pop d k)).
Proof.
  rewrite !wf_obj. intros [Hn Hf].
  induction d as [ | [k' v'] d IH ]; simpl; [ split; constructor | ].
  simpl in Hn. inversion Hn as [ | ? ? Hnotin Hn' ]; subst.
  inversion Hf as [ | ? ? Hv' Hf' ]; subst.
  destruct (IH Hn' Hf') as [IH1 IH2].
  destruct (String.eqb k' k); simpl; [ split; assumption | ].
  split; constructor; try assumption.
  intros Hin. apply Hnotin. unfold dict_pop in Hin.
  apply in_map_iff in Hin. destruct Hin as ([a b] & <- & Hin).
  apply filter_In in Hin. apply in_map_iff. exists (a, b). tauto.
Qed.

End Json.

(** ** Exceptions, results and the state-and-exception monad

    A Python call either returns or raises; what it wrote to the
    database before raising stays written (no transaction is opened by
    the modelled methods). *)

Inductive exn : Type :=
| AttributeError
| AssertionError
| TypeError
| ValueError
| JSONDecodeError
| MultipleObjectsReturned
| IndexError
| AdapterError.

Inductive Res (A : Type) : Type :=
| Ok (a : A)
| Raise (e : exn).
Arguments Ok {A} a.
Arguments Raise {A} e.

Definition M (S A : Type) : Type := S -> Res A * S.

Definition ret {S A : Type} (a : A) : M S A := fun s => (Ok a, s).

Definition bind {S A B : Type} (m : M S A) (k : A -> M S B) : M S B :=
  fun s =>
    match m s with
    | (Ok a, s') => k a s'
    | (Raise e, s') => (Raise e, s')
    end.

Definition raise {S A : Type} (e : exn) : M S A := fun s => (Raise e, s).

Definition lift {S A : Type} (r : Res A) : M S A := fun s => (r, s).

Definition gets {S A : Type} (f : S -> A) : M S A := fun s => (Ok (f s), s).

Definition modify {S : Type} (f : S -> S) : M S unit := fun s => (Ok tt, f s).

(** [try: m  except E: h], for the exceptions selected by [handles]. *)
Definition try_except {S A : Type} (m : M S A) (handles : exn -> bool) (h : M S A) : M S A :=
  fun s =>
    match m s with
    | (Raise e, s') => if handles e then h s' else (Raise e, s')
    | r => r
    end.

Declare Scope monad_scope.
Delimit Scope monad_scope with monad.
Notation "x <- c ;; k" := (bind c (fun x => k))
  (at level 100, c at next level, right associativity) : monad_scope.
Notation "c ;; k" := (bind c (fun _ => k))
  (at level 100, right associativity) : monad_scope.
Local Open Scope monad_scope.

(** [for x in l: body(x)]; an exception leaves the loop. *)
Fixpoint for_each {S A : Type} (l : list A) (body : A -> M S unit) : M S unit :=
  match l with
  | [] => ret tt
  | x :: r => body x ;; for_each r body
  end.

(** A loop whose body updates an object it holds a reference to. *)
Fixpoint for_each_acc {S A B : Type} (l : list A) (acc : B) (body : A -> B -> M S B) : M S B :=
  match l with
  | [] => ret acc
  | x :: r => acc' <- body x acc ;; for_each_acc r acc' body
  end.

(** ** Database tables

    A table maps primary keys to rows and hands out fresh keys. *)

Record Table (A : Type) : Type := { rows : gmap nat A; next_pk : nat }.
Arguments rows {A} t.
Arguments next_pk {A} t.

Definition empty_table {A : Type} : Table A := {| rows := ∅; next_pk := 1 |}.

(** INSERT of a new row: returns its key. *)
Definition tbl_insert {A : Type} (v : A) (t : Table A) : nat * Table A :=
  (next_pk t, {| rows := <[next_pk t := v]> (rows t); next_pk := S (next_pk t) |}).

(** Write of the row with key [k] (UPDATE, or INSERT under that key). *)
Definition tbl_write {A : Type} (k : nat) (v : A) (t : Table A) : Table A :=
  {| rows := <[k := v]> (rows t); next_pk := Nat.max (next_pk t) (S k) |}.

(** DELETE of the row with key [k]; deleting an absent row deletes nothing. *)
Definition tbl_delete {A : Type} (k : nat) (t : Table A) : Table A :=
  {| rows := delete k (rows t); next_pk := next_pk t |}.

(** Rows satisfying a filter, with their keys. *)
Definition tbl_filter {A : Type} (p : A -> bool) (t : Table A) : list (nat * A) :=
  List.filter (fun kv => p (snd kv)) (map_to_list (rows t)).

(** A model instance held in memory: its primary key ([None] before the
    first save and after [delete]) and its field values. *)
Record Inst (A : Type) : Type := { inst_pk : option nat; inst_val : A }.
Arguments inst_pk {A} i.
Arguments inst_val {A} i.

(** Truth value of a primary key ([not self.pk]). *)
Definition pk_truthy (pk : option nat) : bool :=
  match pk with
  | Some (S _) => true
  | _ => false
  end.

(** ** The data model *)

Module Community.
Record t : Type := {
  id : nat;
  community_name : string;
  platform : option string   (* [None] on the base class, a name on subclasses *)
}.
End Community.

(** The permission strings an initiator holds are those Django's
    backend collects for the user (own and role-granted). *)
Module CommunityUser.
Record t : Type := {
  pk : nat;
  username : string;
  is_active : bool;
  is_superuser : bool;
  permissions : gset string
}.

Definition has_perm (self : t) (perm : string) : bool :=
  is_active self && (is_superuser self || bool_decide (perm ∈ permissions self)).
End CommunityUser.

Module CommunityDoc.
Record t : Type := {
  name : string;
  text : string;
  community : option nat
}.
End CommunityDoc.

Module CommunityRole.
Record t : Type := {
  name : string;             (* the group name *)
  role_name : option string;
  description : option string;
  community : option nat
}.
End CommunityRole.

Module BasePolicy.
Record t : Type := {
  filter : string;
  initialize : string;
  check : string;
  notify : string;
  success : string;
  fail : string;
  name : option string;
  community : nat;
  description : option string;
  is_bundled : bool;
  has_notified : bool;
  data : option nat
}.
End BasePolicy.

Module BooleanVote.
Record t : Type := {
  user : nat;
  proposal : nat;
  boolean_value : option bool
}.
End BooleanVote.

Module NumberVote.
Record t : Type := {
  user : nat;
  proposal : nat;
  number_value : option Z
}.
End NumberVote.

Module Proposal.
Inductive Status : Type := PROPOSED | FAILED | PASSED.

Record t : Type := {
  pk : option nat;
  status : Status;
  author : option nat;
  data : option nat          (* the DataStore created with the proposal *)
}.

Definition with_status (s : Status) (self : t) : t :=
  {| pk := pk self; status := s; author := author self; data := data self |}.

Definition with_pk (k : option nat) (self : t) : t :=
  {| pk := k; status := status self; author := author self; data := data self |}.

Definition with_data (d : option nat) (self : t) : t :=
  {| pk := pk self; status := status self; author := author self; data := d |}.
End Proposal.

(** The two action families. *)
Inductive Family : Type := Constitution | Platform.

(** What the model layer does that the properties below observe: the
    start of an action's real effect, and a call of [execute_policy]
    (the only way a policy hook is run). *)
Inductive Event : Type :=
| EvEffect (fam : Family) (pk : option nat)
| EvExecutePolicy (policy_pk : option nat) (fam : Family) (pk : option nat).

(** An entry of the activity stream ([action.send]). *)
Record Activity : Type := {
  actor : Family * option nat;
  verb : string;
  community_id : nat
}.

Record World : Type := {
  datastores : Table string;
  proposals : Table Proposal.t;
  docs : Table CommunityDoc.t;
  roles : Table CommunityRole.t;
  role_permissions : gmap nat (gset string);
  role_users : gmap nat (gset nat);
  platform_policies : Table BasePolicy.t;
  constitution_policies : Table BasePolicy.t;
  constitution_actions : Table string;   (* saved action rows, by class *)
  platform_actions : Table string;
  boolean_votes : list BooleanVote.t;
  number_votes : list NumberVote.t;
  activity : list Activity;
  trace : list Event
}.

Definition set_datastores (x : Table string) (w : World) : World :=
  {| datastores := x; proposals := proposals w; docs := docs w; roles := roles w;
     role_permissions := role_permissions w; role_users := role_users w;
     platform_policies := platform_policies w;
     constitution_policies := constitution_policies w;
     constitution_actions := constitution_actions w;
     platform_actions := platform_actions w;
     boolean_votes := boolean_votes w; number_votes := number_votes w;
     activity := activity w; trace := trace w |}.

Definition set_proposals (x : Table Proposal.t) (w : World) : World :=
  {| datastores := datastores w; proposals := x; docs := docs w; roles := roles w;
     role_permissions := role_permissions w; role_users := role_users w;
     platform_policies := platform_policies w;
     constitution_policies := constitution_policies w;
     constitution_actions := constitution_actions w;
     platform_actions := platform_actions w;
     boolean_votes := boolean_votes w; number_votes := number_votes w;
     activity := activity w; trace := trace w |}.

Definition set_docs (x : Table CommunityDoc.t) (w : World) : World :=
  {| datastores := datastores w; proposals := proposals w; docs := x; roles := roles w;
     role_permissions := role_permissions w; role_users := role_users w;
     platform_policies := platform_policies w;
     constitution_policies := constitution_policies w;
     constitution_actions := constitution_actions w;
     platform_actions := platform_actions w;
     boolean_votes := boolean_votes w; number_votes := number_votes w;
     activity := activity w; trace := trace w |}.

Definition set_roles (x : Table CommunityRole.t) (w : World) : World :=
  {| datastores := datastores w; proposals := proposals w; docs := docs w; roles := x;
     role_permissions := role_permissions w; role_users := role_users w;
     platform_policies := platform_policies w;
     constitution_policies := constitution_policies w;
     constitution_actions := constitution_actions w;
     platform_actions := platform_actions w;
     boolean_votes := boolean_votes w; number_votes := number_votes w;
     activity := activity w; trace := trace w |}.

Definition set_role_permissions (x : gmap nat (gset string)) (w : World) : World :=
  {| datastores := datastores w; proposals := proposals w; docs := docs w; roles := roles w;
     role_permissions := x; role_users := role_users w;
     platform_policies := platform_policies w;
     constitution_policies := constitution_policies w;
     constitution_actions := constitution_actions w;
     platform_actions := platform_actions w;
     boolean_votes := boolean_votes w; number_votes := number_votes w;
     activity := activity w; trace := trace w |}.

Definition set_role_users (x : gmap nat (gset nat)) (w : World) : World :=
  {| datastores := datastores w; proposals := proposals w; docs := docs w; roles := roles w;
     role_permissions := role_permissions w; role_users := x;
     platform_policies := platform_policies w;
     constitution_policies := constitution_policies w;
     constitution_actions := constitution_actions w;
     platform_actions := platform_actions w;
     boolean_votes := boolean_votes w; number_votes := number_votes w;
     activity := activity w; trace := trace w |}.

Definition set_platform_policies (x : Table BasePolicy.t) (w : World) : World :=
  {| datastores := datastores w; proposals := proposals w; docs := docs w; roles := roles w;
     role_permissions := role_permissions w; role_users := role_users w;
     platform_policies := x;
     constitution_policies := constitution_policies w;
     constitution_actions := constitution_actions w;
     platform_actions := platform_actions w;
     boolean_votes := boolean_votes w; number_votes := number_votes w;
     activity := activity w; trace := trace w |}.

Definition set_constitution_policies (x : Table BasePolicy.t) (w : World) : World :=
  {| datastores := datastores w; proposals := proposals w; docs := docs w; roles := roles w;
     role_permissions := role_permissions w; role_users := role_users w;
     platform_policies := platform_policies w;
     constitution_policies := x;
     constitution_actions := constitution_actions w;
     platform_actions := platform_actions w;
     boolean_votes := boolean_votes w; number_votes := number_votes w;
     activity := activity w; trace := trace w |}.

Definition set_constitution_actions (x : Table string) (w : World) : World :=
  {| datastores := datastores w; proposals := proposals w; docs := docs w; roles := roles w;
     role_permissions := role_permissions w; role_users := role_users w;
     platform_policies := platform_policies w;
     constitution_policies := constitution_policies w;
     constitution_actions := x;
     platform_actions := platform_actions w;
     boolean_votes := boolean_votes w; number_votes := number_votes w;
     activity := activity w; trace := trace w |}.

Definition set_platform_actions (x : Table string) (w : World) : World :=
  {| datastores := datastores w; proposals := proposals w; docs := docs w; roles := roles w;
     role_permissions := role_permissions w; role_users := role_users w;
     platform_policies := platform_policies w;
     constitution_policies := constitution_policies w;
     constitution_actions := constitution_actions w;
     platform_actions := x;
     boolean_votes := boolean_votes w; number_votes := number_votes w;
     activity := activity w; trace := trace w |}.

Definition set_boolean_votes (x : list BooleanVote.t) (w : World) : World :=
  {| datastores := datastores w; proposals := proposals w; docs := docs w; roles := roles w;
     role_permissions := role_permissions w; role_users := role_users w;
     platform_policies := platform_policies w;
     constitution_policies := constitution_policies w;
     constitution_actions := constitution_actions w;
     platform_actions := platform_actions w;
     boolean_votes := x; number_votes := number_votes w;
     activity := activity w; trace := trace w |}.

Definition set_number_votes (x : list NumberVote.t) (w : World) : World :=
  {| datastores := datastores w; proposals := proposals w; docs := docs w; roles := roles w;
     role_permissions := role_permissions w; role_users := role_users w;
     platform_policies := platform_policies w;
     constitution_policies := constitution_policies w;
     constitution_actions := constitution_actions w;
     platform_actions := platform_actions w;
     boolean_votes := boolean_votes w; number_votes := x;
     activity := activity w; trace := trace w |}.

Definition set_activity (x : list Activity) (w : World) : World :=
  {| datastores := datastores w; proposals := proposals w; docs := docs w; roles := roles w;
     role_permissions := role_permissions w; role_users := role_users w;
     platform_policies := platform_policies w;
     constitution_policies := constitution_policies w;
     constitution_actions := constitution_actions w;
     platform_actions := platform_actions w;
     boolean_votes := boolean_votes w; number_votes := number_votes w;
     activity := x; trace := trace w |}.

Definition set_trace (x : list Event) (w : World) : World :=
  {| datastores := datastores w; proposals := proposals w; docs := docs w; roles := roles w;
     role_permissions := role_permissions w; role_users := role_users w;
     platform_policies := platform_policies w;
     constitution_policies := constitution_policies w;
     constitution_actions := constitution_actions w;
     platform_actions := platform_actions w;
     boolean_votes := boolean_votes w; number_votes := number_votes w;
     activity := activity w; trace := x |}.

Definition empty_world : World :=
  {| datastores := empty_table; proposals := empty_table; docs := empty_table;
     roles := empty_table; role_permissions := ∅; role_users := ∅;
     platform_policies := empty_table; constitution_policies := empty_table;
     constitution_actions := empty_table; platform_actions := empty_table;
     boolean_votes := []; number_votes := []; activity := []; trace := [] |}.

(** Appends an event to the trace. *)
Definition log (e : Event) : M World unit :=
  modify (fun w => set_trace (trace w ++ [e]) w).

(** ** [DataStore] *)

Module DataStore.
Import Json.

Record t : Type := { pk : option nat; data_store : string }.

(** [Model.save]: INSERT for a new object, UPDATE otherwise. *)
Definition save (self : t) : M World t :=
  fun w =>
    match pk self with
    | Some k => (Ok self, set_datastores (tbl_write k (data_store self) (datastores w)) w)
    | None =>
        let '(k, tb) := tbl_insert (data_store self) (datastores w) in
        (Ok {| pk := Some k; data_store := data_store self |}, set_datastores tb w)
    end.

(** [DataStore.objects.create()]: the text field defaults to the empty string. *)
Definition objects_create : M World t :=
  save {| pk := None; data_store := EmptyString |}.

Definition _get_data_store (self : t) : Res json :=
  if negb (String.eqb (data_store self) EmptyString) then
    match loads (data_store self) with
    | Some obj => Ok obj
    | None => Raise JSONDecodeError
    end
  else Ok (JObj []).

Definition _set_data_store (self : t) (obj : json) : M World t :=
  save {| pk := pk self; data_store := dumps obj |}.

(** [obj.get(key, None)]: only a [dict] has the method. *)
Definition get (self : t) (key : string) : Res json :=
  match _get_data_store self with
  | Ok (JObj d) => Ok (default JNull (dict_get d key))
  | Ok _ => Raise AttributeError
  | Raise e => Raise e
  end.

(** [obj[key] = value]; the method returns [True] and the updated object. *)
Definition set (self : t) (key : string) (value : json) : M World (bool * t) :=
  match _get_data_store self with
  | Ok (JObj d) =>
      self' <- _set_data_store self (JObj (dict_set d key value)) ;;
      ret (true, self')
  | Ok _ => raise TypeError
  | Raise e => raise e
  end.

(** [res = obj.pop(key, None)], then [False] when [not res]. *)
Definition remove (self : t) (key : string) : M World (bool * t) :=
  match _get_data_store self with
  | Ok (JObj d) =>
      let res := default JNull (dict_get d key) in
      self' <- _set_data_store self (JObj (dict_pop d key)) ;;
      ret (if negb (truthy res) then false else true, self')
  | Ok (JArr _) => raise TypeError
  | Ok _ => raise AttributeError
  | Raise e => raise e
  end.

(** The text of a store is empty or was written by [_set_data_store]. *)
Definition wf (self : t) : Prop :=
  data_store self = EmptyString \/
  exists d, Json.wf (JObj d) /\ data_store self = dumps (JObj d).





End DataStore.

(** ** [Proposal] *)

(** [Proposal.save]: a new proposal gets a DataStore of its own, then
    the row is written. *)
Definition Proposal_save (self : Proposal.t) : M World Proposal.t :=
  self <- (if negb (pk_truthy (Proposal.pk self)) then
             ds <- DataStore.objects_create ;;
             ret (Proposal.with_data (DataStore.pk ds) self)
           else ret self) ;;
  fun w =>
    match Proposal.pk self with
    | Some k => (Ok self, set_proposals (tbl_write k self (proposals w)) w)
    | None =>
        let self' := Proposal.with_pk (Some (next_pk (proposals w))) self in
        (Ok self', set_proposals (snd (tbl_insert self' (proposals w))) w)
    end.

(** [Proposal.objects.create(status=..., author=...)] *)
Definition Proposal_objects_create (status : Proposal.Status) (author : option nat)
  : M World Proposal.t :=
  Proposal_save {| Proposal.pk := None; Proposal.status := status;
                   Proposal.author := author; Proposal.data := None |}.

(** The status stored for the proposal with key [k]. *)
Definition stored_status (w : World) (k : nat) : option Proposal.Status :=
  Proposal.status <$> rows (proposals w) !! k.

(** *** Vote tallies *)

(** [if users:] holds for a non-empty collection only. *)
Definition users_truthy (users : option (list CommunityUser.t)) : bool :=
  match users with
  | Some (_ :: _) => true
  | _ => false
  end.

(** [user__in=users] *)
Definition user_in (users : option (list CommunityUser.t)) (u : nat) : bool :=
  existsb (fun x => Nat.eqb (CommunityUser.pk x) u) (default [] users).

(** [proposal=self]; a proposal without a key matches no vote. *)
Definition proposal_is (self : Proposal.t) (p : nat) : bool :=
  bool_decide (Proposal.pk self = Some p).

Definition Proposal_get_all_boolean_votes (self : Proposal.t)
    (users : option (list CommunityUser.t)) (w : World) : list BooleanVote.t :=
  if users_truthy users then
    List.filter (fun v => proposal_is self (BooleanVote.proposal v)
                          && user_in users (BooleanVote.user v)) (boolean_votes w)
  else
    List.filter (fun v => proposal_is self (BooleanVote.proposal v)) (boolean_votes w).

Definition Proposal_get_yes_votes (self : Proposal.t)
    (users : option (list CommunityUser.t)) (w : World) : list BooleanVote.t :=
  if users_truthy users then
    List.filter (fun v => bool_decide (BooleanVote.boolean_value v = Some true)
                          && proposal_is self (BooleanVote.proposal v)
                          && user_in users (BooleanVote.user v)) (boolean_votes w)
  else
    List.filter (fun v => bool_decide (BooleanVote.boolean_value v = Some true)
                          && proposal_is self (BooleanVote.proposal v)) (boolean_votes w).

Definition Proposal_get_no_votes (self : Proposal.t)
    (users : option (list CommunityUser.t)) (w : World) : list BooleanVote.t :=
  if users_truthy users then
    List.filter (fun v => bool_decide (BooleanVote.boolean_value v = Some false)
                          && proposal_is self (BooleanVote.proposal v)
                          && user_in users (BooleanVote.user v)) (boolean_votes w)
  else
    List.filter (fun v => bool_decide (BooleanVote.boolean_value v = Some false)
                          && proposal_is self (BooleanVote.proposal v)) (boolean_votes w).

Definition Proposal_get_all_number_votes (self : Proposal.t)
    (users : option (list CommunityUser.t)) (w : World) : list NumberVote.t :=
  if users_truthy users then
    List.filter (fun v => proposal_is self (NumberVote.proposal v)
                          && user_in users (NumberVote.user v)) (number_votes w)
  else
    List.filter (fun v => proposal_is self (NumberVote.proposal v)) (number_votes w).

Definition Proposal_get_one_number_votes (self : Proposal.t) (value : Z)
    (users : option (list CommunityUser.t)) (w : World) : list NumberVote.t :=
  if users_truthy users then
    List.filter (fun v => bool_decide (NumberVote.number_value v = Some value)
                          && proposal_is self (NumberVote.proposal v)
                          && user_in users (NumberVote.user v)) (number_votes w)
  else
    List.filter (fun v => bool_decide (NumberVote.number_value v = Some value)
                          && proposal_is self (NumberVote.proposal v)) (number_votes w).

(** *** Casting a vote *)

Inductive VoteValue : Type :=
| BooleanValue (b : bool)
| NumberValue (n : Z).

(** Modelled from the spec: the function that casts a vote is not in
    [models.py] (the vote classes only declare the rows).  The spec's
    section 4.3 says: [castVote(proposal, member, value)] records or
    replaces that member's vote.  The member's earlier votes on the
    proposal are dropped and the new one is recorded. *)
Definition castVote (proposal member : nat) (value : VoteValue) (w : World) : World :=
  let bs := List.filter
              (fun v => negb (Nat.eqb (BooleanVote.proposal v) proposal
                              && Nat.eqb (BooleanVote.user v) member))
              (boolean_votes w) in
  let ns := List.filter
              (fun v => negb (Nat.eqb (NumberVote.proposal v) proposal
                              && Nat.eqb (NumberVote.user v) member))
              (number_votes w) in
  match value with
  | BooleanValue b =>
      set_number_votes ns
        (set_boolean_votes
           (bs ++ [ {| BooleanVote.user := member; BooleanVote.proposal := proposal;
                       BooleanVote.boolean_value := Some b |} ]) w)
  | NumberValue n =>
      set_boolean_votes bs
        (set_number_votes
           (ns ++ [ {| NumberVote.user := member; NumberVote.proposal := proposal;
                       NumberVote.number_value := Some n |} ]) w)
  end.

(** The number of votes, of either kind, a member has on a proposal. *)
Definition votes_of (proposal member : nat) (w : World) : nat :=
  (length (List.filter (fun v => Nat.eqb (BooleanVote.proposal v) proposal
                                 && Nat.eqb (BooleanVote.user v) member)
                       (boolean_votes w))
   + length (List.filter (fun v => Nat.eqb (NumberVote.proposal v) proposal
                                   && Nat.eqb (NumberVote.user v) member)
                         (number_votes w)))%nat.

(** ** The object-relational layer, as the modelled methods use it *)

Section Orm.
Context {A : Type} (tbl : World -> Table A) (set_tbl : Table A -> World -> World).

(** [obj.save()] *)
Definition inst_save (i : Inst A) : M World (Inst A) :=
  fun w =>
    match inst_pk i with
    | Some k => (Ok i, set_tbl (tbl_write k (inst_val i) (tbl w)) w)
    | None =>
        let '(k, tb) := tbl_insert (inst_val i) (tbl w) in
        (Ok {| inst_pk := Some k; inst_val := inst_val i |}, set_tbl tb w)
    end.

(** [obj.delete()]: asserts that the object has a key; clears it. *)
Definition inst_delete (i : Inst A) : M World (Inst A) :=
  match inst_pk i with
  | None => raise AssertionError
  | Some k =>
      modify (fun w => set_tbl (tbl_delete k (tbl w)) w) ;;
      ret {| inst_pk := None; inst_val := inst_val i |}
  end.

(** [objects.get_or_create(...)] *)
Definition get_or_create (matches : A -> bool) (defaults : A) : M World (Inst A) :=
  fun w =>
    match tbl_filter matches (tbl w) with
    | [] => inst_save {| inst_pk := None; inst_val := defaults |} w
    | [(k, v)] => (Ok {| inst_pk := Some k; inst_val := v |}, w)
    | _ => (Raise MultipleObjectsReturned, w)
    end.

End Orm.

(** [None.attr] raises [AttributeError]. *)
Definition deref {S A : Type} (o : option A) : M S A :=
  match o with
  | Some x => ret x
  | None => raise AttributeError
  end.

(** The many-to-many relations of a role need the role's key. *)
Definition m2m_key {S A : Type} (i : Inst A) : M S nat :=
  match inst_pk i with
  | Some k => ret k
  | None => raise ValueError
  end.

Definition role_permissions_add (role : Inst CommunityRole.t) (p : string) : M World unit :=
  k <- m2m_key role ;;
  modify (fun w => set_role_permissions
                     (<[k := {[p]} ∪ default ∅ (role_permissions w !! k)]> (role_permissions w)) w).

Definition role_permissions_clear (role : Inst CommunityRole.t) : M World unit :=
  k <- m2m_key role ;;
  modify (fun w => set_role_permissions (<[k := ∅]> (role_permissions w)) w).

Definition role_user_set_add (role : Inst CommunityRole.t) (u : CommunityUser.t) : M World unit :=
  k <- m2m_key role ;;
  modify (fun w => set_role_users
                     (<[k := {[CommunityUser.pk u]} ∪ default ∅ (role_users w !! k)]> (role_users w)) w).

Definition role_user_set_remove (role : Inst CommunityRole.t) (u : CommunityUser.t) : M World unit :=
  k <- m2m_key role ;;
  modify (fun w => set_role_users
                     (<[k := default ∅ (role_users w !! k) ∖ {[CommunityUser.pk u]}]> (role_users w)) w).

(** Deleting a role also deletes its rows in the two relations. *)
Definition role_delete (role : Inst CommunityRole.t) : M World (Inst CommunityRole.t) :=
  role' <- inst_delete roles set_roles role ;;
  match inst_pk role with
  | Some k =>
      modify (fun w => set_role_users (delete k (role_users w))
                         (set_role_permissions (delete k (role_permissions w)) w)) ;;
      ret role'
  | None => ret role'
  end.

(** ** Constitution actions *)

Module EditorModel.
Record t : Type := {
  name : option string;
  description : option string;
  filter : string;
  initialize : string;
  check : string;
  notify : string;
  success : string;
  fail : string
}.
End EditorModel.

(** The concrete action classes, each with its own fields.  A foreign
    key is the related object as the attribute yields it: [None] when
    the key is NULL. *)
Inductive ConstitutionKind : Type :=
| PolicykitAddCommunityDoc (name text : string)
| PolicykitChangeCommunityDoc (doc : option (Inst CommunityDoc.t)) (name text : string)
| PolicykitDeleteCommunityDoc (doc : option (Inst CommunityDoc.t))
| PolicykitAddRole (name : string) (description : option string) (permissions : list string)
| PolicykitDeleteRole (role : option (Inst CommunityRole.t))
| PolicykitEditRole (role : option (Inst CommunityRole.t)) (name : string)
    (description : option string) (permissions : list string)
| PolicykitAddUserRole (role : option (Inst CommunityRole.t)) (users : list CommunityUser.t)
| PolicykitRemoveUserRole (role : option (Inst CommunityRole.t)) (users : list CommunityUser.t)
| PolicykitAddPlatformPolicy (e : EditorModel.t)
| PolicykitAddConstitutionPolicy (e : EditorModel.t)
| PolicykitChangePlatformPolicy (platform_policy : option (Inst BasePolicy.t)) (e : EditorModel.t)
| PolicykitChangeConstitutionPolicy (constitution_policy : option (Inst BasePolicy.t))
    (e : EditorModel.t)
| PolicykitRemovePlatformPolicy (platform_policy : option (Inst BasePolicy.t))
| PolicykitRemoveConstitutionPolicy (constitution_policy : option (Inst BasePolicy.t)).

Definition class_name (k : ConstitutionKind) : string :=
  match k with
  | PolicykitAddCommunityDoc _ _ => "PolicykitAddCommunityDoc"
  | PolicykitChangeCommunityDoc _ _ _ => "PolicykitChangeCommunityDoc"
  | PolicykitDeleteCommunityDoc _ => "PolicykitDeleteCommunityDoc"
  | PolicykitAddRole _ _ _ => "PolicykitAddRole"
  | PolicykitDeleteRole _ => "PolicykitDeleteRole"
  | PolicykitEditRole _ _ _ _ => "PolicykitEditRole"
  | PolicykitAddUserRole _ _ => "PolicykitAddUserRole"
  | PolicykitRemoveUserRole _ _ => "PolicykitRemoveUserRole"
  | PolicykitAddPlatformPolicy _ => "PolicykitAddPlatformPolicy"
  | PolicykitAddConstitutionPolicy _ => "PolicykitAddConstitutionPolicy"
  | PolicykitChangePlatformPolicy _ _ => "PolicykitChangePlatformPolicy"
  | PolicykitChangeConstitutionPolicy _ _ => "PolicykitChangeConstitutionPolicy"
  | PolicykitRemovePlatformPolicy _ => "PolicykitRemovePlatformPolicy"
  | PolicykitRemoveConstitutionPolicy _ => "PolicykitRemoveConstitutionPolicy"
  end.

Definition action_codename (k : ConstitutionKind) : string :=
  match k with
  | PolicykitAddCommunityDoc _ _ => "policykitaddcommunitydoc"
  | PolicykitChangeCommunityDoc _ _ _ => "policykitchangecommunitydoc"
  | PolicykitDeleteCommunityDoc _ => "policykitdeletecommunitydoc"
  | PolicykitAddRole _ _ _ => "policykitaddrole"
  | PolicykitDeleteRole _ => "policykitdeleterole"
  | PolicykitEditRole _ _ _ _ => "policykiteditrole"
  | PolicykitAddUserRole _ _ => "policykitadduserrole"
  | PolicykitRemoveUserRole _ _ => "policykitremoveuserrole"
  | PolicykitAddPlatformPolicy _ => "policykitaddplatformpolicy"
  | PolicykitAddConstitutionPolicy _ => "policykitaddconstitutionpolicy"
  | PolicykitChangePlatformPolicy _ _ => "policykitchangeplatformpolicy"
  | PolicykitChangeConstitutionPolicy _ _ => "policykitchangeconstitutionpolicy"
  | PolicykitRemovePlatformPolicy _ => "policykitremoveplatformpolicy"
  | PolicykitRemoveConstitutionPolicy _ => "policykitremoveconstitutionpolicy"
  end.

(** The bypass permission each class declares in its [Meta]. *)
Definition meta_permission (k : ConstitutionKind) : string :=
  match k with
  | PolicykitAddCommunityDoc _ _ => "can_execute_policykitaddcommunitydoc"
  | PolicykitChangeCommunityDoc _ _ _ => "can_execute_policykitchangecommunitydoc"
  | PolicykitDeleteCommunityDoc _ => "can_execute_policykitdeletecommunitydoc"
  | PolicykitAddRole _ _ _ => "can_execute_policykitaddrole"
  | PolicykitDeleteRole _ => "can_execute_policykitdeleterole"
  | PolicykitEditRole _ _ _ _ => "can_execute_policykiteditrole"
  | PolicykitAddUserRole _ _ => "can_execute_policykitadduserrole"
  | PolicykitRemoveUserRole _ _ => "can_execute_policykitremoveuserrole"
  | PolicykitAddPlatformPolicy _ => "can_execute_addpolicykitplatformpolicy"
  | PolicykitAddConstitutionPolicy _ => "can_execute_policykitaddconstitutionpolicy"
  | PolicykitChangePlatformPolicy _ _ => "can_execute_policykitchangeplatformpolicy"
  | PolicykitChangeConstitutionPolicy _ _ => "can_execute_policykitchangeconstitutionpolicy"
  | PolicykitRemovePlatformPolicy _ => "can_execute_policykitremoveplatformpolicy"
  | PolicykitRemoveConstitutionPolicy _ => "can_execute_policykitremoveconstitutionpolicy"
  end.

(** [BaseAction.app_name], also the app label of the classes of this file. *)
Definition app_name : string := "policyengine".

Module ConstitutionAction.

Record t : Type := {
  pk : option nat;
  community : Community.t;
  initiator : CommunityUser.t;
  is_bundled : bool;
  data : option DataStore.t;
  proposal : option Proposal.t;    (* [None]: the attribute is not set *)
  ready : bool;                    (* read by the role classes only *)
  kind : ConstitutionKind
}.

Definition with_pk (x : option nat) (self : t) : t :=
  {| pk := x; community := community self; initiator := initiator self;
     is_bundled := is_bundled self; data := data self; proposal := proposal self;
     ready := ready self; kind := kind self |}.

Definition with_data (x : option DataStore.t) (self : t) : t :=
  {| pk := pk self; community := community self; initiator := initiator self;
     is_bundled := is_bundled self; data := x; proposal := proposal self;
     ready := ready self; kind := kind self |}.

Definition with_proposal (x : option Proposal.t) (self : t) : t :=
  {| pk := pk self; community := community self; initiator := initiator self;
     is_bundled := is_bundled self; data := data self; proposal := x;
     ready := ready self; kind := kind self |}.

Definition with_kind (x : ConstitutionKind) (self : t) : t :=
  {| pk := pk self; community := community self; initiator := initiator self;
     is_bundled := is_bundled self; data := data self; proposal := proposal self;
     ready := ready self; kind := x |}.

Definition pass_action (self : t) : M World t :=
  p <- deref (proposal self) ;;
  p' <- Proposal_save (Proposal.with_status Proposal.PASSED p) ;;
  modify (fun w => set_activity
                     (activity w ++ [ {| actor := (Constitution, pk self);
                                         verb := "was passed";
                                         community_id := Community.id (community self) |} ]) w) ;;
  ret (with_proposal (Some p') self).

Definition fail_action (self : t) : M World t :=
  p <- deref (proposal self) ;;
  p' <- Proposal_save (Proposal.with_status Proposal.FAILED p) ;;
  ret (with_proposal (Some p') self).

Definition shouldCreate (self : t) : bool :=
  match kind self with
  | PolicykitAddRole _ _ _
  | PolicykitEditRole _ _ _ _
  | PolicykitAddUserRole _ _
  | PolicykitRemoveUserRole _ _ => ready self
  | _ => negb (pk_truthy (pk self))   (* runs only when object is new *)
  end.

(** [self._meta.app_label + '.add_' + self.action_codename] *)
Definition propose_perm (k : ConstitutionKind) : string :=
  (app_name +:+ ".add_" +:+ action_codename k)%string.

(** [action.app_name + '.can_execute_' + action.action_codename] *)
Definition execute_perm (k : ConstitutionKind) : string :=
  (app_name +:+ ".can_execute_" +:+ action_codename k)%string.

(** *** The real effect of each class ([execute]) *)

Definition PolicykitAddCommunityDoc_execute (self : t) (name text : string) : M World t :=
  doc <- get_or_create docs set_docs
           (fun d => bool_decide (CommunityDoc.name d = name)
                     && bool_decide (CommunityDoc.text d = text))
           {| CommunityDoc.name := name; CommunityDoc.text := text;
              CommunityDoc.community := None |} ;;
  inst_save docs set_docs
    {| inst_pk := inst_pk doc;
       inst_val := {| CommunityDoc.name := CommunityDoc.name (inst_val doc);
                      CommunityDoc.text := CommunityDoc.text (inst_val doc);
                      CommunityDoc.community := Some (Community.id (community self)) |} |} ;;
  pass_action self.

Definition PolicykitChangeCommunityDoc_execute (self : t)
    (doc : option (Inst CommunityDoc.t)) (name text : string) : M World t :=
  d <- deref doc ;;
  d' <- inst_save docs set_docs
          {| inst_pk := inst_pk d;
             inst_val := {| CommunityDoc.name := name; CommunityDoc.text := text;
                            CommunityDoc.community := CommunityDoc.community (inst_val d) |} |} ;;
  pass_action (with_kind (PolicykitChangeCommunityDoc (Some d') name text) self).

Definition PolicykitDeleteCommunityDoc_execute (self : t)
    (doc : option (Inst CommunityDoc.t)) : M World t :=
  d <- deref doc ;;
  d' <- inst_delete docs set_docs d ;;
  pass_action (with_kind (PolicykitDeleteCommunityDoc (Some d')) self).

Definition PolicykitAddRole_execute (self : t) (name : string)
    (description : option string) (permissions : list string) : M World t :=
  match Community.platform (community self) with
  | None => raise TypeError          (* [None + ": "] *)
  | Some platform =>
      let group_name :=
        (platform +:+ ": " +:+ Community.community_name (community self) +:+ ": " +:+ name)%string in
      role <- get_or_create roles set_roles
                (fun r => bool_decide (CommunityRole.role_name r = Some name)
                          && bool_decide (CommunityRole.name r = group_name)
                          && bool_decide (CommunityRole.description r = description))
                {| CommunityRole.name := group_name; CommunityRole.role_name := Some name;
                   CommunityRole.description := description;
                   CommunityRole.community := None |} ;;
      for_each permissions (fun p => role_permissions_add role p) ;;
      inst_save roles set_roles
        {| inst_pk := inst_pk role;
           inst_val := {| CommunityRole.name := CommunityRole.name (inst_val role);
                          CommunityRole.role_name := CommunityRole.role_name (inst_val role);
                          CommunityRole.description := CommunityRole.description (inst_val role);
                          CommunityRole.community := Some (Community.id (community self)) |} |} ;;
      pass_action self
  end.

Definition is_AssertionError (e : exn) : bool :=
  match e with
  | AssertionError => true
  | _ => false
  end.

(** [try: self.role.delete()  except AssertionError: pass] *)
Definition PolicykitDeleteRole_execute (self : t)
    (role : option (Inst CommunityRole.t)) : M World t :=
  role' <- try_except (r <- deref role ;; r' <- role_delete r ;; ret (Some r'))
             is_AssertionError (ret role) ;;
  pass_action (with_kind (PolicykitDeleteRole role') self).

Definition PolicykitEditRole_execute (self : t) (role : option (Inst CommunityRole.t))
    (name : string) (description : option string) (permissions : list string) : M World t :=
  r <- deref role ;;
  let r1 := {| inst_pk := inst_pk r;
               inst_val := {| CommunityRole.name := CommunityRole.name (inst_val r);
                              CommunityRole.role_name := Some name;
                              CommunityRole.description := description;
                              CommunityRole.community := CommunityRole.community (inst_val r) |} |} in
  role_permissions_clear r1 ;;
  for_each permissions (fun p => role_permissions_add r1 p) ;;
  r2 <- inst_save roles set_roles r1 ;;
  pass_action (with_kind (PolicykitEditRole (Some r2) name description permissions) self).

Definition PolicykitAddUserRole_execute (self : t) (role : option (Inst CommunityRole.t))
    (users : list CommunityUser.t) : M World t :=
  for_each users (fun u => r <- deref role ;; role_user_set_add r u) ;;
  pass_action self.

Definition PolicykitRemoveUserRole_execute (self : t) (role : option (Inst CommunityRole.t))
    (users : list CommunityUser.t) : M World t :=
  for_each users (fun u => r <- deref role ;; role_user_set_remove r u) ;;
  pass_action self.

(** A new policy row filled from the editor fields of the action. *)
Definition new_policy (self : t) (e : EditorModel.t) : BasePolicy.t :=
  {| BasePolicy.filter := EditorModel.filter e;
     BasePolicy.initialize := EditorModel.initialize e;
     BasePolicy.check := EditorModel.check e;
     BasePolicy.notify := EditorModel.notify e;
     BasePolicy.success := EditorModel.success e;
     BasePolicy.fail := EditorModel.fail e;
     BasePolicy.name := EditorModel.name e;
     BasePolicy.community := Community.id (community self);
     BasePolicy.description := EditorModel.description e;
     BasePolicy.is_bundled := is_bundled self;
     BasePolicy.has_notified := false;
     BasePolicy.data := None |}.

(** An existing policy with its text fields overwritten. *)
Definition changed_policy (p : BasePolicy.t) (e : EditorModel.t) : BasePolicy.t :=
  {| BasePolicy.filter := EditorModel.filter e;
     BasePolicy.initialize := EditorModel.initialize e;
     BasePolicy.check := EditorModel.check e;
     BasePolicy.notify := EditorModel.notify e;
     BasePolicy.success := EditorModel.success e;
     BasePolicy.fail := EditorModel.fail e;
     BasePolicy.name := EditorModel.name e;
     BasePolicy.community := BasePolicy.community p;
     BasePolicy.description := EditorModel.description e;
     BasePolicy.is_bundled := BasePolicy.is_bundled p;
     BasePolicy.has_notified := BasePolicy.has_notified p;
     BasePolicy.data := BasePolicy.data p |}.

Definition PolicykitAddPlatformPolicy_execute (self : t) (e : EditorModel.t) : M World t :=
  inst_save platform_policies set_platform_policies
    {| inst_pk := None; inst_val := new_policy self e |} ;;
  pass_action self.

Definition PolicykitAddConstitutionPolicy_execute (self : t) (e : EditorModel.t) : M World t :=
  inst_save constitution_policies set_constitution_policies
    {| inst_pk := None; inst_val := new_policy self e |} ;;
  pass_action self.

Definition PolicykitChangePlatformPolicy_execute (self : t)
    (platform_policy : option (Inst BasePolicy.t)) (e : EditorModel.t) : M World t :=
  p <- deref platform_policy ;;
  p' <- inst_save platform_policies set_platform_policies
          {| inst_pk := inst_pk p; inst_val := changed_policy (inst_val p) e |} ;;
  pass_action (with_kind (PolicykitChangePlatformPolicy (Some p') e) self).

Definition PolicykitChangeConstitutionPolicy_execute (self : t)
    (constitution_policy : option (Inst BasePolicy.t)) (e : EditorModel.t) : M World t :=
  p <- deref constitution_policy ;;
  p' <- inst_save constitution_policies set_constitution_policies
          {| inst_pk := inst_pk p; inst_val := changed_policy (inst_val p) e |} ;;
  pass_action (with_kind (PolicykitChangeConstitutionPolicy (Some p') e) self).

Definition PolicykitRemovePlatformPolicy_execute (self : t)
    (platform_policy : option (Inst BasePolicy.t)) : M World t :=
  p <- deref platform_policy ;;
  p' <- inst_delete platform_policies set_platform_policies p ;;
  pass_action (with_kind (PolicykitRemovePlatformPolicy (Some p')) self).

Definition PolicykitRemoveConstitutionPolicy_execute (self : t)
    (constitution_policy : option (Inst BasePolicy.t)) : M World t :=
  p <- deref constitution_policy ;;
  p' <- inst_delete constitution_policies set_constitution_policies p ;;
  pass_action (with_kind (PolicykitRemoveConstitutionPolicy (Some p')) self).

(** [action.execute()]: dispatch on the class.  The trace records that
    the effect of this action was started. *)
Definition execute (self : t) : M World t :=
  log (EvEffect Constitution (pk self)) ;;
  match kind self with
  | PolicykitAddCommunityDoc name text => PolicykitAddCommunityDoc_execute self name text
  | PolicykitChangeCommunityDoc doc name text =>
      PolicykitChangeCommunityDoc_execute self doc name text
  | PolicykitDeleteCommunityDoc doc => PolicykitDeleteCommunityDoc_execute self doc
  | PolicykitAddRole name description permissions =>
      PolicykitAddRole_execute self name description permissions
  | PolicykitDeleteRole role => PolicykitDeleteRole_execute self role
  | PolicykitEditRole role name description permissions =>
      PolicykitEditRole_execute self role name description permissions
  | PolicykitAddUserRole role users => PolicykitAddUserRole_execute self role users
  | PolicykitRemoveUserRole role users => PolicykitRemoveUserRole_execute self role users
  | PolicykitAddPlatformPolicy e => PolicykitAddPlatformPolicy_execute self e
  | PolicykitAddConstitutionPolicy e => PolicykitAddConstitutionPolicy_execute self e
  | PolicykitChangePlatformPolicy p e => PolicykitChangePlatformPolicy_execute self p e
  | PolicykitChangeConstitutionPolicy p e => PolicykitChangeConstitutionPolicy_execute self p e
  | PolicykitRemovePlatformPolicy p => PolicykitRemovePlatformPolicy_execute self p
  | PolicykitRemoveConstitutionPolicy p => PolicykitRemoveConstitutionPolicy_execute self p
  end.

(** [super().save()]: the action's own row is written; a new object
    gets its key. *)
Definition super_save (self : t) : M World t :=
  fun w =>
    match pk self with
    | Some k =>
        (Ok self,
         set_constitution_actions (tbl_write k (class_name (kind self)) (constitution_actions w)) w)
    | None =>
        let '(k, tb) := tbl_insert (class_name (kind self)) (constitution_actions w) in
        (Ok (with_pk (Some k) self), set_constitution_actions tb w)
    end.

(** [ConstitutionPolicy.objects.filter(community=self.community)] *)
Definition community_policies (tbl : World -> Table BasePolicy.t) (c : Community.t)
  : M World (list (Inst BasePolicy.t)) :=
  gets (fun w =>
          map (fun kv => {| inst_pk := Some (fst kv); inst_val := snd kv |})
              (tbl_filter (fun p => Nat.eqb (BasePolicy.community p) (Community.id c)) (tbl w))).

Section Save.

(** [policyengine.views.execute_policy(policy, action, is_first_evaluation=True)]:
    the policy engine, which runs the hooks of [policy] on [action].  It
    is defined outside the modelled file. *)
Variable execute_policy : Inst BasePolicy.t -> t -> M World t.

Definition run_policy (policy : Inst BasePolicy.t) (action : t) : M World t :=
  log (EvExecutePolicy (inst_pk policy) Constitution (pk action)) ;;
  execute_policy policy action.

Definition save (self : t) : M World t :=
  if shouldCreate self then
    self <- match data self with
            | None => ds <- DataStore.objects_create ;; ret (with_data (Some ds) self)
            | Some _ => ret self
            end ;;
    (* runs only if they have propose permission *)
    if CommunityUser.has_perm (initiator self) (propose_perm (kind self)) then
      self <- match proposal self with
              | Some p =>
                  ret (with_proposal (Some (Proposal.with_status Proposal.PROPOSED p)) self)
              | None =>
                  p <- Proposal_objects_create Proposal.PROPOSED
                         (Some (CommunityUser.pk (initiator self))) ;;
                  ret (with_proposal (Some p) self)
              end ;;
      self <- super_save self ;;
      if negb (is_bundled self) then
        (* if they have execute permission, skip all policies *)
        if CommunityUser.has_perm (initiator self) (execute_perm (kind self)) then
          execute self
        else
          policies <- community_policies constitution_policies (community self) ;;
          for_each_acc policies self run_policy
      else ret self
    else
      p <- Proposal_objects_create Proposal.FAILED
             (Some (CommunityUser.pk (initiator self))) ;;
      ret (with_proposal (Some p) self)
  else
    self <- (if negb (pk_truthy (pk self)) then   (* runs only when object is new *)
               p <- Proposal_objects_create Proposal.FAILED
                      (Some (CommunityUser.pk (initiator self))) ;;
               ret (with_proposal (Some p) self)
             else ret self) ;;
    super_save self.

End Save.

End ConstitutionAction.

(** ** Constitution action bundles *)

Module ConstitutionActionBundle.

Definition ELECTION : string := "election".
Definition BUNDLE : string := "bundle".

(** [bundled_actions] holds the actions the relation yields when it is
    read ([self.bundled_actions.all()]). *)
Record t : Type := {
  pk : option nat;
  community : Community.t;
  proposal : option Proposal.t;
  is_bundled : bool;
  data : option DataStore.t;
  bundled_actions : list ConstitutionAction.t;
  bundle_type : string
}.

Definition with_proposal (x : option Proposal.t) (self : t) : t :=
  {| pk := pk self; community := community self; proposal := x;
     is_bundled := is_bundled self; data := data self;
     bundled_actions := bundled_actions self; bundle_type := bundle_type self |}.

Definition execute (self : t) : M World unit :=
  if bool_decide (bundle_type self = BUNDLE) then
    for_each (bundled_actions self)
      (fun action =>
         action <- ConstitutionAction.execute action ;;
         ConstitutionAction.pass_action action ;;
         ret tt)
  else ret tt.

Definition pass_action (self : t) : M World t :=
  p <- deref (proposal self) ;;
  p' <- Proposal_save (Proposal.with_status Proposal.PASSED p) ;;
  ret (with_proposal (Some p') self).

Definition fail_action (self : t) : M World t :=
  p <- deref (proposal self) ;;
  p' <- Proposal_save (Proposal.with_status Proposal.FAILED p) ;;
  ret (with_proposal (Some p') self).

End ConstitutionActionBundle.

(** ** Platform actions *)

Module PlatformAction.

(** The concrete platform classes live with the platform integrations;
    each fixes its app label, app name and codename. *)
Record t : Type := {
  pk : option nat;
  community : Community.t;
  initiator : CommunityUser.t;
  community_revert : bool;
  community_origin : bool;
  is_bundled : bool;
  data : option DataStore.t;
  proposal : option Proposal.t;
  app_label : string;          (* [self._meta.app_label] *)
  app_name : string;
  action_codename : string
}.

Definition with_pk (x : option nat) (self : t) : t :=
  {| pk := x; community := community self; initiator := initiator self;
     community_revert := community_revert self; community_origin := community_origin self;
     is_bundled := is_bundled self; data := data self; proposal := proposal self;
     app_label := app_label self; app_name := app_name self;
     action_codename := action_codename self |}.

Definition with_data (x : option DataStore.t) (self : t) : t :=
  {| pk := pk self; community := community self; initiator := initiator self;
     community_revert := community_revert self; community_origin := community_origin self;
     is_bundled := is_bundled self; data := x; proposal := proposal self;
     app_label := app_label self; app_name := app_name self;
     action_codename := action_codename self |}.

Definition with_proposal (x : option Proposal.t) (self : t) : t :=
  {| pk := pk self; community := community self; initiator := initiator self;
     community_revert := community_revert self; community_origin := community_origin self;
     is_bundled := is_bundled self; data := data self; proposal := x;
     app_label := app_label self; app_name := app_name self;
     action_codename := action_codename self |}.

Definition pass_action (self : t) : M World t :=
  p <- deref (proposal self) ;;
  p' <- Proposal_save (Proposal.with_status Proposal.PASSED p) ;;
  modify (fun w => set_activity
                     (activity w ++ [ {| actor := (Platform, pk self);
                                         verb := "was passed";
                                         community_id := Community.id (community self) |} ]) w) ;;
  ret (with_proposal (Some p') self).

Definition fail_action (self : t) : M World t :=
  p <- deref (proposal self) ;;
  p' <- Proposal_save (Proposal.with_status Proposal.FAILED p) ;;
  ret (with_proposal (Some p') self).

(** [self._meta.app_label + '.add_' + self.action_codename] *)
Definition propose_perm (self : t) : string :=
  (app_label self +:+ ".add_" +:+ action_codename self)%string.

(** [action.app_name + '.can_execute_' + action.action_codename] *)
Definition execute_perm (self : t) : string :=
  (app_name self +:+ ".can_execute_" +:+ action_codename self)%string.

Definition super_save (self : t) : M World t :=
  fun w =>
    match pk self with
    | Some k =>
        (Ok self,
         set_platform_actions (tbl_write k (action_codename self) (platform_actions w)) w)
    | None =>
        let '(k, tb) := tbl_insert (action_codename self) (platform_actions w) in
        (Ok (with_pk (Some k) self), set_platform_actions tb w)
    end.

Section Save.

(** [community.execute_platform_action(action)]: the platform adapter,
    defined by the community classes of the integrations.  It performs
    the action on the platform and returns, or raises. *)
Variable execute_platform_action : Community.t -> t -> Res unit.

(** See [ConstitutionAction.save]. *)
Variable execute_policy : Inst BasePolicy.t -> t -> M World t.

(** The adapter call; the trace records that the effect was started. *)
Definition run_effect (c : Community.t) (action : t) : M World unit :=
  log (EvEffect Platform (pk action)) ;;
  lift (execute_platform_action c action).

Definition execute (self : t) : M World t :=
  run_effect (community self) self ;;
  pass_action self.

Definition run_policy (policy : Inst BasePolicy.t) (action : t) : M World t :=
  log (EvExecutePolicy (inst_pk policy) Platform (pk action)) ;;
  execute_policy policy action.

Definition save (self : t) : M World t :=
  if negb (pk_truthy (pk self)) then
    self <- match data self with
            | None => ds <- DataStore.objects_create ;; ret (with_data (Some ds) self)
            | Some _ => ret self
            end ;;
    (* runs only if they have propose permission *)
    if CommunityUser.has_perm (initiator self) (propose_perm self) then
      p <- Proposal_objects_create Proposal.PROPOSED
             (Some (CommunityUser.pk (initiator self))) ;;
      self <- super_save (with_proposal (Some p) self) ;;
      if negb (is_bundled self) then
        (* if they have execute permission, skip all policies *)
        if CommunityUser.has_perm (initiator self) (execute_perm self) then
          execute self
        else
          policies <- ConstitutionAction.community_policies platform_policies (community self) ;;
          for_each_acc policies self run_policy
      else ret self
    else
      p <- Proposal_objects_create Proposal.FAILED
             (Some (CommunityUser.pk (initiator self))) ;;
      super_save (with_proposal (Some p) self)
  else super_save self.

End Save.

End PlatformAction.

(** ** Platform action bundles *)

Module PlatformActionBundle.

Definition ELECTION : string := "election".
Definition BUNDLE : string := "bundle".

Record t : Type := {
  pk : option nat;
  community : Community.t;
  proposal : option Proposal.t;
  is_bundled : bool;
  data : option DataStore.t;
  bundled_actions : list PlatformAction.t;
  bundle_type : string
}.

Definition with_proposal (x : option Proposal.t) (self : t) : t :=
  {| pk := pk self; community := community self; proposal := x;
     is_bundled := is_bundled self; data := data self;
     bundled_actions := bundled_actions self; bundle_type := bundle_type self |}.

Section Execute.

Variable execute_platform_action : Community.t -> PlatformAction.t -> Res unit.

Definition execute (self : t) : M World unit :=
  if bool_decide (bundle_type self = BUNDLE) then
    for_each (bundled_actions self)
      (fun action =>
         PlatformAction.run_effect execute_platform_action (community self) action ;;
         PlatformAction.pass_action action ;;
         ret tt)
  else ret tt.

End Execute.

Definition pass_action (self : t) : M World t :=
  p <- deref (proposal self) ;;
  p' <- Proposal_save (Proposal.with_status Proposal.PASSED p) ;;
  ret (with_proposal (Some p') self).

Definition fail_action (self : t) : M World t :=
  p <- deref (proposal self) ;;
  p' <- Proposal_save (Proposal.with_status Proposal.FAILED p) ;;
  ret (with_proposal (Some p') self).

End PlatformActionBundle.

(** * Properties *)

(** ** The DataStore *)

Section DataStoreFacts.
Import Json.

Lemma DataStore_save_spec (x : DataStore.t) (w : World) :
  exists k w',
    DataStore.save x w =
      (Ok {| DataStore.pk := Some k; DataStore.data_store := DataStore.data_store x |}, w') /\
    rows (datastores w') !! k = Some (DataStore.data_store x).
Proof.
  unfold DataStore.save. destruct x as [[k | ] s]; simpl.
  - exists k. eexists. split; [ reflexivity | ]. simpl. apply lookup_insert_eq.
  - exists (next_pk (datastores w)). eexists. split; [ reflexivity | ].
    simpl. apply lookup_insert_eq.
Qed.

Lemma DataStore_read_dumps (pk : option nat) (d : list (string * json)) :
  wf (JObj d) ->
  DataStore._get_data_store {| DataStore.pk := pk; DataStore.data_store := dumps (JObj d) |}
  = Ok (JObj d).
Proof.
  intros Hwf. unfold DataStore._get_data_store. simpl.
  destruct (String.eqb_spec (dumps (JObj d)) EmptyString) as [E | _].
  - now apply dumps_nonempty in E.
  - simpl. now rewrite loads_dumps.
Qed.

Lemma DataStore_read_wf (self : DataStore.t) :
  DataStore.wf self ->
  exists d, DataStore._get_data_store self = Ok (JObj d) /\ wf (JObj d).
Proof.
  intros [He | (d & Hwf & He)]; destruct self as [pk s]; simpl in He; subst s.
  - exists []. split; [ reflexivity | ]. apply wf_obj. split; constructor.
  - exists d. split; [ now apply DataStore_read_dumps | exact Hwf ].
Qed.


Lemma DataStore_remove_spec (self : DataStore.t) (key : string) (w : World)
    (d : list (string * json)) :
  DataStore._get_data_store self = Ok (JObj d) ->
  exists k w',
    DataStore.remove self key w =
      (Ok (truthy (default JNull (dict_get d key)),
           {| DataStore.pk := Some k;
              DataStore.data_store := dumps (JObj (dict_pop d key)) |}), w').
Proof.
  intros Hd. unfold DataStore.remove, DataStore._set_data_store. rewrite Hd.
  unfold bind, ret.
  destruct (DataStore_save_spec
              {| DataStore.pk := DataStore.pk self;
                 DataStore.data_store := dumps (JObj (dict_pop d key)) |} w)
    as (k & w' & -> & _).
  exists k, w'. simpl. now destruct (truthy _).
Qed.

Lemma DataStore_get_of (self : DataStore.t) (d : list (string * json)) (key : string) :
  DataStore._get_data_store self = Ok (JObj d) ->
  DataStore.get self key = Ok (default JNull (dict_get d key)).
Proof. intros Hd. unfold DataStore.get. now rewrite Hd. Qed.



End DataStoreFacts.

(** ** The store as policy code calls it

    Policy code hands Python objects to [get], [set] and [remove]: any
    hashable key, any value.  Modelled here are the keys that are strings
    or integers, and the values built from [None], booleans, integers,
    strings, lists, tuples and dicts.  [json.dumps] writes an integer key
    as its decimal text and a tuple as a list; [json.loads] yields string
    keys and lists only. *)

Module Py.
Import Json.

Inductive key : Type :=
| KStr (s : string)
| KInt (z : Z).

Inductive value : Type :=
| VNone
| VBool (b : bool)
| VInt (z : Z)
| VStr (s : string)
| VList (l : list value)
| VTuple (l : list value)
| VDict (d : list (key * value)).

(** [==] on keys: a string never equals an integer. *)
Definition key_eqb (a b : key) : bool :=
  match a, b with
  | KStr s, KStr t => String.eqb s t
  | KInt x, KInt y => Z.eqb x y
  | _, _ => false
  end.

(** The member name [json.dumps] writes for a key. *)
Definition key_text (k : key) : string :=
  match k with
  | KStr s => s
  | KInt z => string_of_list_ascii (print_int z)
  end.

(** The JSON value [json.dumps] writes for an object. *)
Fixpoint to_json (v : value) : json :=
  match v with
  | VNone => JNull
  | VBool b => JBool b
  | VInt z => JInt z
  | VStr s => JStr s
  | VList l => JArr (map to_json l)
  | VTuple l => JArr (map to_json l)
  | VDict d => JObj (map (fun kv => let '(k, x) := kv in (key_text k, to_json x)) d)
  end.

(** The object [json.loads] builds from a JSON value. *)
Fixpoint of_json (j : json) : value :=
  match j with
  | JNull => VNone
  | JBool b => VBool b
  | JInt z => VInt z
  | JStr s => VStr s
  | JArr l => VList (map of_json l)
  | JObj d => VDict (map (fun kv => let '(k, x) := kv in (KStr k, of_json x)) d)
  end.

Fixpoint dict_get (d : list (key * value)) (k : key) : option value :=
  match d with
  | [] => None
  | (k', v) :: r => if key_eqb k' k then Some v else dict_get r k
  end.

(** [d[k] = v] *)
Fixpoint dict_set (d : list (key * value)) (k : key) (v : value) : list (key * value) :=
  match d with
  | [] => [(k, v)]
  | (k', v') :: r => if key_eqb k' k then (k', v) :: r else (k', v') :: dict_set r k v
  end.

Definition dict_pop (d : list (key * value)) (k : key) : list (key * value) :=
  List.filter (fun kv => negb (key_eqb (fst kv) k)) d.

(** [l[i] = v]: a negative index counts from the end; [None] when the
    index is out of range. *)
Definition list_assign (l : list value) (i : Z) (v : value) : option (list value) :=
  let n := Z.of_nat (length l) in
  let j := if (i <? 0)%Z then (i + n)%Z else i in
  if ((0 <=? j)%Z && (j <? n)%Z)%bool then Some (<[ Z.to_nat j := v ]> l) else None.

Definition truthy (v : value) : bool :=
  match v with
  | VNone => false
  | VBool b => b
  | VInt z => negb (Z.eqb z 0%Z)
  | VStr s => negb (String.eqb s EmptyString)
  | VList l | VTuple l => match l with [] => false | _ => true end
  | VDict d => match d with [] => false | _ => true end
  end.

End Py.

Module PyDataStore.
Import Py.

Definition _get_data_store (self : DataStore.t) : Res value :=
  match DataStore._get_data_store self with
  | Ok j => Ok (of_json j)
  | Raise e => Raise e
  end.

Definition _set_data_store (self : DataStore.t) (obj : value) : M World DataStore.t :=
  DataStore._set_data_store self (to_json obj).

(** [obj.get(key, None)] *)
Definition get (self : DataStore.t) (key : key) : Res value :=
  match _get_data_store self with
  | Ok (VDict d) => Ok (default VNone (dict_get d key))
  | Ok _ => Raise AttributeError
  | Raise e => Raise e
  end.

(** [obj[key] = value]: on a list the key is an index. *)
Definition set (self : DataStore.t) (key : key) (value : value)
  : M World (bool * DataStore.t) :=
  match _get_data_store self with
  | Ok (VDict d) =>
      self' <- _set_data_store self (VDict (dict_set d key value)) ;;
      ret (true, self')
  | Ok (VList l) =>
      match key with
      | KInt i =>
          match list_assign l i value with
          | Some l' =>
              self' <- _set_data_store self (VList l') ;;
              ret (true, self')
          | None => raise IndexError
          end
      | KStr _ => raise TypeError
      end
  | Ok _ => raise TypeError
  | Raise e => raise e
  end.

(** [res = obj.pop(key, None)] *)
Definition remove (self : DataStore.t) (key : key) : M World (bool * DataStore.t) :=
  match _get_data_store self with
  | Ok (VDict d) =>
      let res := default VNone (dict_get d key) in
      self' <- _set_data_store self (VDict (dict_pop d key)) ;;
      ret (if negb (truthy res) then false else true, self')
  | Ok (VList _) => raise TypeError
  | Ok _ => raise AttributeError
  | Raise e => raise e
  end.

End PyDataStore.

Section PyDataStoreFacts.
Import Json Py.

Lemma to_json_of_json (j : json) : to_json (of_json j) = j.
Proof.
  induction j as [ | b | z | s | l IH | d IH ] using json_ind2; try reflexivity; simpl; f_equal.
  - induction IH as [ | v l Hv _ IHl ]; [ reflexivity | ]. simpl. now rewrite Hv, IHl.
  - induction IH as [ | [k v] d Hv _ IHd ]; [ reflexivity | ].
    simpl in *. now rewrite Hv, IHd.
Qed.

Lemma dict_get_of_json (d : list (string * json)) (k : string) :
  dict_get (map (fun kv => let '(k, x) := kv in (KStr k, of_json x)) d) (KStr k)
  = of_json <$> Json.dict_get d k.
Proof.
  induction d as [ | [k' v] d IH ]; [ reflexivity | ].
  simpl. destruct (String.eqb k' k); [ reflexivity | exact IH ].
Qed.


Lemma dict_pop_of_json (d : list (string * json)) (k : string) :
  dict_pop (map (fun kv => let '(k, x) := kv in (KStr k, of_json x)) d) (KStr k)
  = map (fun kv => let '(k, x) := kv in (KStr k, of_json x)) (Json.dict_pop d k).
Proof.
  unfold dict_pop, Json.dict_pop.
  induction d as [ | [k' v'] d IH ]; [ reflexivity | ].
  simpl. destruct (String.eqb k' k); simpl; [ exact IH | now rewrite IH ].
Qed.

Lemma truthy_of_json (j : json) : truthy (of_json j) = Json.truthy j.
Proof. destruct j as [ | b | z | s | [ | v l ] | [ | [k v] d ] ]; reflexivity. Qed.



Lemma PyDataStore_remove_string (self : DataStore.t) (k : string) (w : World) :
  PyDataStore.remove self (KStr k) w = DataStore.remove self k w.
Proof.
  unfold PyDataStore.remove, PyDataStore._get_data_store, PyDataStore._set_data_store,
    DataStore.remove.
  destruct (DataStore._get_data_store self) as [ [ | b | z | s | l | d ] | e ];
    try reflexivity.
  cbn [of_json]. rewrite dict_pop_of_json, dict_get_of_json.
  change (VDict (map (fun kv => let '(k0, x) := kv in (KStr k0, of_json x))
                   (Json.dict_pop d k)))
    with (of_json (JObj (Json.dict_pop d k))).
  rewrite to_json_of_json.
  destruct (Json.dict_get d k) as [ v | ]; simpl; [ now rewrite truthy_of_json | reflexivity ].
Qed.

End PyDataStoreFacts.


(** C10.  [remove] deletes the key, and returns the truth value of what
    was stored under it: [False] when the key was absent or held a falsy
    value (0, [False], the empty string, [None]), although the key is
    gone afterwards. *)
Theorem DataStore_remove_returns_truthiness (self : DataStore.t) (key : string)
    (w : World) :
  DataStore.wf self ->
  exists d b self' w',
    DataStore._get_data_store self = Ok (Json.JObj d) /\
    DataStore.remove self key w = (Ok (b, self'), w') /\
    DataStore._get_data_store self' = Ok (Json.JObj (Json.dict_pop d key)) /\
    Json.dict_get (Json.dict_pop d key) key = None /\
    (Json.dict_get d key = None -> b = false) /\
    (forall v, Json.dict_get d key = Some v -> b = Json.truthy v) /\
    Json.truthy (Json.JInt 0%Z) = false /\
    Json.truthy (Json.JBool false) = false /\
    Json.truthy (Json.JStr EmptyString) = false /\
    Json.truthy Json.JNull = false.
Proof.
  intros Hwf.
  destruct (DataStore_read_wf self Hwf) as (d & Hd & Hwd).
  destruct (DataStore_remove_spec self key w d Hd) as (n & w' & Hrem).
  exists d. eexists _, _, w'.
  split; [ exact Hd | ]. split; [ exact Hrem | ].
  split; [ apply DataStore_read_dumps; now apply Json.wf_dict_pop | ].
  split; [ apply Json.dict_get_pop_eq | ].
  split; [ now intros -> | ].
  split; [ now intros v -> | ].
  repeat split.
Qed.

(** A store holding one key, as [_set_data_store] writes it. *)
Definition store_with_votes : DataStore.t :=
  {| DataStore.pk := Some 1;
     DataStore.data_store := Json.dumps (Json.JObj [("votes"%string, Json.JInt 0%Z)]) |}.

Lemma store_with_votes_wf : DataStore.wf store_with_votes.
Proof.
  right. exists [("votes"%string, Json.JInt 0%Z)]. split; [ | reflexivity ].
  apply Json.wf_obj. split.
  - simpl. constructor; [ intros [] | constructor ].
  - repeat constructor.
Qed.


Lemma DataStore_remove_returns_truthiness_witness :
  DataStore.wf store_with_votes /\
  exists self' w',
    DataStore.remove store_with_votes "votes" empty_world = (Ok (false, self'), w') /\
    DataStore._get_data_store self' = Ok (Json.JObj []).
Proof.
  split; [ exact store_with_votes_wf | ].
  destruct (DataStore_remove_returns_truthiness store_with_votes "votes" empty_world
              store_with_votes_wf)
    as (d & b & self' & w' & Hd & Hrem & Hd' & _ & _ & Hb & _).
  assert (Ed : d = [("votes"%string, Json.JInt 0%Z)]).
  { pose proof (DataStore_read_dumps (Some 1) [("votes"%string, Json.JInt 0%Z)]) as H.
    unfold store_with_votes in Hd. rewrite H in Hd; [ congruence | ].
    apply Json.wf_obj. split; [ simpl; constructor; [ intros [] | constructor ] | ].
    repeat constructor. }
  subst d. exists self', w'.
  rewrite (Hb (Json.JInt 0%Z) eq_refl) in Hrem. split; [ exact Hrem | exact Hd' ].
Defined.




(** ** Votes *)

Section VoteFacts.

Lemma filter_app_length {A : Type} (f : A -> bool) (l1 l2 : list A) :
  length (List.filter f (l1 ++ l2)) = (length (List.filter f l1) + length (List.filter f l2))%nat.
Proof. now rewrite List.filter_app, length_app. Qed.

Lemma filter_filter_neg {A : Type} (f : A -> bool) (l : list A) :
  List.filter f (List.filter (fun x => negb (f x)) l) = [].
Proof.
  induction l as [ | x l IH ]; simpl; [ reflexivity | ].
  destruct (f x) eqn:E; simpl; [ exact IH | ]. now rewrite E.
Qed.

Lemma filter_filter_other {A : Type} (f g : A -> bool) (l : list A) :
  (forall x, f x = true -> g x = false) ->
  List.filter f (List.filter (fun x => negb (g x)) l) = List.filter f l.
Proof.
  intros H. induction l as [ | x l IH ]; simpl; [ reflexivity | ].
  destruct (g x) eqn:Eg; simpl.
  - destruct (f x) eqn:Ef; [ | exact IH ]. apply H in Ef. congruence.
  - destruct (f x); [ f_equal | ]; exact IH.
Qed.

Lemma key_other (p m p' m' a b : nat) :
  p' <> p \/ m' <> m ->
  Nat.eqb a p' && Nat.eqb b m' = true -> Nat.eqb a p && Nat.eqb b m = false.
Proof.
  intros Hne H. apply andb_true_iff in H. destruct H as [H1 H2].
  apply Nat.eqb_eq in H1, H2. subst.
  destruct (Nat.eqb_spec p' p), (Nat.eqb_spec m' m); simpl; try reflexivity.
  destruct Hne; congruence.
Qed.

Lemma castVote_this (w : World) (p m : nat) (v : VoteValue) :
  votes_of p m (castVote p m v w) = 1%nat.
Proof.
  unfold votes_of, castVote.
  destruct v as [b | n]; simpl;
    rewrite ?List.filter_app, ?length_app;
    rewrite !(filter_filter_neg
                (fun v => Nat.eqb (BooleanVote.proposal v) p && Nat.eqb (BooleanVote.user v) m));
    rewrite !(filter_filter_neg
                (fun v => Nat.eqb (NumberVote.proposal v) p && Nat.eqb (NumberVote.user v) m));
    simpl; rewrite !Nat.eqb_refl; reflexivity.
Qed.

Lemma castVote_other (w : World) (p m p' m' : nat) (v : VoteValue) :
  p' <> p \/ m' <> m ->
  votes_of p' m' (castVote p m v w) = votes_of p' m' w.
Proof.
  intros Hne. unfold votes_of, castVote.
  assert (Hb : forall l : list BooleanVote.t,
    List.filter (fun v => Nat.eqb (BooleanVote.proposal v) p' && Nat.eqb (BooleanVote.user v) m')
      (List.filter (fun v => negb (Nat.eqb (BooleanVote.proposal v) p
                                   && Nat.eqb (BooleanVote.user v) m)) l)
    = List.filter (fun v => Nat.eqb (BooleanVote.proposal v) p'
                            && Nat.eqb (BooleanVote.user v) m') l).
  { intros l. apply (filter_filter_other _
      (fun v => Nat.eqb (BooleanVote.proposal v) p && Nat.eqb (BooleanVote.user v) m)).
    intros x. now apply key_other. }
  assert (Hn : forall l : list NumberVote.t,
    List.filter (fun v => Nat.eqb (NumberVote.proposal v) p' && Nat.eqb (NumberVote.user v) m')
      (List.filter (fun v => negb (Nat.eqb (NumberVote.proposal v) p
                                   && Nat.eqb (NumberVote.user v) m)) l)
    = List.filter (fun v => Nat.eqb (NumberVote.proposal v) p'
                            && Nat.eqb (NumberVote.user v) m') l).
  { intros l. apply (filter_filter_other _
      (fun v => Nat.eqb (NumberVote.proposal v) p && Nat.eqb (NumberVote.user v) m)).
    intros x. now apply key_other. }
  assert (Hk : Nat.eqb p p' && Nat.eqb m m' = false).
  { destruct (Nat.eqb_spec p p'), (Nat.eqb_spec m m'); simpl; try reflexivity.
    destruct Hne; congruence. }
  destruct v as [b | n]; simpl;
    rewrite ?List.filter_app, ?length_app, ?Hb, ?Hn; simpl; rewrite Hk; simpl; lia.
Qed.

End VoteFacts.

(** The world after a sequence of casts. *)
Definition cast_all (casts : list (nat * nat * VoteValue)) (w : World) : World :=
  fold_left (fun w c => castVote (fst (fst c)) (snd (fst c)) (snd c) w) casts w.

(** The votes a member has on a proposal, of each kind. *)
Definition boolean_votes_of (proposal member : nat) (w : World) : list BooleanVote.t :=
  List.filter (fun v => Nat.eqb (BooleanVote.proposal v) proposal
                        && Nat.eqb (BooleanVote.user v) member)
    (boolean_votes w).

Definition number_votes_of (proposal member : nat) (w : World) : list NumberVote.t :=
  List.filter (fun v => Nat.eqb (NumberVote.proposal v) proposal
                        && Nat.eqb (NumberVote.user v) member)
    (number_votes w).

(** The cast vote is the member's only vote on the proposal. *)
Lemma castVote_value (w : World) (p m : nat) (v : VoteValue) :
  match v with
  | BooleanValue b =>
      boolean_votes_of p m (castVote p m v w)
      = [ {| BooleanVote.user := m; BooleanVote.proposal := p;
             BooleanVote.boolean_value := Some b |} ] /\
      number_votes_of p m (castVote p m v w) = []
  | NumberValue n =>
      number_votes_of p m (castVote p m v w)
      = [ {| NumberVote.user := m; NumberVote.proposal := p;
             NumberVote.number_value := Some n |} ] /\
      boolean_votes_of p m (castVote p m v w) = []
  end.
Proof.
  unfold boolean_votes_of, number_votes_of, castVote.
  destruct v as [b | n]; simpl;
    rewrite ?List.filter_app;
    rewrite !(filter_filter_neg
                (fun v => Nat.eqb (BooleanVote.proposal v) p && Nat.eqb (BooleanVote.user v) m));
    rewrite !(filter_filter_neg
                (fun v => Nat.eqb (NumberVote.proposal v) p && Nat.eqb (NumberVote.user v) m));
    simpl; rewrite !Nat.eqb_refl; split; reflexivity.
Qed.

(** The votes of the other members, and on the other proposals, are kept. *)
Lemma castVote_keeps_others (w : World) (p m p' m' : nat) (v : VoteValue) :
  p' <> p \/ m' <> m ->
  boolean_votes_of p' m' (castVote p m v w) = boolean_votes_of p' m' w /\
  number_votes_of p' m' (castVote p m v w) = number_votes_of p' m' w.
Proof.
  intros Hne. unfold boolean_votes_of, number_votes_of, castVote.
  assert (Hb : forall l : list BooleanVote.t,
    List.filter (fun v => Nat.eqb (BooleanVote.proposal v) p' && Nat.eqb (BooleanVote.user v) m')
      (List.filter (fun v => negb (Nat.eqb (BooleanVote.proposal v) p
                                   && Nat.eqb (BooleanVote.user v) m)) l)
    = List.filter (fun v => Nat.eqb (BooleanVote.proposal v) p'
                            && Nat.eqb (BooleanVote.user v) m') l).
  { intros l. apply (filter_filter_other _
      (fun v => Nat.eqb (BooleanVote.proposal v) p && Nat.eqb (BooleanVote.user v) m)).
    intros x. now apply key_other. }
  assert (Hn : forall l : list NumberVote.t,
    List.filter (fun v => Nat.eqb (NumberVote.proposal v) p' && Nat.eqb (NumberVote.user v) m')
      (List.filter (fun v => negb (Nat.eqb (NumberVote.proposal v) p
                                   && Nat.eqb (NumberVote.user v) m)) l)
    = List.filter (fun v => Nat.eqb (NumberVote.proposal v) p'
                            && Nat.eqb (NumberVote.user v) m') l).
  { intros l. apply (filter_filter_other _
      (fun v => Nat.eqb (NumberVote.proposal v) p && Nat.eqb (NumberVote.user v) m)).
    intros x. now apply key_other. }
  assert (Hk : Nat.eqb p p' && Nat.eqb m m' = false).
  { destruct (Nat.eqb_spec p p'), (Nat.eqb_spec m m'); simpl; try reflexivity.
    destruct Hne; congruence. }
  destruct v as [b | n]; simpl;
    rewrite ?List.filter_app, ?Hb, ?Hn; simpl; rewrite Hk; simpl;
    rewrite ?app_nil_r; split; reflexivity.
Qed.

(** C7.  After a member casts a vote on a proposal, exactly one vote of
    that member exists for it, and it is the vote just cast, with the
    value cast: whatever the member had cast before, of either kind, is
    gone.  The votes of other members and on other proposals are as they
    were; so from a state without votes no sequence of casts leaves a
    member with two votes on a proposal. *)
Theorem castVote_one_vote_per_member (w : World) (p m : nat) (v : VoteValue) :
  votes_of p m (castVote p m v w) = 1%nat /\
  match v with
  | BooleanValue b =>
      boolean_votes_of p m (castVote p m v w)
      = [ {| BooleanVote.user := m; BooleanVote.proposal := p;
             BooleanVote.boolean_value := Some b |} ] /\
      number_votes_of p m (castVote p m v w) = []
  | NumberValue n =>
      number_votes_of p m (castVote p m v w)
      = [ {| NumberVote.user := m; NumberVote.proposal := p;
             NumberVote.number_value := Some n |} ] /\
      boolean_votes_of p m (castVote p m v w) = []
  end /\
  (forall p' m', p' <> p \/ m' <> m ->
     votes_of p' m' (castVote p m v w) = votes_of p' m' w /\
     boolean_votes_of p' m' (castVote p m v w) = boolean_votes_of p' m' w /\
     number_votes_of p' m' (castVote p m v w) = number_votes_of p' m' w) /\
  (forall casts p' m', (votes_of p' m' (cast_all casts empty_world) <= 1)%nat).
Proof.
  split; [ apply castVote_this | ]. split; [ apply castVote_value | ].
  split.
  { intros p' m' Hne. split; [ now apply castVote_other | ].
    now apply castVote_keeps_others. }
  intros casts.
  assert (H : forall w0, (forall q n, (votes_of q n w0 <= 1)%nat) ->
                         forall q n, (votes_of q n (cast_all casts w0) <= 1)%nat).
  { induction casts as [ | [[q0 n0] v0] casts IH ]; intros w0 Hw0; [ exact Hw0 | ].
    simpl. apply IH. intros q n.
    destruct (Nat.eq_dec q q0) as [-> | Hq].
    - destruct (Nat.eq_dec n n0) as [-> | Hn].
      + now rewrite castVote_this.
      + rewrite castVote_other; [ apply Hw0 | now right ].
    - rewrite castVote_other; [ apply Hw0 | now left ]. }
  apply H. intros q n. unfold votes_of. simpl. lia.
Qed.

(** The tallies with a non-empty member filter: exactly the votes on the
    proposal cast by a member of the filter. *)
Lemma Proposal_tally_nonempty_filter (self : Proposal.t) (u : CommunityUser.t)
    (us : list CommunityUser.t) (value : Z) (w : World) :
  let users := Some (u :: us) in
  Proposal_get_all_boolean_votes self users w
    = List.filter (fun v => proposal_is self (BooleanVote.proposal v)
                            && user_in users (BooleanVote.user v)) (boolean_votes w) /\
  Proposal_get_yes_votes self users w
    = List.filter (fun v => bool_decide (BooleanVote.boolean_value v = Some true)
                            && proposal_is self (BooleanVote.proposal v)
                            && user_in users (BooleanVote.user v)) (boolean_votes w) /\
  Proposal_get_no_votes self users w
    = List.filter (fun v => bool_decide (BooleanVote.boolean_value v = Some false)
                            && proposal_is self (BooleanVote.proposal v)
                            && user_in users (BooleanVote.user v)) (boolean_votes w) /\
  Proposal_get_all_number_votes self users w
    = List.filter (fun v => proposal_is self (NumberVote.proposal v)
                            && user_in users (NumberVote.user v)) (number_votes w) /\
  Proposal_get_one_number_votes self value users w
    = List.filter (fun v => bool_decide (NumberVote.number_value v = Some value)
                            && proposal_is self (NumberVote.proposal v)
                            && user_in users (NumberVote.user v)) (number_votes w).
Proof. repeat split. Qed.

(** With an empty member filter the tallies are those of no filter at all. *)
Lemma Proposal_tally_empty_filter (self : Proposal.t) (value : Z) (w : World) :
  Proposal_get_all_boolean_votes self (Some []) w = Proposal_get_all_boolean_votes self None w /\
  Proposal_get_yes_votes self (Some []) w = Proposal_get_yes_votes self None w /\
  Proposal_get_no_votes self (Some []) w = Proposal_get_no_votes self None w /\
  Proposal_get_all_number_votes self (Some []) w = Proposal_get_all_number_votes self None w /\
  Proposal_get_one_number_votes self value (Some []) w
    = Proposal_get_one_number_votes self value None w.
Proof. repeat split. Qed.

(** A proposal with one yes vote and one vote for 4, both by member 5. *)
Definition voted_proposal : Proposal.t :=
  {| Proposal.pk := Some 1; Proposal.status := Proposal.PROPOSED;
     Proposal.author := Some 2; Proposal.data := None |}.

Definition yes_of_5 : BooleanVote.t :=
  {| BooleanVote.user := 5; BooleanVote.proposal := 1; BooleanVote.boolean_value := Some true |}.

Definition four_of_5 : NumberVote.t :=
  {| NumberVote.user := 5; NumberVote.proposal := 1; NumberVote.number_value := Some 4%Z |}.

Definition voted_world : World :=
  set_number_votes [four_of_5] (set_boolean_votes [yes_of_5] empty_world).

(** C8 (the code at the failing input).  Asked for the votes of an empty
    member set, every tally returns the votes of member 5, who is not in
    the set. *)
Theorem Proposal_tally_of_empty_member_set :
  Proposal_get_all_boolean_votes voted_proposal (Some []) voted_world = [yes_of_5] /\
  Proposal_get_yes_votes voted_proposal (Some []) voted_world = [yes_of_5] /\
  Proposal_get_no_votes voted_proposal (Some []) voted_world = [] /\
  Proposal_get_all_number_votes voted_proposal (Some []) voted_world = [four_of_5] /\
  Proposal_get_one_number_votes voted_proposal 4%Z (Some []) voted_world = [four_of_5] /\
  user_in (Some []) 5 = false.
Proof. repeat split. Qed.

(** ** Frame conditions

    The real effects touch documents, roles and policies; they leave the
    proposals and the trace alone. *)

Section Frames.

Definition untouched (w w' : World) : Prop :=
  proposals w' = proposals w /\ trace w' = trace w.

Definition keeps {A : Type} (m : M World A) : Prop :=
  forall w, untouched w (snd (m w)).

Lemma untouched_refl w : untouched w w.
Proof. split; reflexivity. Qed.

Lemma untouched_trans w1 w2 w3 : untouched w1 w2 -> untouched w2 w3 -> untouched w1 w3.
Proof. intros [H1 H2] [H3 H4]. split; congruence. Qed.

Lemma keeps_ret {A : Type} (a : A) : keeps (ret a).
Proof. intros w. apply untouched_refl. Qed.

Lemma keeps_raise {A : Type} (e : exn) : keeps (@raise World A e).
Proof. intros w. apply untouched_refl. Qed.

Lemma keeps_lift {A : Type} (r : Res A) : keeps (lift r).
Proof. intros w. apply untouched_refl. Qed.

Lemma keeps_gets {A : Type} (f : World -> A) : keeps (gets f).
Proof. intros w. apply untouched_refl. Qed.

Lemma keeps_bind {A B : Type} (m : M World A) (k : A -> M World B) :
  keeps m -> (forall a, keeps (k a)) -> keeps (bind m k).
Proof.
  intros Hm Hk w. unfold bind. specialize (Hm w).
  destruct (m w) as [[a | e] w1]; simpl in *; [ | exact Hm ].
  eapply untouched_trans; [ exact Hm | apply Hk ].
Qed.

Lemma keeps_deref {A : Type} (o : option A) : keeps (deref o).
Proof. destruct o; [ apply keeps_ret | apply keeps_raise ]. Qed.

Lemma keeps_m2m_key {A : Type} (i : Inst A) : keeps (m2m_key i).
Proof. unfold m2m_key. destruct (inst_pk i); [ apply keeps_ret | apply keeps_raise ]. Qed.

Lemma keeps_modify (f : World -> World) :
  (forall w, untouched w (f w)) -> keeps (modify f).
Proof. intros H w. apply H. Qed.

Lemma keeps_for_each {A : Type} (l : list A) (body : A -> M World unit) :
  (forall x, keeps (body x)) -> keeps (for_each l body).
Proof.
  intros H. induction l as [ | x l IH ]; simpl; [ apply keeps_ret | ].
  apply keeps_bind; [ apply H | intros _; exact IH ].
Qed.

Lemma keeps_try_except {A : Type} (m : M World A) (handles : exn -> bool) (h : M World A) :
  keeps m -> keeps h -> keeps (try_except m handles h).
Proof.
  intros Hm Hh w. unfold try_except. specialize (Hm w).
  destruct (m w) as [[a | e] w1]; simpl in *; [ exact Hm | ].
  destruct (handles e); simpl; [ | exact Hm ].
  eapply untouched_trans; [ exact Hm | apply Hh ].
Qed.

Section Tables.
Context {A : Type} (tbl : World -> Table A) (set_tbl : Table A -> World -> World).
Hypothesis set_tbl_untouched : forall x w, untouched w (set_tbl x w).

Lemma keeps_inst_save (i : Inst A) : keeps (inst_save tbl set_tbl i).
Proof.
  intros w. unfold inst_save. destruct (inst_pk i); simpl; apply set_tbl_untouched.
Qed.

Lemma keeps_inst_delete (i : Inst A) : keeps (inst_delete tbl set_tbl i).
Proof.
  unfold inst_delete. destruct (inst_pk i); [ | apply keeps_raise ].
  apply keeps_bind; [ | intros; apply keeps_ret ].
  apply keeps_modify. intros w. apply set_tbl_untouched.
Qed.

Lemma keeps_get_or_create (f : A -> bool) (d : A) : keeps (get_or_create tbl set_tbl f d).
Proof.
  intros w. unfold get_or_create.
  destruct (tbl_filter f (tbl w)) as [ | [k v] [ | ? ? ] ].
  - apply keeps_inst_save.
  - apply untouched_refl.
  - apply untouched_refl.
Qed.

End Tables.

Lemma keeps_role_permissions_add r p : keeps (role_permissions_add r p).
Proof.
  apply keeps_bind; [ apply keeps_m2m_key | intros k ].
  apply keeps_modify. intros w. split; reflexivity.
Qed.

Lemma keeps_role_permissions_clear r : keeps (role_permissions_clear r).
Proof.
  apply keeps_bind; [ apply keeps_m2m_key | intros k ].
  apply keeps_modify. intros w. split; reflexivity.
Qed.

Lemma keeps_role_user_set_add r u : keeps (role_user_set_add r u).
Proof.
  apply keeps_bind; [ apply keeps_m2m_key | intros k ].
  apply keeps_modify. intros w. split; reflexivity.
Qed.

Lemma keeps_role_user_set_remove r u : keeps (role_user_set_remove r u).
Proof.
  apply keeps_bind; [ apply keeps_m2m_key | intros k ].
  apply keeps_modify. intros w. split; reflexivity.
Qed.

Lemma keeps_role_delete r : keeps (role_delete r).
Proof.
  apply keeps_bind; [ apply keeps_inst_delete; intros; split; reflexivity | intros r' ].
  destruct (inst_pk r); [ | apply keeps_ret ].
  apply keeps_bind; [ | intros; apply keeps_ret ].
  apply keeps_modify. intros w. split; reflexivity.
Qed.

Lemma keeps_DataStore_save x : keeps (DataStore.save x).
Proof.
  intros w. unfold DataStore.save. destruct (DataStore.pk x); simpl; split; reflexivity.
Qed.

End Frames.

Create HintDb frames.

#[local] Hint Resolve keeps_ret keeps_raise keeps_lift keeps_gets keeps_deref keeps_m2m_key
  keeps_role_permissions_add keeps_role_permissions_clear keeps_role_user_set_add
  keeps_role_user_set_remove keeps_role_delete keeps_DataStore_save : frames.

(** ** Saving a proposal *)

(** A status written as [passed] stays so across a step. *)
Definition passed_stay (w w' : World) : Prop :=
  forall k, stored_status w k = Some Proposal.PASSED ->
            stored_status w' k = Some Proposal.PASSED.

Lemma passed_stay_refl w : passed_stay w w.
Proof. intros k H. exact H. Qed.

Lemma passed_stay_trans w1 w2 w3 :
  passed_stay w1 w2 -> passed_stay w2 w3 -> passed_stay w1 w3.
Proof. intros H1 H2 k H. apply H2, H1, H. Qed.

Lemma proposals_passed_stay w w' : proposals w' = proposals w -> passed_stay w w'.
Proof. intros H k. unfold stored_status. now rewrite H. Qed.

(** [Proposal.save] always returns; the object keeps its status and
    author, has a key afterwards, and its row holds the object. *)
Lemma Proposal_save_spec (p : Proposal.t) (w : World) :
  exists p' w' k,
    Proposal_save p w = (Ok p', w') /\
    Proposal.status p' = Proposal.status p /\
    Proposal.author p' = Proposal.author p /\
    Proposal.pk p' = Some k /\
    (forall k0, Proposal.pk p = Some k0 -> k = k0) /\
    (Proposal.pk p = None -> k = next_pk (proposals w)) /\
    rows (proposals w') !! k = Some p' /\
    (forall j, j <> k -> rows (proposals w') !! j = rows (proposals w) !! j) /\
    trace w' = trace w /\
    activity w' = activity w.
Proof.
  destruct p as [[[ | n] | ] s a d]; unfold Proposal_save, bind; simpl.
  - eexists _, _, 0. repeat split; try reflexivity.
    + intros k0 [= <-]. reflexivity.
    + discriminate.
    + simpl. apply lookup_insert_eq.
    + intros j Hj. simpl. now apply lookup_insert_ne.
  - eexists _, _, (S n). repeat split; try reflexivity.
    + intros k0 [= <-]. reflexivity.
    + discriminate.
    + simpl. apply lookup_insert_eq.
    + intros j Hj. simpl. now apply lookup_insert_ne.
  - eexists _, _, (next_pk (proposals w)). repeat split; try reflexivity.
    + discriminate.
    + simpl. apply lookup_insert_eq.
    + intros j Hj. simpl. now apply lookup_insert_ne.
Qed.

(** Saving a passed proposal keeps every passed status. *)
Lemma Proposal_save_passed (p : Proposal.t) (w : World) :
  Proposal.status p = Proposal.PASSED ->
  passed_stay w (snd (Proposal_save p w)).
Proof.
  intros Hs.
  destruct (Proposal_save_spec p w)
    as (p' & w' & k & -> & Hs' & _ & _ & _ & _ & Hrow & Hother & _).
  simpl. intros j Hj. unfold stored_status in *.
  destruct (Nat.eq_dec j k) as [-> | Hne].
  - rewrite Hrow. simpl. congruence.
  - now rewrite Hother.
Qed.

(** ** [pass_action] and [fail_action] *)

(** [method] writes status [s] to the proposal of the object it is called
    on, whatever the proposal's status was. *)
Definition overwrites {T : Type} (method : T -> M World T)
    (with_proposal : option Proposal.t -> T -> T) (s : Proposal.Status) : Prop :=
  forall (self : T) (p : Proposal.t) (w : World),
  exists p' w' k,
    method (with_proposal (Some p) self) w = (Ok (with_proposal (Some p') self), w') /\
    Proposal.status p' = s /\
    Proposal.pk p' = Some k /\
    (forall k0, Proposal.pk p = Some k0 -> k = k0) /\
    stored_status w' k = Some s /\
    trace w' = trace w.

Lemma overwrites_save {T : Type} (method : T -> M World T)
    (with_proposal : option Proposal.t -> T -> T) (s : Proposal.Status)
    (after : T -> M World unit) :
  (forall self w, fst (after self w) = Ok tt /\
                  proposals (snd (after self w)) = proposals w /\
                  trace (snd (after self w)) = trace w) ->
  (forall self p w,
     method (with_proposal (Some p) self) w =
     (p' <- Proposal_save (Proposal.with_status s p) ;;
      after self ;;
      ret (with_proposal (Some p') self)) w) ->
  overwrites method with_proposal s.
Proof.
  intros Hafter Hm self p w. rewrite Hm. unfold bind, ret.
  destruct (Proposal_save_spec (Proposal.with_status s p) w)
    as (p' & w' & k & -> & Hs & _ & Hk & Hk0 & _ & Hrow & _ & Htr & _).
  destruct (Hafter self w') as (Hok & Hpr & Htr').
  destruct (after self w') as [r w''] eqn:E. simpl in *. subst r.
  exists p', w'', k. repeat split; try assumption.
  - unfold stored_status. rewrite Hpr, Hrow. simpl. now rewrite Hs.
  - congruence.
Qed.

(** C3, as the code has it.  On an action or a bundle, of either family,
    [pass_action] leaves the proposal [passed] and [fail_action] leaves it
    [failed], whatever its status was before: the status is overwritten,
    also when it was already terminal. *)
Theorem pass_fail_overwrite_status :
  overwrites ConstitutionAction.pass_action ConstitutionAction.with_proposal Proposal.PASSED /\
  overwrites ConstitutionAction.fail_action ConstitutionAction.with_proposal Proposal.FAILED /\
  overwrites PlatformAction.pass_action PlatformAction.with_proposal Proposal.PASSED /\
  overwrites PlatformAction.fail_action PlatformAction.with_proposal Proposal.FAILED /\
  overwrites ConstitutionActionBundle.pass_action ConstitutionActionBundle.with_proposal
    Proposal.PASSED /\
  overwrites ConstitutionActionBundle.fail_action ConstitutionActionBundle.with_proposal
    Proposal.FAILED /\
  overwrites PlatformActionBundle.pass_action PlatformActionBundle.with_proposal
    Proposal.PASSED /\
  overwrites PlatformActionBundle.fail_action PlatformActionBundle.with_proposal
    Proposal.FAILED.
Proof.
  repeat split.
  - apply (overwrites_save _ _ _
      (fun self => modify (fun w => set_activity
         (activity w ++ [ {| actor := (Constitution, ConstitutionAction.pk self);
                             verb := "was passed";
                             community_id := Community.id (ConstitutionAction.community self) |} ])
         w))).
    + intros self w. repeat split.
    + intros self p w. reflexivity.
  - apply (overwrites_save _ _ _ (fun _ => ret tt)).
    + intros self w. repeat split.
    + intros self p w. unfold ConstitutionAction.fail_action, bind, ret. simpl.
      now destruct (Proposal_save _ w) as [[? | ?] ?].
  - apply (overwrites_save _ _ _
      (fun self => modify (fun w => set_activity
         (activity w ++ [ {| actor := (Platform, PlatformAction.pk self);
                             verb := "was passed";
                             community_id := Community.id (PlatformAction.community self) |} ])
         w))).
    + intros self w. repeat split.
    + intros self p w. reflexivity.
  - apply (overwrites_save _ _ _ (fun _ => ret tt)).
    + intros self w. repeat split.
    + intros self p w. unfold PlatformAction.fail_action, bind, ret. simpl.
      now destruct (Proposal_save _ w) as [[? | ?] ?].
  - apply (overwrites_save _ _ _ (fun _ => ret tt)).
    + intros self w. repeat split.
    + intros self p w. unfold ConstitutionActionBundle.pass_action, bind, ret. simpl.
      now destruct (Proposal_save _ w) as [[? | ?] ?].
  - apply (overwrites_save _ _ _ (fun _ => ret tt)).
    + intros self w. repeat split.
    + intros self p w. unfold ConstitutionActionBundle.fail_action, bind, ret. simpl.
      now destruct (Proposal_save _ w) as [[? | ?] ?].
  - apply (overwrites_save _ _ _ (fun _ => ret tt)).
    + intros self w. repeat split.
    + intros self p w. unfold PlatformActionBundle.pass_action, bind, ret. simpl.
      now destruct (Proposal_save _ w) as [[? | ?] ?].
  - apply (overwrites_save _ _ _ (fun _ => ret tt)).
    + intros self w. repeat split.
    + intros self p w. unfold PlatformActionBundle.fail_action, bind, ret. simpl.
      now destruct (Proposal_save _ w) as [[? | ?] ?].
Qed.

(** ** The real effect of a constitution action *)

Section ExecuteFacts.
Import ConstitutionAction.

Lemma bind_assoc {S A B C : Type} (m : M S A) (k : A -> M S B) (g : B -> M S C) (s : S) :
  bind (bind m k) g s = bind m (fun x => bind (k x) g) s.
Proof. unfold bind. destruct (m s) as [[a | e] s1]; reflexivity. Qed.

Lemma bind_ext {S A B : Type} (m : M S A) (k k' : A -> M S B) (s : S) :
  (forall x s', k x s' = k' x s') -> bind m k s = bind m k' s.
Proof. intros H. unfold bind. destruct (m s) as [[a | e] s1]; [ apply H | reflexivity ]. Qed.

Ltac reassoc :=
  repeat first [ reflexivity | rewrite bind_assoc | apply bind_ext; intros ? ? ].

Ltac frame :=
  repeat first
    [ solve [ auto with frames ]
    | apply keeps_inst_save; intros ? ?; split; reflexivity
    | apply keeps_inst_delete; intros ? ?; split; reflexivity
    | apply keeps_get_or_create; intros ? ?; split; reflexivity
    | apply keeps_for_each; intros ?
    | apply keeps_try_except
    | apply keeps_bind; [ | intros ? ] ].

(** Every class's [execute] is its effect, which leaves proposals and
    trace alone, followed by [pass_action] on the same action. *)
Definition effect_then_pass (a : t) (m : M World t) : Prop :=
  exists (B : Type) (body : M World B) (f : B -> t),
    keeps body /\
    (forall x, proposal (f x) = proposal a /\ pk (f x) = pk a /\ community (f x) = community a) /\
    forall w, m w = (x <- body ;; pass_action (f x)) w.

Lemma execute_effect_then_pass (a : t) :
  exists m, effect_then_pass a m /\
            forall w, execute a w = (log (EvEffect Constitution (pk a)) ;; m) w.
Proof.
  unfold execute.
  destruct (kind a) as
    [ name text | doc name text | doc | name description permissions | role
    | role name description permissions | role users | role users
    | e | e | pol e | pol e | pol | pol ];
    (eexists; split; [ | intros w; reflexivity ]).
  - unfold PolicykitAddCommunityDoc_execute.
    eexists _, (doc <- get_or_create docs set_docs _ _ ;; inst_save docs set_docs _),
      (fun _ => a).
    split; [ frame | ]. split; [ intros; repeat split | ].
    intros w. reassoc.
  - unfold PolicykitChangeCommunityDoc_execute.
    eexists _, (d <- deref doc ;; inst_save docs set_docs _),
      (fun d' => with_kind (PolicykitChangeCommunityDoc (Some d') name text) a).
    split; [ frame | ]. split; [ intros; repeat split | ].
    intros w. reassoc.
  - unfold PolicykitDeleteCommunityDoc_execute.
    eexists _, (d <- deref doc ;; inst_delete docs set_docs d),
      (fun d' => with_kind (PolicykitDeleteCommunityDoc (Some d')) a).
    split; [ frame | ]. split; [ intros; repeat split | ].
    intros w. reassoc.
  - unfold PolicykitAddRole_execute.
    destruct (Community.platform (community a)) as [platform | ].
    + eexists _, (role <- get_or_create roles set_roles _ _ ;;
                  for_each permissions (fun p => role_permissions_add role p) ;;
                  inst_save roles set_roles _),
        (fun _ => a).
      split; [ frame | ]. split; [ intros; repeat split | ].
      intros w. reassoc.
    + exists unit, (raise TypeError), (fun _ => a).
      split; [ frame | ]. split; [ intros; repeat split | ].
      intros w. reflexivity.
  - unfold PolicykitDeleteRole_execute.
    eexists _, _, (fun role' => with_kind (PolicykitDeleteRole role') a).
    split; [ | split; [ intros; repeat split | intros w; reflexivity ] ].
    frame.
  - unfold PolicykitEditRole_execute.
    eexists _,
      (r <- deref role ;;
       role_permissions_clear _ ;;
       for_each permissions (fun p => role_permissions_add _ p) ;;
       inst_save roles set_roles
         {| inst_pk := inst_pk r;
            inst_val := {| CommunityRole.name := CommunityRole.name (inst_val r);
                           CommunityRole.role_name := Some name;
                           CommunityRole.description := description;
                           CommunityRole.community := CommunityRole.community (inst_val r) |} |}),
      (fun r2 => with_kind (PolicykitEditRole (Some r2) name description permissions) a).
    split; [ frame | ]. split; [ intros; repeat split | ].
    intros w. reassoc.
  - unfold PolicykitAddUserRole_execute.
    eexists _, _, (fun _ => a).
    split; [ | split; [ intros; repeat split | intros w; reflexivity ] ].
    frame.
  - unfold PolicykitRemoveUserRole_execute.
    eexists _, _, (fun _ => a).
    split; [ | split; [ intros; repeat split | intros w; reflexivity ] ].
    frame.
  - unfold PolicykitAddPlatformPolicy_execute.
    eexists _, _, (fun _ => a).
    split; [ | split; [ intros; repeat split | intros w; reflexivity ] ].
    frame.
  - unfold PolicykitAddConstitutionPolicy_execute.
    eexists _, _, (fun _ => a).
    split; [ | split; [ intros; repeat split | intros w; reflexivity ] ].
    frame.
  - unfold PolicykitChangePlatformPolicy_execute.
    eexists _, (p <- deref pol ;; inst_save platform_policies set_platform_policies _),
      (fun p' => with_kind (PolicykitChangePlatformPolicy (Some p') e) a).
    split; [ frame | ]. split; [ intros; repeat split | ].
    intros w. reassoc.
  - unfold PolicykitChangeConstitutionPolicy_execute.
    eexists _, (p <- deref pol ;; inst_save constitution_policies set_constitution_policies _),
      (fun p' => with_kind (PolicykitChangeConstitutionPolicy (Some p') e) a).
    split; [ frame | ]. split; [ intros; repeat split | ].
    intros w. reassoc.
  - unfold PolicykitRemovePlatformPolicy_execute.
    eexists _, (p <- deref pol ;; inst_delete platform_policies set_platform_policies p),
      (fun p' => with_kind (PolicykitRemovePlatformPolicy (Some p')) a).
    split; [ frame | ]. split; [ intros; repeat split | ].
    intros w. reassoc.
  - unfold PolicykitRemoveConstitutionPolicy_execute.
    eexists _, (p <- deref pol ;; inst_delete constitution_policies set_constitution_policies p),
      (fun p' => with_kind (PolicykitRemoveConstitutionPolicy (Some p')) a).
    split; [ frame | ]. split; [ intros; repeat split | ].
    intros w. reassoc.
Qed.

End ExecuteFacts.

Section PassFacts.

(** [pass_action] on an action: without a proposal it raises and changes
    nothing; with one it writes [passed]. *)
Lemma ConstitutionAction_pass_action_spec (a : ConstitutionAction.t) (w : World) :
  match ConstitutionAction.proposal a with
  | None => ConstitutionAction.pass_action a w = (Raise AttributeError, w)
  | Some p =>
      exists p' w' k,
        ConstitutionAction.pass_action a w
          = (Ok (ConstitutionAction.with_proposal (Some p') a), w') /\
        Proposal.status p' = Proposal.PASSED /\
        Proposal.pk p' = Some k /\
        (forall k0, Proposal.pk p = Some k0 -> k = k0) /\
        stored_status w' k = Some Proposal.PASSED /\
        trace w' = trace w /\
        passed_stay w w'
  end.
Proof.
  unfold ConstitutionAction.pass_action.
  destruct (ConstitutionAction.proposal a) as [p | ]; [ | reflexivity ].
  unfold bind at 1. simpl. unfold bind at 1.
  pose proof (Proposal_save_passed (Proposal.with_status Proposal.PASSED p) w eq_refl) as Hstay.
  destruct (Proposal_save_spec (Proposal.with_status Proposal.PASSED p) w)
    as (p' & w' & k & E & Hs & _ & Hk & Hk0 & _ & Hrow & _ & Htr & _).
  rewrite E in *. simpl in Hstay.
  eexists p', _, k. split; [ reflexivity | ].
  repeat split; try assumption.
  - unfold stored_status. simpl. rewrite Hrow. simpl. now rewrite Hs.
Qed.

Lemma ConstitutionAction_pass_action_some (a : ConstitutionAction.t) (p : Proposal.t)
    (w : World) :
  ConstitutionAction.proposal a = Some p ->
  exists p' w' k,
    ConstitutionAction.pass_action a w
      = (Ok (ConstitutionAction.with_proposal (Some p') a), w') /\
    Proposal.status p' = Proposal.PASSED /\
    Proposal.pk p' = Some k /\
    (forall k0, Proposal.pk p = Some k0 -> k = k0) /\
    stored_status w' k = Some Proposal.PASSED /\
    trace w' = trace w /\
    passed_stay w w'.
Proof.
  intros H. pose proof (ConstitutionAction_pass_action_spec a w) as S.
  rewrite H in S. exact S.
Qed.

Lemma PlatformAction_pass_action_spec (a : PlatformAction.t) (w : World) :
  match PlatformAction.proposal a with
  | None => PlatformAction.pass_action a w = (Raise AttributeError, w)
  | Some p =>
      exists p' w' k,
        PlatformAction.pass_action a w
          = (Ok (PlatformAction.with_proposal (Some p') a), w') /\
        Proposal.status p' = Proposal.PASSED /\
        Proposal.pk p' = Some k /\
        (forall k0, Proposal.pk p = Some k0 -> k = k0) /\
        stored_status w' k = Some Proposal.PASSED /\
        trace w' = trace w /\
        passed_stay w w'
  end.
Proof.
  unfold PlatformAction.pass_action.
  destruct (PlatformAction.proposal a) as [p | ]; [ | reflexivity ].
  unfold bind at 1. simpl. unfold bind at 1.
  pose proof (Proposal_save_passed (Proposal.with_status Proposal.PASSED p) w eq_refl) as Hstay.
  destruct (Proposal_save_spec (Proposal.with_status Proposal.PASSED p) w)
    as (p' & w' & k & E & Hs & _ & Hk & Hk0 & _ & Hrow & _ & Htr & _).
  rewrite E in *. simpl in Hstay.
  eexists p', _, k. split; [ reflexivity | ].
  repeat split; try assumption.
  - unfold stored_status. simpl. rewrite Hrow. simpl. now rewrite Hs.
Qed.

(** What [execute] leaves behind: the trace gains the effect event of
    this action and nothing else; no passed status is lost; and when it
    returns, the action's proposal is passed. *)
Definition passed_result (p0 : option Proposal.t) (p1 : option Proposal.t) (w' : World) : Prop :=
  exists p p' k,
    p0 = Some p /\ p1 = Some p' /\
    Proposal.status p' = Proposal.PASSED /\
    Proposal.pk p' = Some k /\
    (forall k0, Proposal.pk p = Some k0 -> k = k0) /\
    stored_status w' k = Some Proposal.PASSED.

Lemma ConstitutionAction_execute_spec (a : ConstitutionAction.t) (w : World) :
  trace (snd (ConstitutionAction.execute a w))
    = trace w ++ [EvEffect Constitution (ConstitutionAction.pk a)] /\
  passed_stay w (snd (ConstitutionAction.execute a w)) /\
  match fst (ConstitutionAction.execute a w) with
  | Ok a' =>
      ConstitutionAction.pk a' = ConstitutionAction.pk a /\
      passed_result (ConstitutionAction.proposal a) (ConstitutionAction.proposal a')
        (snd (ConstitutionAction.execute a w))
  | Raise _ => True
  end.
Proof.
  destruct (execute_effect_then_pass a) as (m & (B & body & f & Hkeep & Hf & Hm) & Hex).
  set (w0 := set_trace (trace w ++ [EvEffect Constitution (ConstitutionAction.pk a)]) w).
  assert (E : ConstitutionAction.execute a w
              = (x <- body ;; ConstitutionAction.pass_action (f x)) w0).
  { rewrite Hex. unfold bind at 1, log, modify. simpl. apply Hm. }
  rewrite E. clear E Hex Hm. unfold bind.
  specialize (Hkeep w0). destruct (body w0) as [[x | e] w1]; simpl in Hkeep.
  - destruct (Hf x) as (Hp & Hpk & _).
    pose proof (ConstitutionAction_pass_action_spec (f x) w1) as Hpass.
    rewrite Hp in Hpass.
    destruct (ConstitutionAction.proposal a) as [p | ].
    + destruct Hpass as (p' & w' & k & -> & Hs & Hk & Hk0 & Hst & Htr & Hstay).
      simpl. destruct Hkeep as [Hpr Htr0].
      split; [ now rewrite Htr, Htr0 | ].
      split.
      * eapply passed_stay_trans; [ | exact Hstay ].
        apply proposals_passed_stay. exact Hpr.
      * split; [ exact Hpk | ]. exists p, p', k. repeat split; assumption.
    + rewrite Hpass. simpl. destruct Hkeep as [Hpr Htr0].
      split; [ exact Htr0 | ]. split; [ | exact I ].
      apply proposals_passed_stay. exact Hpr.
  - simpl. destruct Hkeep as [Hpr Htr0].
    split; [ exact Htr0 | ]. split; [ | exact I ].
    apply proposals_passed_stay. exact Hpr.
Qed.

Lemma PlatformAction_run_effect_spec adapter (c : Community.t) (a : PlatformAction.t)
    (w : World) :
  snd (PlatformAction.run_effect adapter c a w)
    = set_trace (trace w ++ [EvEffect Platform (PlatformAction.pk a)]) w /\
  fst (PlatformAction.run_effect adapter c a w) = adapter c a.
Proof. unfold PlatformAction.run_effect, bind, log, modify, lift. simpl. split; reflexivity. Qed.

Lemma PlatformAction_execute_spec adapter (a : PlatformAction.t) (w : World) :
  trace (snd (PlatformAction.execute adapter a w))
    = trace w ++ [EvEffect Platform (PlatformAction.pk a)] /\
  passed_stay w (snd (PlatformAction.execute adapter a w)) /\
  match fst (PlatformAction.execute adapter a w) with
  | Ok a' =>
      PlatformAction.pk a' = PlatformAction.pk a /\
      passed_result (PlatformAction.proposal a) (PlatformAction.proposal a')
        (snd (PlatformAction.execute adapter a w))
  | Raise _ => True
  end.
Proof.
  set (w0 := set_trace (trace w ++ [EvEffect Platform (PlatformAction.pk a)]) w).
  assert (E : PlatformAction.execute adapter a w
              = match adapter (PlatformAction.community a) a with
                | Ok _ => PlatformAction.pass_action a w0
                | Raise e => (Raise e, w0)
                end).
  { unfold PlatformAction.execute, PlatformAction.run_effect, bind, log, modify, lift.
    simpl. destruct (adapter _ a) as [[] | e]; reflexivity. }
  rewrite E. clear E.
  destruct (adapter (PlatformAction.community a) a) as [[] | e]; simpl.
  - pose proof (PlatformAction_pass_action_spec a w0) as Hpass.
    destruct (PlatformAction.proposal a) as [p | ].
    + destruct Hpass as (p' & w' & k & -> & Hs & Hk & Hk0 & Hst & Htr & Hstay).
      simpl. split; [ exact Htr | ]. split.
      * eapply passed_stay_trans; [ | exact Hstay ].
        apply proposals_passed_stay. reflexivity.
      * split; [ reflexivity | ]. exists p, p', k. repeat split; assumption.
    + rewrite Hpass. simpl. split; [ reflexivity | ]. split; [ | exact I ].
      apply proposals_passed_stay. reflexivity.
  - split; [ reflexivity | ]. split; [ | exact I ].
    apply proposals_passed_stay. reflexivity.
Qed.

End PassFacts.

(** ** The permission gate *)

(** C1.  An action saved by an initiator who lacks the propose
    permission: [save] returns and the trace is as before, so that no
    effect was started and [execute_policy] (hence every hook) was never
    called.  This holds for every such save: of a new action, of a stored
    one, and of a stored role action marked ready, which meets the gate
    on its second save.  Whenever the save is one that creates (the gate
    is met, or the object is new), the action's proposal is a row created
    at a fresh key with status [failed]. *)
Theorem denied_action_fails_without_hooks :
  (forall execute_policy (self : ConstitutionAction.t) (w : World),
     CommunityUser.has_perm (ConstitutionAction.initiator self)
       (ConstitutionAction.propose_perm (ConstitutionAction.kind self)) = false ->
     exists self' w',
       ConstitutionAction.save execute_policy self w = (Ok self', w') /\
       trace w' = trace w /\
       activity w' = activity w /\
       (ConstitutionAction.shouldCreate self = true \/
        pk_truthy (ConstitutionAction.pk self) = false ->
        exists p k,
          ConstitutionAction.proposal self' = Some p /\
          Proposal.status p = Proposal.FAILED /\
          Proposal.pk p = Some k /\
          k = next_pk (proposals w) /\
          rows (proposals w') !! k = Some p)) /\
  (forall execute_platform_action execute_policy (self : PlatformAction.t) (w : World),
     CommunityUser.has_perm (PlatformAction.initiator self)
       (PlatformAction.propose_perm self) = false ->
     exists self' w',
       PlatformAction.save execute_platform_action execute_policy self w = (Ok self', w') /\
       trace w' = trace w /\
       activity w' = activity w /\
       (pk_truthy (PlatformAction.pk self) = false ->
        exists p k,
          PlatformAction.proposal self' = Some p /\
          Proposal.status p = Proposal.FAILED /\
          Proposal.pk p = Some k /\
          k = next_pk (proposals w) /\
          rows (proposals w') !! k = Some p)).
Proof.
  split.
  - intros execute_policy self w Hperm.
    destruct self as [pk comm init bundled data prop ready kind].
    simpl in Hperm.
    unfold ConstitutionAction.save.
    destruct (ConstitutionAction.shouldCreate _) eqn:Hsc.
    + destruct data as [ds | ]; cbn; rewrite Hperm; cbn;
        (eexists _, _; split; [ reflexivity | ]);
        (split; [ reflexivity | ]); (split; [ reflexivity | ]);
        intros _; eexists _, _; repeat split; cbn; apply lookup_insert_eq.
    + cbn [ConstitutionAction.pk].
      destruct (pk_truthy pk) eqn:Hpk.
      * destruct pk as [ [ | n ] | ]; try discriminate Hpk. cbn.
        eexists _, _. split; [ reflexivity | ].
        split; [ reflexivity | ]. split; [ reflexivity | ].
        intros [ H | H ]; discriminate H.
      * destruct pk as [ [ | n ] | ]; try discriminate Hpk; cbn;
          (eexists _, _; split; [ reflexivity | ]);
          (split; [ reflexivity | ]); (split; [ reflexivity | ]);
          intros _; eexists _, _; repeat split; cbn; apply lookup_insert_eq.
  - intros adapter execute_policy self w Hperm.
    destruct self as [pk comm init rev orig bundled data prop label name codename].
    unfold PlatformAction.save, PlatformAction.propose_perm in *.
    cbn [PlatformAction.pk].
    destruct pk as [ [ | n ] | ].
    + destruct data as [ds | ]; cbn in Hperm |- *; rewrite Hperm; cbn;
        (eexists _, _; split; [ reflexivity | ]);
        (split; [ reflexivity | ]); (split; [ reflexivity | ]);
        intros _; eexists _, _; repeat split; cbn; apply lookup_insert_eq.
    + cbn. eexists _, _. split; [ reflexivity | ].
      split; [ reflexivity | ]. split; [ reflexivity | ].
      intros H; discriminate H.
    + destruct data as [ds | ]; cbn in Hperm |- *; rewrite Hperm; cbn;
        (eexists _, _; split; [ reflexivity | ]);
        (split; [ reflexivity | ]); (split; [ reflexivity | ]);
        intros _; eexists _, _; repeat split; cbn; apply lookup_insert_eq.
Qed.

(** C2, as the code has it.  An action saved while [shouldCreate] holds
    (a new object; for the role classes, one marked ready), not bundled,
    by an initiator holding the propose and the bypass permission, and
    whose [save] returns: its proposal is passed, the trace gained the
    effect event of this action once and nothing else, so that
    [execute_policy] (hence every hook) was never called. *)
Theorem bypass_action_passes_after_one_effect :
  (forall execute_policy (self self' : ConstitutionAction.t) (w w' : World),
     ConstitutionAction.shouldCreate self = true ->
     CommunityUser.has_perm (ConstitutionAction.initiator self)
       (ConstitutionAction.propose_perm (ConstitutionAction.kind self)) = true ->
     CommunityUser.has_perm (ConstitutionAction.initiator self)
       (ConstitutionAction.execute_perm (ConstitutionAction.kind self)) = true ->
     ConstitutionAction.is_bundled self = false ->
     ConstitutionAction.save execute_policy self w = (Ok self', w') ->
     exists p k,
       ConstitutionAction.proposal self' = Some p /\
       Proposal.status p = Proposal.PASSED /\
       Proposal.pk p = Some k /\
       stored_status w' k = Some Proposal.PASSED /\
       trace w' = trace w ++ [EvEffect Constitution (ConstitutionAction.pk self')]) /\
  (forall execute_platform_action execute_policy (self self' : PlatformAction.t)
          (w w' : World),
     pk_truthy (PlatformAction.pk self) = false ->
     CommunityUser.has_perm (PlatformAction.initiator self)
       (PlatformAction.propose_perm self) = true ->
     CommunityUser.has_perm (PlatformAction.initiator self)
       (PlatformAction.execute_perm self) = true ->
     PlatformAction.is_bundled self = false ->
     PlatformAction.save execute_platform_action execute_policy self w = (Ok self', w') ->
     exists p k,
       PlatformAction.proposal self' = Some p /\
       Proposal.status p = Proposal.PASSED /\
       Proposal.pk p = Some k /\
       stored_status w' k = Some Proposal.PASSED /\
       trace w' = trace w ++ [EvEffect Platform (PlatformAction.pk self')]).
Proof.
  split.
  - intros execute_policy self self' w w' Hsc Hprop Hexec Hb Hsave.
    unfold ConstitutionAction.save in Hsave. rewrite Hsc in Hsave.
    destruct self as [pk comm init bundled data prop ready kind].
    simpl in Hprop, Hexec, Hb. subst bundled.
    Opaque ConstitutionAction.execute.
    destruct data as [ds | ], prop as [p0 | ], pk as [k0 | ];
      cbn in Hsave; rewrite Hprop in Hsave; cbn in Hsave;
      rewrite Hexec in Hsave;
      match type of Hsave with
      | ConstitutionAction.execute ?a ?w1 = _ =>
          destruct (ConstitutionAction_execute_spec a w1) as (Htr & _ & Hres);
          rewrite Hsave in Htr, Hres; simpl in Htr, Hres;
          destruct Hres as (Hpk & p & p' & k & _ & Hp' & Hs & Hk & _ & Hst);
          exists p', k; rewrite Hpk; repeat split; assumption
      end.
    Transparent ConstitutionAction.execute.
  - intros adapter execute_policy self self' w w' Hpk Hprop Hexec Hb Hsave.
    unfold PlatformAction.save in Hsave. rewrite Hpk in Hsave.
    destruct self as [pk comm init rev orig bundled data prop label name codename].
    unfold PlatformAction.propose_perm, PlatformAction.execute_perm in *.
    simpl in Hprop, Hexec, Hb. subst bundled.
    Opaque PlatformAction.execute.
    destruct data as [ds | ], pk as [k0 | ];
      cbn in Hsave; rewrite Hprop in Hsave; cbn in Hsave;
      rewrite Hexec in Hsave;
      match type of Hsave with
      | PlatformAction.execute _ ?a ?w1 = _ =>
          destruct (PlatformAction_execute_spec adapter a w1) as (Htr & _ & Hres);
          rewrite Hsave in Htr, Hres; simpl in Htr, Hres;
          destruct Hres as (Hpk' & p & p' & k & _ & Hp' & Hs & Hk & _ & Hst);
          exists p', k; rewrite Hpk'; repeat split; assumption
      end.
    Transparent PlatformAction.execute.
Qed.

(** C4, as the code has it.  [save] creates and attaches the action's
    DataStore before it checks the propose permission: a denied action
    saved without a DataStore (while [shouldCreate] holds, for a
    constitution action; when new, for a platform action) leaves [save]
    with a fresh, empty DataStore of its own. *)
Theorem denied_action_gets_a_DataStore :
  (forall execute_policy (self : ConstitutionAction.t) (w : World),
     ConstitutionAction.shouldCreate self = true ->
     ConstitutionAction.data self = None ->
     CommunityUser.has_perm (ConstitutionAction.initiator self)
       (ConstitutionAction.propose_perm (ConstitutionAction.kind self)) = false ->
     exists self' w' k,
       ConstitutionAction.save execute_policy self w = (Ok self', w') /\
       ConstitutionAction.data self'
         = Some {| DataStore.pk := Some k; DataStore.data_store := EmptyString |} /\
       k = next_pk (datastores w) /\
       rows (datastores w') !! k = Some EmptyString) /\
  (forall execute_platform_action execute_policy (self : PlatformAction.t) (w : World),
     PlatformAction.pk self = None ->
     PlatformAction.data self = None ->
     CommunityUser.has_perm (PlatformAction.initiator self)
       (PlatformAction.propose_perm self) = false ->
     exists self' w' k,
       PlatformAction.save execute_platform_action execute_policy self w = (Ok self', w') /\
       PlatformAction.data self'
         = Some {| DataStore.pk := Some k; DataStore.data_store := EmptyString |} /\
       k = next_pk (datastores w) /\
       rows (datastores w') !! k = Some EmptyString).
Proof.
  split.
  - intros execute_policy self w Hsc Hdata Hperm.
    unfold ConstitutionAction.save. rewrite Hsc.
    destruct self as [pk comm init bundled data prop ready kind].
    simpl in Hdata, Hperm. subst data.
    cbn. rewrite Hperm. cbn.
    eexists _, _, _. split; [ reflexivity | ].
    repeat split. cbn.
    rewrite lookup_insert_ne; [ apply lookup_insert_eq | lia ].
  - intros adapter execute_policy self w Hpk Hdata Hperm.
    destruct self as [pk comm init rev orig bundled data prop label name codename].
    simpl in Hpk, Hdata. subst pk data.
    unfold PlatformAction.save, PlatformAction.propose_perm in *.
    cbn in Hperm |- *. rewrite Hperm. cbn.
    eexists _, _, _. split; [ reflexivity | ].
    repeat split. cbn.
    rewrite lookup_insert_ne; [ apply lookup_insert_eq | lia ].
Qed.

(** ** Deleting what is already gone *)

(** [execute] of an action of class [k] raises [e] and leaves every
    proposal as it was. *)
Definition raises_untouched (e : exn) (k : ConstitutionKind)
    (self : ConstitutionAction.t) (w : World) : Prop :=
  fst (ConstitutionAction.execute (ConstitutionAction.with_kind k self) w) = Raise e /\
  proposals (snd (ConstitutionAction.execute (ConstitutionAction.with_kind k self) w))
    = proposals w.

(** C5 (the code on an absent entity).  When the reference of a delete
    or remove action is [None] (the key was nulled when the entity was
    deleted), [execute] raises [AttributeError] in all four classes,
    [PolicykitDeleteRole] included, and no proposal is touched.  When the
    reference is an object already deleted through itself (no key), the
    document and policy classes raise [AssertionError]. *)
Theorem delete_of_absent_entity_raises (self : ConstitutionAction.t) (w : World) :
  raises_untouched AttributeError (PolicykitDeleteCommunityDoc None) self w /\
  raises_untouched AttributeError (PolicykitDeleteRole None) self w /\
  raises_untouched AttributeError (PolicykitRemovePlatformPolicy None) self w /\
  raises_untouched AttributeError (PolicykitRemoveConstitutionPolicy None) self w /\
  (forall d, raises_untouched AssertionError
               (PolicykitDeleteCommunityDoc (Some {| inst_pk := None; inst_val := d |}))
               self w) /\
  (forall p, raises_untouched AssertionError
               (PolicykitRemovePlatformPolicy (Some {| inst_pk := None; inst_val := p |}))
               self w) /\
  (forall p, raises_untouched AssertionError
               (PolicykitRemoveConstitutionPolicy (Some {| inst_pk := None; inst_val := p |}))
               self w).
Proof. repeat split. Qed.

(** X28.  The sibling path: [PolicykitDeleteRole] with a role already deleted
    through itself catches the assertion and passes the proposal. *)
Lemma PolicykitDeleteRole_tolerates_deleted_role (self : ConstitutionAction.t)
    (p : Proposal.t) (r : CommunityRole.t) (w : World) :
  let a := ConstitutionAction.with_proposal (Some p)
             (ConstitutionAction.with_kind
                (PolicykitDeleteRole (Some {| inst_pk := None; inst_val := r |})) self) in
  exists a' p' k,
    fst (ConstitutionAction.execute a w) = Ok a' /\
    ConstitutionAction.proposal a' = Some p' /\
    Proposal.status p' = Proposal.PASSED /\
    Proposal.pk p' = Some k /\
    stored_status (snd (ConstitutionAction.execute a w)) k = Some Proposal.PASSED /\
    roles (snd (ConstitutionAction.execute a w)) = roles w.
Proof.
  intros a.
  assert (E : ConstitutionAction.execute a w
              = ConstitutionAction.pass_action a
                  (set_trace (trace w ++ [EvEffect Constitution (ConstitutionAction.pk a)]) w)).
  { reflexivity. }
  rewrite E.
  destruct (ConstitutionAction_pass_action_some a p
    (set_trace (trace w ++ [EvEffect Constitution (ConstitutionAction.pk a)]) w) eq_refl)
    as (p' & w' & k & Hrun & Hs & Hk & _ & Hst & _ & _).
  rewrite Hrun. simpl. exists (ConstitutionAction.with_proposal (Some p') a), p', k.
  repeat split; try assumption.
  unfold ConstitutionAction.pass_action, Proposal_save, bind in Hrun. simpl in Hrun.
  destruct p as [[[ | n] | ] s au d]; simpl in Hrun; inversion Hrun; reflexivity.
Qed.

(** X29.  A cached object whose row has vanished: [delete] removes nothing and
    the proposal passes, in the document class as in the others. *)
Lemma PolicykitDeleteCommunityDoc_vanished_row (self : ConstitutionAction.t)
    (p : Proposal.t) (d : CommunityDoc.t) (k : nat) (w : World) :
  rows (docs w) !! k = None ->
  let a := ConstitutionAction.with_proposal (Some p)
             (ConstitutionAction.with_kind
                (PolicykitDeleteCommunityDoc (Some {| inst_pk := Some k; inst_val := d |}))
                self) in
  exists a',
    fst (ConstitutionAction.execute a w) = Ok a' /\
    rows (docs (snd (ConstitutionAction.execute a w))) = rows (docs w) /\
    passed_result (Some p) (ConstitutionAction.proposal a')
      (snd (ConstitutionAction.execute a w)).
Proof.
  intros Hrow a.
  set (a1 := ConstitutionAction.with_kind
               (PolicykitDeleteCommunityDoc (Some {| inst_pk := None; inst_val := d |})) a).
  set (w1 := set_docs (tbl_delete k (docs w))
               (set_trace (trace w ++ [EvEffect Constitution (ConstitutionAction.pk a)]) w)).
  assert (E : ConstitutionAction.execute a w = ConstitutionAction.pass_action a1 w1).
  { reflexivity. }
  rewrite E.
  destruct (ConstitutionAction_pass_action_some a1 p w1 eq_refl)
    as (p' & w' & j & Hrun & Hs & Hk & Hk0 & Hst & _ & _).
  rewrite Hrun. simpl. eexists. split; [ reflexivity | ]. split.
  - unfold ConstitutionAction.pass_action, Proposal_save, bind in Hrun. simpl in Hrun.
    destruct p as [[[ | n] | ] s au dd]; simpl in Hrun; inversion Hrun; subst; simpl;
      now apply delete_id.
  - exists p, p', j. repeat split; assumption.
Qed.

(** ** Bundles *)

Section BundleFacts.

(** The loop of [ConstitutionActionBundle.execute]. *)
Definition constitution_loop (actions : list ConstitutionAction.t) : M World unit :=
  for_each actions
    (fun action =>
       action <- ConstitutionAction.execute action ;;
       ConstitutionAction.pass_action action ;;
       ret tt).

(** After a loop that returned, the proposal of [a] is stored as passed. *)
Definition passed_in (w : World) (proposal : option Proposal.t) : Prop :=
  exists p, proposal = Some p /\
            forall k, Proposal.pk p = Some k -> stored_status w k = Some Proposal.PASSED.

Lemma passed_in_stay w w' o : passed_stay w w' -> passed_in w o -> passed_in w' o.
Proof. intros Hs (p & Hp & Hk). exists p. split; [ exact Hp | ]. intros k E. apply Hs, Hk, E. Qed.

Lemma constitution_loop_spec (actions : list ConstitutionAction.t) :
  forall w w',
    constitution_loop actions w = (Ok tt, w') ->
    trace w' = trace w ++ map (fun a => EvEffect Constitution (ConstitutionAction.pk a)) actions /\
    passed_stay w w' /\
    forall a, In a actions -> passed_in w' (ConstitutionAction.proposal a).
Proof.
  induction actions as [ | a actions IH ]; intros w w' Hrun.
  - inversion Hrun; subst. rewrite app_nil_r.
    split; [ reflexivity | ]. split; [ apply passed_stay_refl | intros a [] ].
  - unfold constitution_loop in Hrun. simpl in Hrun. unfold bind at 1 2 in Hrun.
    destruct (ConstitutionAction_execute_spec a w) as (Htr & Hstay & Hres).
    destruct (ConstitutionAction.execute a w) as [[a1 | e] w1]; [ | discriminate ].
    simpl in Htr, Hstay, Hres. destruct Hres as (_ & p & p1 & k & Hp & Hp1 & _ & Hk1 & Hk0 & Hst).
    unfold bind at 1 in Hrun.
    destruct (ConstitutionAction_pass_action_some a1 p1 w1 Hp1)
      as (p2 & w2 & k2 & Epass & _ & _ & _ & _ & Htr2 & Hstay2).
    rewrite Epass in Hrun. unfold ret at 1 in Hrun.
    destruct (IH w2 w' Hrun) as (Htr' & Hstay' & Hall).
    split; [ | split ].
    + rewrite Htr', Htr2, Htr. simpl. now rewrite <- app_assoc.
    + eapply passed_stay_trans; [ exact Hstay | ].
      eapply passed_stay_trans; [ exact Hstay2 | exact Hstay' ].
    + intros b [<- | Hb]; [ | now apply Hall ].
      exists p. split; [ exact Hp | ]. intros k0 Ek0.
      apply Hstay', Hstay2. rewrite <- (Hk0 k0 Ek0). exact Hst.
Qed.

(** The loop of [PlatformActionBundle.execute]. *)
Definition platform_loop adapter (c : Community.t) (actions : list PlatformAction.t)
  : M World unit :=
  for_each actions
    (fun action =>
       PlatformAction.run_effect adapter c action ;;
       PlatformAction.pass_action action ;;
       ret tt).

Lemma platform_loop_spec adapter (c : Community.t) (actions : list PlatformAction.t) :
  forall w w',
    platform_loop adapter c actions w = (Ok tt, w') ->
    trace w' = trace w ++ map (fun a => EvEffect Platform (PlatformAction.pk a)) actions /\
    passed_stay w w' /\
    forall a, In a actions -> passed_in w' (PlatformAction.proposal a).
Proof.
  induction actions as [ | a actions IH ]; intros w w' Hrun.
  - inversion Hrun; subst. rewrite app_nil_r.
    split; [ reflexivity | ]. split; [ apply passed_stay_refl | intros a [] ].
  - unfold platform_loop in Hrun. simpl in Hrun. unfold bind at 1 2 in Hrun.
    destruct (PlatformAction_run_effect_spec adapter c a w) as [Hw Hr].
    destruct (PlatformAction.run_effect adapter c a w) as [[[] | e] w0]; [ | discriminate ].
    simpl in Hw. clear Hr. unfold bind at 1 in Hrun.
    pose proof (PlatformAction_pass_action_spec a w0) as Hpass.
    destruct (PlatformAction.proposal a) as [p | ] eqn:Hp.
    + destruct Hpass as (p1 & w1 & k & Epass & _ & _ & Hk0 & Hst & Htr1 & Hstay1).
      rewrite Epass in Hrun. unfold ret at 1 in Hrun.
      destruct (IH w1 w' Hrun) as (Htr' & Hstay' & Hall).
      split; [ | split ].
      * rewrite Htr', Htr1, Hw. simpl. now rewrite <- app_assoc.
      * eapply passed_stay_trans; [ | exact Hstay' ].
        eapply passed_stay_trans; [ | exact Hstay1 ].
        apply proposals_passed_stay. now rewrite Hw.
      * intros b [<- | Hb]; [ | now apply Hall ].
        exists p. split; [ exact Hp | ]. intros k0 Ek0.
        apply Hstay'. rewrite <- (Hk0 k0 Ek0). exact Hst.
    + rewrite Hpass in Hrun. discriminate.
Qed.

End BundleFacts.

(** C6, as the code has it.  When [execute] of a bundle of type
    [bundle] returns, the effect of every contained action was started,
    once each and in order, and every contained action has a proposal,
    stored as passed.  On a bundle of type [election], [execute] returns
    and changes nothing: no effect is started, no proposal is written. *)
Theorem bundle_execute_runs_and_passes_all :
  (forall (self : ConstitutionActionBundle.t) (w w' : World),
     ConstitutionActionBundle.bundle_type self = ConstitutionActionBundle.BUNDLE ->
     ConstitutionActionBundle.execute self w = (Ok tt, w') ->
     trace w' = trace w ++ map (fun a => EvEffect Constitution (ConstitutionAction.pk a))
                               (ConstitutionActionBundle.bundled_actions self) /\
     forall a, In a (ConstitutionActionBundle.bundled_actions self) ->
               passed_in w' (ConstitutionAction.proposal a)) /\
  (forall (self : ConstitutionActionBundle.t) (w : World),
     ConstitutionActionBundle.bundle_type self = ConstitutionActionBundle.ELECTION ->
     ConstitutionActionBundle.execute self w = (Ok tt, w)) /\
  (forall execute_platform_action (self : PlatformActionBundle.t) (w w' : World),
     PlatformActionBundle.bundle_type self = PlatformActionBundle.BUNDLE ->
     PlatformActionBundle.execute execute_platform_action self w = (Ok tt, w') ->
     trace w' = trace w ++ map (fun a => EvEffect Platform (PlatformAction.pk a))
                               (PlatformActionBundle.bundled_actions self) /\
     forall a, In a (PlatformActionBundle.bundled_actions self) ->
               passed_in w' (PlatformAction.proposal a)) /\
  (forall execute_platform_action (self : PlatformActionBundle.t) (w : World),
     PlatformActionBundle.bundle_type self = PlatformActionBundle.ELECTION ->
     PlatformActionBundle.execute execute_platform_action self w = (Ok tt, w)).
Proof.
  split; [ | split; [ | split ] ].
  - intros self w w' Hty Hrun.
    unfold ConstitutionActionBundle.execute in Hrun. rewrite Hty in Hrun.
    rewrite bool_decide_eq_true_2 in Hrun by reflexivity.
    destruct (constitution_loop_spec _ w w' Hrun) as (Htr & _ & Hall).
    split; assumption.
  - intros self w Hty. unfold ConstitutionActionBundle.execute. rewrite Hty. reflexivity.
  - intros adapter self w w' Hty Hrun.
    unfold PlatformActionBundle.execute in Hrun. rewrite Hty in Hrun.
    rewrite bool_decide_eq_true_2 in Hrun by reflexivity.
    destruct (platform_loop_spec adapter _ _ w w' Hrun) as (Htr & _ & Hall).
    split; assumption.
  - intros adapter self w Hty. unfold PlatformActionBundle.execute. rewrite Hty. reflexivity.
Qed.

(** * Concrete runs *)

Definition guild : Community.t :=
  {| Community.id := 1; Community.community_name := "guild";
     Community.platform := Some "slack"%string |}.

Definition member_with (perms : list string) : CommunityUser.t :=
  {| CommunityUser.pk := 3; CommunityUser.username := "ana";
     CommunityUser.is_active := true; CommunityUser.is_superuser := false;
     CommunityUser.permissions := list_to_set perms |}.

Definition new_action (u : CommunityUser.t) (k : ConstitutionKind) : ConstitutionAction.t :=
  {| ConstitutionAction.pk := None; ConstitutionAction.community := guild;
     ConstitutionAction.initiator := u; ConstitutionAction.is_bundled := false;
     ConstitutionAction.data := None; ConstitutionAction.proposal := None;
     ConstitutionAction.ready := false; ConstitutionAction.kind := k |}.

Definition new_platform_action (u : CommunityUser.t) : PlatformAction.t :=
  {| PlatformAction.pk := None; PlatformAction.community := guild;
     PlatformAction.initiator := u; PlatformAction.community_revert := false;
     PlatformAction.community_origin := false; PlatformAction.is_bundled := false;
     PlatformAction.data := None; PlatformAction.proposal := None;
     PlatformAction.app_label := "slack"; PlatformAction.app_name := "slackintegration";
     PlatformAction.action_codename := "slackpostmessage" |}.

(** An engine that runs no hook, and an adapter that always succeeds. *)
Definition no_policy {T : Type} : Inst BasePolicy.t -> T -> M World T := fun _ a => ret a.
Definition adapter_ok : Community.t -> PlatformAction.t -> Res unit := fun _ _ => Ok tt.

Definition result_or {A : Type} (d : A) (r : Res A) : A :=
  match r with
  | Ok a => a
  | Raise _ => d
  end.

Definition result_status (r : Res ConstitutionAction.t) : option Proposal.Status :=
  match r with
  | Ok a => Proposal.status <$> ConstitutionAction.proposal a
  | Raise _ => None
  end.

Definition add_rules : ConstitutionKind := PolicykitAddCommunityDoc "rules" "be kind".

Definition outsider : CommunityUser.t := member_with [].

Definition doc_admin : CommunityUser.t :=
  member_with [ "policyengine.add_policykitaddcommunitydoc"%string;
                "policyengine.can_execute_policykitaddcommunitydoc"%string ].

Definition role_admin : CommunityUser.t :=
  member_with [ "policyengine.add_policykitaddrole"%string;
                "policyengine.can_execute_policykitaddrole"%string ].

(** A stored role action, marked ready, which an outsider saves again. *)
Definition ready_role_action : ConstitutionAction.t :=
  {| ConstitutionAction.pk := Some 5%nat;
     ConstitutionAction.community := guild;
     ConstitutionAction.initiator := outsider;
     ConstitutionAction.is_bundled := false;
     ConstitutionAction.data := None;
     ConstitutionAction.proposal := None;
     ConstitutionAction.ready := true;
     ConstitutionAction.kind := PolicykitAddRole "helpers" None [] |}.

Lemma denied_action_fails_without_hooks_witness :
  CommunityUser.has_perm outsider
    (ConstitutionAction.propose_perm (ConstitutionAction.kind ready_role_action)) = false /\
  ConstitutionAction.shouldCreate ready_role_action = true /\
  exists self' w' p,
    ConstitutionAction.save no_policy ready_role_action empty_world = (Ok self', w') /\
    ConstitutionAction.proposal self' = Some p /\
    Proposal.status p = Proposal.FAILED /\
    trace w' = trace empty_world.
Proof.
  split; [ vm_compute; reflexivity | ]. split; [ reflexivity | ].
  destruct (proj1 denied_action_fails_without_hooks no_policy
              ready_role_action empty_world ltac:(vm_compute; reflexivity))
    as (self' & w' & Hsave & Htr & _ & Hcreate).
  destruct (Hcreate (or_introl eq_refl)) as (p & k & Hp & Hs & _).
  exists self', w', p. repeat split; assumption.
Defined.

Lemma bypass_action_passes_after_one_effect_witness :
  let a := new_action doc_admin add_rules in
  let r := ConstitutionAction.save no_policy a empty_world in
  ConstitutionAction.shouldCreate a = true /\
  CommunityUser.has_perm doc_admin (ConstitutionAction.propose_perm add_rules) = true /\
  CommunityUser.has_perm doc_admin (ConstitutionAction.execute_perm add_rules) = true /\
  r = (Ok (result_or a (fst r)), snd r) /\
  result_status (fst r) = Some Proposal.PASSED /\
  trace (snd r) = [EvEffect Constitution (Some 1)].
Proof.
  intros a r.
  assert (Hr : r = (Ok (result_or a (fst r)), snd r)) by (vm_compute; reflexivity).
  split; [ reflexivity | ]. split; [ vm_compute; reflexivity | ].
  split; [ vm_compute; reflexivity | ]. split; [ exact Hr | ].
  destruct (proj1 bypass_action_passes_after_one_effect no_policy a
              (result_or a (fst r)) empty_world (snd r) eq_refl
              ltac:(vm_compute; reflexivity) ltac:(vm_compute; reflexivity) eq_refl Hr)
    as (p & k & Hp & Hs & _ & _ & Htr).
  split.
  - rewrite Hr. simpl. rewrite Hp. simpl. now rewrite Hs.
  - rewrite Htr. vm_compute. reflexivity.
Defined.

(** C2 fails as stated.  A new [PolicykitAddRole] by an initiator holding
    both permissions, not bundled, saved before it is marked ready: the
    proposal is created [failed], no effect runs.  And a
    [PolicykitChangeCommunityDoc] whose document is gone: the effect
    raises and the proposal stays [proposed]. *)
Lemma bypass_without_ready_or_with_raising_effect :
  let k := PolicykitAddRole "moderator" None [] in
  let r := ConstitutionAction.save no_policy (new_action role_admin k) empty_world in
  CommunityUser.has_perm role_admin (ConstitutionAction.propose_perm k) = true /\
  CommunityUser.has_perm role_admin (ConstitutionAction.execute_perm k) = true /\
  ConstitutionAction.is_bundled (new_action role_admin k) = false /\
  result_status (fst r) = Some Proposal.FAILED /\
  trace (snd r) = [] /\
  let k' := PolicykitChangeCommunityDoc None "rules" "be kind" in
  let u := member_with [ ConstitutionAction.propose_perm k'; ConstitutionAction.execute_perm k' ] in
  let r' := ConstitutionAction.save no_policy (new_action u k') empty_world in
  fst r' = Raise AttributeError /\
  stored_status (snd r') 1 = Some Proposal.PROPOSED /\
  trace (snd r') = [EvEffect Constitution (Some 1)].
Proof. vm_compute. repeat split. Qed.

Lemma denied_action_gets_a_DataStore_witness :
  ConstitutionAction.shouldCreate (new_action outsider add_rules) = true /\
  ConstitutionAction.data (new_action outsider add_rules) = None /\
  CommunityUser.has_perm outsider (ConstitutionAction.propose_perm add_rules) = false /\
  exists self' w',
    ConstitutionAction.save no_policy (new_action outsider add_rules) empty_world
      = (Ok self', w') /\
    ConstitutionAction.data self'
      = Some {| DataStore.pk := Some 1; DataStore.data_store := EmptyString |} /\
    rows (datastores w') !! 1 = Some EmptyString.
Proof.
  split; [ reflexivity | ]. split; [ reflexivity | ]. split; [ vm_compute; reflexivity | ].
  destruct (proj1 denied_action_gets_a_DataStore no_policy
              (new_action outsider add_rules) empty_world eq_refl eq_refl
              ltac:(vm_compute; reflexivity))
    as (self' & w' & k & Hsave & Hd & -> & Hrow).
  exists self', w'. repeat split; assumption.
Defined.

(** C4 fails as stated: a platform action denied at the gate has a
    DataStore after [save], and the row exists. *)
Lemma denied_platform_action_has_DataStore :
  let a := new_platform_action outsider in
  let r := PlatformAction.save adapter_ok no_policy a empty_world in
  CommunityUser.has_perm outsider (PlatformAction.propose_perm a) = false /\
  PlatformAction.data a = None /\
  PlatformAction.data (result_or a (fst r))
    = Some {| DataStore.pk := Some 1; DataStore.data_store := EmptyString |} /\
  rows (datastores empty_world) !! 1 = None /\
  rows (datastores (snd r)) !! 1 = Some EmptyString.
Proof. vm_compute. repeat split. Qed.

(** An action whose proposal is stored as passed. *)
Definition passed_proposal : Proposal.t :=
  {| Proposal.pk := Some 1; Proposal.status := Proposal.PASSED;
     Proposal.author := Some 3; Proposal.data := None |}.

Definition passed_world : World :=
  set_proposals (tbl_write 1 passed_proposal empty_table) empty_world.

Definition passed_action : ConstitutionAction.t :=
  ConstitutionAction.with_proposal (Some passed_proposal)
    (ConstitutionAction.with_pk (Some 1) (new_action doc_admin add_rules)).

(** C3 fails as stated: [fail_action] on an action whose proposal is
    passed leaves it failed, and [pass_action] turns it back. *)
Lemma passed_proposal_becomes_failed :
  let r := ConstitutionAction.fail_action passed_action passed_world in
  stored_status passed_world 1 = Some Proposal.PASSED /\
  result_status (fst r) = Some Proposal.FAILED /\
  stored_status (snd r) 1 = Some Proposal.FAILED /\
  stored_status
    (snd (ConstitutionAction.pass_action (result_or passed_action (fst r)) (snd r))) 1
    = Some Proposal.PASSED.
Proof. vm_compute. repeat split. Qed.

(** Three pending add-role actions, saved earlier with proposals 1 to 3. *)
Definition pending (k : nat) : Proposal.t :=
  {| Proposal.pk := Some k; Proposal.status := Proposal.PROPOSED;
     Proposal.author := Some 3; Proposal.data := None |}.

Definition pending_world : World :=
  set_proposals
    (tbl_write 3 (pending 3) (tbl_write 2 (pending 2) (tbl_write 1 (pending 1) empty_table)))
    empty_world.

Definition bundled (n : nat) (k : ConstitutionKind) : ConstitutionAction.t :=
  {| ConstitutionAction.pk := Some n; ConstitutionAction.community := guild;
     ConstitutionAction.initiator := role_admin; ConstitutionAction.is_bundled := true;
     ConstitutionAction.data := None; ConstitutionAction.proposal := Some (pending n);
     ConstitutionAction.ready := true; ConstitutionAction.kind := k |}.

Definition bundle_of (ty : string) (actions : list ConstitutionAction.t)
  : ConstitutionActionBundle.t :=
  {| ConstitutionActionBundle.pk := Some 1; ConstitutionActionBundle.community := guild;
     ConstitutionActionBundle.proposal := None; ConstitutionActionBundle.is_bundled := false;
     ConstitutionActionBundle.data := None;
     ConstitutionActionBundle.bundled_actions := actions;
     ConstitutionActionBundle.bundle_type := ty |}.

Definition three_roles : ConstitutionActionBundle.t :=
  bundle_of ConstitutionActionBundle.BUNDLE
    [ bundled 1 (PolicykitAddRole "moderator" None []);
      bundled 2 (PolicykitAddRole "editor" None ["policyengine.add_policykitaddcommunitydoc"%string]);
      bundled 3 (PolicykitAddRole "treasurer" (Some "keeps the funds"%string) []) ].

(** The scenario of three add-role actions in a plain bundle: all three
    roles exist afterwards and all three proposals are passed. *)
Lemma bundle_execute_runs_and_passes_all_witness :
  let w' := snd (ConstitutionActionBundle.execute three_roles pending_world) in
  ConstitutionActionBundle.bundle_type three_roles = ConstitutionActionBundle.BUNDLE /\
  ConstitutionActionBundle.execute three_roles pending_world = (Ok tt, w') /\
  trace w' = [ EvEffect Constitution (Some 1); EvEffect Constitution (Some 2);
               EvEffect Constitution (Some 3) ] /\
  (forall a, In a (ConstitutionActionBundle.bundled_actions three_roles) ->
             passed_in w' (ConstitutionAction.proposal a)) /\
  map (fun kv => CommunityRole.role_name (snd kv)) (map_to_list (rows (roles w')))
    ≡ₚ [ Some "moderator"%string; Some "editor"%string; Some "treasurer"%string ] /\
  stored_status w' 1 = Some Proposal.PASSED /\
  stored_status w' 2 = Some Proposal.PASSED /\
  stored_status w' 3 = Some Proposal.PASSED.
Proof.
  intros w'.
  assert (Hrun : ConstitutionActionBundle.execute three_roles pending_world = (Ok tt, w'))
    by (vm_compute; reflexivity).
  destruct (proj1 bundle_execute_runs_and_passes_all three_roles pending_world w'
              eq_refl Hrun) as [Htr Hall].
  split; [ reflexivity | ]. split; [ exact Hrun | ].
  split; [ rewrite Htr; reflexivity | ]. split; [ exact Hall | ].
  split; [ | vm_compute; repeat split ].
  assert (E : map (fun kv => CommunityRole.role_name (snd kv)) (map_to_list (rows (roles w')))
              = [ Some "editor"%string; Some "treasurer"%string; Some "moderator"%string ])
    by (vm_compute; reflexivity).
  rewrite E. apply Permutation_sym.
  apply (Permutation_cons_append [Some "editor"%string; Some "treasurer"%string]).
Defined.

(** C6 fails as stated.  A plain bundle whose first action edits a
    document that is gone: [execute] raises there; the second action's
    effect never starts and neither proposal is passed. *)
Lemma bundle_stops_at_raising_action :
  let b := bundle_of ConstitutionActionBundle.BUNDLE
             [ bundled 1 (PolicykitChangeCommunityDoc None "rules" "be kind");
               bundled 2 add_rules ] in
  let r := ConstitutionActionBundle.execute b pending_world in
  fst r = Raise AttributeError /\
  trace (snd r) = [ EvEffect Constitution (Some 1) ] /\
  stored_status (snd r) 1 = Some Proposal.PROPOSED /\
  stored_status (snd r) 2 = Some Proposal.PROPOSED /\
  rows (docs (snd r)) = ∅.
Proof. vm_compute. repeat split. Qed.

(** ** The bypass permission that is checked and the one that is declared *)

(** X27.  [save] checks [app_name.can_execute_<action_codename>].  Every class
    declares that permission in its [Meta], except
    [PolicykitAddPlatformPolicy], whose [Meta] spells it
    [can_execute_addpolicykitplatformpolicy]. *)
Lemma bypass_permission_declared_except_one (k : ConstitutionKind) :
  bool_decide (ConstitutionAction.execute_perm k
               = (app_name +:+ "." +:+ meta_permission k)%string)
  = match k with
    | PolicykitAddPlatformPolicy _ => false
    | _ => true
    end.
Proof. destruct k; vm_compute; reflexivity. Qed.

Definition sample_policy : EditorModel.t :=
  {| EditorModel.name := Some "quorum"%string; EditorModel.description := None;
     EditorModel.filter := "return True"; EditorModel.initialize := "pass";
     EditorModel.check := "return PASSED"; EditorModel.notify := "pass";
     EditorModel.success := "action.execute()"; EditorModel.fail := "pass" |}.

(** A member holding the propose permission and the bypass permission as
    declared for [PolicykitAddPlatformPolicy] does not bypass review: the
    action goes to the policies (none here), no effect is started and the
    proposal stays proposed. *)
Lemma declared_bypass_of_add_platform_policy_is_not_checked :
  let k := PolicykitAddPlatformPolicy sample_policy in
  let u := member_with [ ConstitutionAction.propose_perm k;
                         (app_name +:+ "." +:+ meta_permission k)%string ] in
  let r := ConstitutionAction.save no_policy (new_action u k) empty_world in
  CommunityUser.has_perm u (ConstitutionAction.execute_perm k) = false /\
  result_status (fst r) = Some Proposal.PROPOSED /\
  trace (snd r) = [] /\
  rows (platform_policies (snd r)) = ∅.
Proof. vm_compute. repeat split. Qed.

Lemma PlatformAction_execute_returns adapter (a : PlatformAction.t) (p : Proposal.t)
    (w : World) :
  adapter (PlatformAction.community a) a = Ok tt ->
  PlatformAction.proposal a = Some p ->
  exists p' w',
    PlatformAction.execute adapter a w
      = (Ok (PlatformAction.with_proposal (Some p') a), w') /\
    Proposal.status p' = Proposal.PASSED /\
    trace w' = trace w ++ [EvEffect Platform (PlatformAction.pk a)].
Proof.
  intros Hok Hp.
  set (w0 := set_trace (trace w ++ [EvEffect Platform (PlatformAction.pk a)]) w).
  assert (E : PlatformAction.execute adapter a w = PlatformAction.pass_action a w0).
  { unfold PlatformAction.execute, PlatformAction.run_effect, bind, log, modify, lift.
    simpl. now rewrite Hok. }
  pose proof (PlatformAction_pass_action_spec a w0) as Hpass. rewrite Hp in Hpass.
  destruct Hpass as (p' & w' & k & Epass & Hs & _ & _ & _ & Htr & _).
  exists p', w'. rewrite E. repeat split; assumption.
Qed.

(** X30.  With an adapter that succeeds, the bypass path of a new platform
    action always returns. *)
Lemma PlatformAction_bypass_returns adapter execute_policy (self : PlatformAction.t)
    (w : World) :
  PlatformAction.pk self = None ->
  CommunityUser.has_perm (PlatformAction.initiator self)
    (PlatformAction.propose_perm self) = true ->
  CommunityUser.has_perm (PlatformAction.initiator self)
    (PlatformAction.execute_perm self) = true ->
  PlatformAction.is_bundled self = false ->
  (forall c a, adapter c a = Ok tt) ->
  exists self' w' p,
    PlatformAction.save adapter execute_policy self w = (Ok self', w') /\
    PlatformAction.proposal self' = Some p /\
    Proposal.status p = Proposal.PASSED /\
    trace w' = trace w ++ [EvEffect Platform (PlatformAction.pk self')].
Proof.
  intros Hpk Hprop Hexec Hb Hok.
  destruct self as [pk comm init rev orig bundled data prop label name codename].
  unfold PlatformAction.propose_perm, PlatformAction.execute_perm in *.
  simpl in Hpk, Hprop, Hexec, Hb. subst pk bundled.
  unfold PlatformAction.save, PlatformAction.propose_perm, PlatformAction.execute_perm.
  Opaque PlatformAction.execute.
  destruct data as [ds | ];
    cbn in Hprop, Hexec |- *; rewrite Hprop; cbn; rewrite Hexec;
    match goal with
    | |- context [PlatformAction.execute adapter ?a ?w1] =>
        destruct (PlatformAction_execute_returns adapter a _ w1 (Hok _ _) eq_refl)
          as (p' & w' & -> & Hs & Htr)
    end;
    (eexists _, w', p'; split; [ reflexivity | ]); repeat split; try assumption;
    rewrite Htr; reflexivity.
  Transparent PlatformAction.execute.
Qed.

Lemma PlatformAction_bypass_returns_witness :
  let u := member_with [ "slack.add_slackpostmessage"%string;
                         "slackintegration.can_execute_slackpostmessage"%string ] in
  PlatformAction.pk (new_platform_action u) = None /\
  (forall c a, adapter_ok c a = Ok tt) /\
  exists self' w' p,
    PlatformAction.save adapter_ok no_policy (new_platform_action u) empty_world
      = (Ok self', w') /\
    PlatformAction.proposal self' = Some p /\
    Proposal.status p = Proposal.PASSED /\
    trace w' = [EvEffect Platform (PlatformAction.pk self')].
Proof.
  intros u. split; [ reflexivity | ]. split; [ reflexivity | ].
  apply (PlatformAction_bypass_returns adapter_ok no_policy (new_platform_action u)
           empty_world eq_refl ltac:(vm_compute; reflexivity)
           ltac:(vm_compute; reflexivity) eq_refl (fun _ _ => eq_refl)).
Defined.

(** * Further properties of the modelled code *)

(** ** Vote tallies *)

Section TallyFacts.

Lemma filter_length_split {A : Type} (f g h k : A -> bool) (l : list A) :
  (forall x, f x = true -> (g x = true /\ h x = false /\ k x = false)
                        \/ (g x = false /\ h x = true /\ k x = false)
                        \/ (g x = false /\ h x = false /\ k x = true)) ->
  (forall x, f x = false -> g x = false /\ h x = false) ->
  length (List.filter f l)
  = (length (List.filter g l) + length (List.filter h l)
     + length (List.filter k (List.filter f l)))%nat.
Proof.
  intros Ht Hf. induction l as [ | x l IH ]; simpl; [ reflexivity | ].
  destruct (f x) eqn:Ef.
  - destruct (Ht x Ef) as [(-> & -> & Hk) | [(-> & -> & Hk) | (-> & -> & Hk)]];
      simpl; rewrite Hk; simpl; lia.
  - destruct (Hf x Ef) as (-> & ->). exact IH.
Qed.

Lemma boolean_value_cases (v : BooleanVote.t) :
  (bool_decide (BooleanVote.boolean_value v = Some true) = true /\
   bool_decide (BooleanVote.boolean_value v = Some false) = false /\
   bool_decide (BooleanVote.boolean_value v = None) = false) \/
  (bool_decide (BooleanVote.boolean_value v = Some true) = false /\
   bool_decide (BooleanVote.boolean_value v = Some false) = true /\
   bool_decide (BooleanVote.boolean_value v = None) = false) \/
  (bool_decide (BooleanVote.boolean_value v = Some true) = false /\
   bool_decide (BooleanVote.boolean_value v = Some false) = false /\
   bool_decide (BooleanVote.boolean_value v = None) = true).
Proof. destruct (BooleanVote.boolean_value v) as [[] | ]; vm_compute; tauto. Qed.

End TallyFacts.

(** X1.  A boolean vote may hold no value (the column is nullable).  For
    every member filter, the votes on a proposal split into the yes
    votes, the no votes and the votes without a value; no vote is both a
    yes and a no vote. *)
Theorem Proposal_boolean_tally_partition (self : Proposal.t)
    (users : option (list CommunityUser.t)) (w : World) :
  length (Proposal_get_all_boolean_votes self users w)
  = (length (Proposal_get_yes_votes self users w)
     + length (Proposal_get_no_votes self users w)
     + length (List.filter (fun v => bool_decide (BooleanVote.boolean_value v = None))
                 (Proposal_get_all_boolean_votes self users w)))%nat /\
  (forall v, In v (Proposal_get_yes_votes self users w) ->
             ~ In v (Proposal_get_no_votes self users w)).
Proof.
  unfold Proposal_get_all_boolean_votes, Proposal_get_yes_votes, Proposal_get_no_votes.
  split.
  - destruct (users_truthy users); apply filter_length_split.
    + intros v Hv. destruct (boolean_value_cases v) as [(-> & -> & ->) | [(-> & -> & ->) | (-> & -> & ->)]];
        apply andb_true_iff in Hv; destruct Hv as [-> ->]; simpl; tauto.
    + intros v Hv. rewrite <- !andb_assoc, Hv, !andb_false_r. tauto.
    + intros v Hv. destruct (boolean_value_cases v) as [(-> & -> & ->) | [(-> & -> & ->) | (-> & -> & ->)]];
        rewrite Hv; simpl; tauto.
    + intros v Hv. rewrite Hv, !andb_false_r. tauto.
  - intros v Hy Hn.
    assert (Ey : BooleanVote.boolean_value v = Some true).
    { destruct (users_truthy users); apply filter_In in Hy; destruct Hy as [_ Hy];
        repeat (apply andb_true_iff in Hy; destruct Hy as [Hy ?]);
        now apply bool_decide_eq_true in Hy. }
    assert (En : BooleanVote.boolean_value v = Some false).
    { destruct (users_truthy users); apply filter_In in Hn; destruct Hn as [_ Hn];
        repeat (apply andb_true_iff in Hn; destruct Hn as [Hn ?]);
        now apply bool_decide_eq_true in Hn. }
    congruence.
Qed.

(** With a non-empty member filter, a vote is in a tally exactly when it
    is a stored vote on this proposal, with the value asked for, cast by a
    member of the filter. *)
Theorem Proposal_tally_membership (self : Proposal.t) (u : CommunityUser.t)
    (us : list CommunityUser.t) (value : Z) (w : World) :
  let users := Some (u :: us) in
  let by_member (k : nat) := exists x, In x (u :: us) /\ CommunityUser.pk x = k in
  (forall v, In v (Proposal_get_all_boolean_votes self users w) <->
     In v (boolean_votes w) /\ Proposal.pk self = Some (BooleanVote.proposal v) /\
     by_member (BooleanVote.user v)) /\
  (forall v, In v (Proposal_get_yes_votes self users w) <->
     In v (boolean_votes w) /\ BooleanVote.boolean_value v = Some true /\
     Proposal.pk self = Some (BooleanVote.proposal v) /\ by_member (BooleanVote.user v)) /\
  (forall v, In v (Proposal_get_no_votes self users w) <->
     In v (boolean_votes w) /\ BooleanVote.boolean_value v = Some false /\
     Proposal.pk self = Some (BooleanVote.proposal v) /\ by_member (BooleanVote.user v)) /\
  (forall v, In v (Proposal_get_all_number_votes self users w) <->
     In v (number_votes w) /\ Proposal.pk self = Some (NumberVote.proposal v) /\
     by_member (NumberVote.user v)) /\
  (forall v, In v (Proposal_get_one_number_votes self value users w) <->
     In v (number_votes w) /\ NumberVote.number_value v = Some value /\
     Proposal.pk self = Some (NumberVote.proposal v) /\ by_member (NumberVote.user v)).
Proof.
  intros users by_member.
  assert (Hin : forall k, user_in users k = true <-> by_member k).
  { intros k. unfold user_in, by_member. simpl default. rewrite existsb_exists.
    split; intros (x & Hx & E); exists x; (split; [ exact Hx | ]);
      [ now apply Nat.eqb_eq | now apply Nat.eqb_eq ]. }
  unfold Proposal_get_all_boolean_votes, Proposal_get_yes_votes, Proposal_get_no_votes,
    Proposal_get_all_number_votes, Proposal_get_one_number_votes, proposal_is.
  cbn [users users_truthy].
  repeat apply conj; intros v;
    rewrite filter_In, ?andb_true_iff, ?bool_decide_eq_true, Hin; tauto.
Qed.

(** ** More on the DataStore *)



(** X5.  [set] and [remove] are persistent: on a store that has a row, the
    new text goes to that row and to no other, and the store as loaded
    again from its row answers [get] like the object returned. *)
Theorem DataStore_set_remove_persist (self : DataStore.t) (k : nat) (key : string)
    (value : Json.json) (w : World) :
  DataStore.wf self -> Json.wf value -> DataStore.pk self = Some k ->
  (exists self' w',
     DataStore.set self key value w = (Ok (true, self'), w') /\
     DataStore.pk self' = Some k /\
     rows (datastores w') !! k = Some (DataStore.data_store self') /\
     (forall j, j <> k -> rows (datastores w') !! j = rows (datastores w) !! j) /\
     proposals w' = proposals w /\
     forall text, rows (datastores w') !! k = Some text ->
       DataStore.get {| DataStore.pk := Some k; DataStore.data_store := text |} key
         = Ok value) /\
  (exists b self' w',
     DataStore.remove self key w = (Ok (b, self'), w') /\
     DataStore.pk self' = Some k /\
     rows (datastores w') !! k = Some (DataStore.data_store self') /\
     (forall j, j <> k -> rows (datastores w') !! j = rows (datastores w) !! j) /\
     proposals w' = proposals w /\
     forall text, rows (datastores w') !! k = Some text ->
       DataStore.get {| DataStore.pk := Some k; DataStore.data_store := text |} key
         = Ok Json.JNull).
Proof.
  intros Hwf Hv Hpk.
  destruct (DataStore_read_wf self Hwf) as (d & Hd & Hwd).
  destruct self as [pk s]. simpl in Hpk. subst pk.
  split.
  - unfold DataStore.set. rewrite Hd.
    unfold DataStore._set_data_store, DataStore.save, bind, ret. simpl.
    eexists _, _. split; [ reflexivity | ]. simpl.
    split; [ reflexivity | ]. split; [ apply lookup_insert_eq | ].
    split; [ intros j Hj; now apply lookup_insert_ne | ].
    split; [ reflexivity | ].
    intros text. rewrite lookup_insert_eq. intros [= <-].
    rewrite (DataStore_get_of _ (Json.dict_set d key value)).
    + now rewrite Json.dict_get_set_eq.
    + apply DataStore_read_dumps. now apply Json.wf_dict_set.
  - unfold DataStore.remove. rewrite Hd.
    unfold DataStore._set_data_store, DataStore.save, bind, ret. simpl.
    eexists _, _, _. split; [ reflexivity | ]. simpl.
    split; [ reflexivity | ]. split; [ apply lookup_insert_eq | ].
    split; [ intros j Hj; now apply lookup_insert_ne | ].
    split; [ reflexivity | ].
    intros text. rewrite lookup_insert_eq. intros [= <-].
    rewrite (DataStore_get_of _ (Json.dict_pop d key)).
    + now rewrite Json.dict_get_pop_eq.
    + apply DataStore_read_dumps. now apply Json.wf_dict_pop.
Qed.

Lemma DataStore_set_remove_persist_witness :
  DataStore.wf store_with_votes /\ Json.wf (Json.JInt 3%Z) /\
  exists self' w',
    DataStore.set store_with_votes "quorum" (Json.JInt 3%Z) empty_world
      = (Ok (true, self'), w') /\
    rows (datastores w') !! 1 = Some (DataStore.data_store self').
Proof.
  split; [ exact store_with_votes_wf | ]. split; [ exact I | ].
  destruct (DataStore_set_remove_persist store_with_votes 1 "quorum" (Json.JInt 3%Z)
              empty_world store_with_votes_wf I eq_refl)
    as ((self' & w' & Hset & _ & Hrow & _) & _).
  exists self', w'. split; [ exact Hset | exact Hrow ].
Defined.

(** ** What the effect of a constitution action can write

    The effects write documents, roles, the two relations of a role and
    the two policy tables.  An observation of the world that does not
    read these is the same before and after an effect. *)

Section Footprint.
Import ConstitutionAction.
Context {T : Type} (obs : World -> T).

Definition blind_to_effects : Prop :=
  (forall x w, obs (set_docs x w) = obs w) /\
  (forall x w, obs (set_roles x w) = obs w) /\
  (forall x w, obs (set_role_permissions x w) = obs w) /\
  (forall x w, obs (set_role_users x w) = obs w) /\
  (forall x w, obs (set_platform_policies x w) = obs w) /\
  (forall x w, obs (set_constitution_policies x w) = obs w).

Definition unseen {A : Type} (m : M World A) : Prop :=
  forall w, obs (snd (m w)) = obs w.

Lemma unseen_ret {A : Type} (a : A) : unseen (ret a).
Proof. intros w. reflexivity. Qed.

Lemma unseen_raise {A : Type} (e : exn) : unseen (@raise World A e).
Proof. intros w. reflexivity. Qed.

Lemma unseen_bind {A B : Type} (m : M World A) (k : A -> M World B) :
  unseen m -> (forall a, unseen (k a)) -> unseen (bind m k).
Proof.
  intros Hm Hk w. unfold bind. specialize (Hm w).
  destruct (m w) as [[a | e] w1]; simpl in *; [ | exact Hm ].
  rewrite Hk. exact Hm.
Qed.

Lemma unseen_deref {A : Type} (o : option A) : unseen (deref o).
Proof. destruct o; [ apply unseen_ret | apply unseen_raise ]. Qed.

Lemma unseen_m2m_key {A : Type} (i : Inst A) : unseen (m2m_key i).
Proof. unfold m2m_key. destruct (inst_pk i); [ apply unseen_ret | apply unseen_raise ]. Qed.

Lemma unseen_modify (f : World -> World) :
  (forall w, obs (f w) = obs w) -> unseen (modify f).
Proof. intros H w. apply H. Qed.

Lemma unseen_for_each {A : Type} (l : list A) (body : A -> M World unit) :
  (forall x, unseen (body x)) -> unseen (for_each l body).
Proof.
  intros H. induction l as [ | x l IH ]; simpl; [ apply unseen_ret | ].
  apply unseen_bind; [ apply H | intros _; exact IH ].
Qed.

Lemma unseen_try_except {A : Type} (m : M World A) (handles : exn -> bool) (h : M World A) :
  unseen m -> unseen h -> unseen (try_except m handles h).
Proof.
  intros Hm Hh w. unfold try_except. specialize (Hm w).
  destruct (m w) as [[a | e] w1]; simpl in *; [ exact Hm | ].
  destruct (handles e); simpl; [ | exact Hm ].
  rewrite Hh. exact Hm.
Qed.

Section Tables.
Context {A : Type} (tbl : World -> Table A) (set_tbl : Table A -> World -> World).
Hypothesis set_tbl_unseen : forall x w, obs (set_tbl x w) = obs w.

Lemma unseen_inst_save (i : Inst A) : unseen (inst_save tbl set_tbl i).
Proof.
  intros w. unfold inst_save. destruct (inst_pk i); simpl; apply set_tbl_unseen.
Qed.

Lemma unseen_inst_delete (i : Inst A) : unseen (inst_delete tbl set_tbl i).
Proof.
  unfold inst_delete. destruct (inst_pk i); [ | apply unseen_raise ].
  apply unseen_bind; [ | intros; apply unseen_ret ].
  apply unseen_modify. intros w. apply set_tbl_unseen.
Qed.

Lemma unseen_get_or_create (f : A -> bool) (d : A) : unseen (get_or_create tbl set_tbl f d).
Proof.
  intros w. unfold get_or_create.
  destruct (tbl_filter f (tbl w)) as [ | [k v] [ | ? ? ] ]; try reflexivity.
  apply unseen_inst_save.
Qed.

End Tables.

Hypothesis blind : blind_to_effects.

Lemma unseen_role_permissions_add r p : unseen (role_permissions_add r p).
Proof.
  apply unseen_bind; [ apply unseen_m2m_key | intros k ].
  apply unseen_modify. intros w. apply blind.
Qed.

Lemma unseen_role_permissions_clear r : unseen (role_permissions_clear r).
Proof.
  apply unseen_bind; [ apply unseen_m2m_key | intros k ].
  apply unseen_modify. intros w. apply blind.
Qed.

Lemma unseen_role_user_set_add r u : unseen (role_user_set_add r u).
Proof.
  apply unseen_bind; [ apply unseen_m2m_key | intros k ].
  apply unseen_modify. intros w. apply blind.
Qed.

Lemma unseen_role_user_set_remove r u : unseen (role_user_set_remove r u).
Proof.
  apply unseen_bind; [ apply unseen_m2m_key | intros k ].
  apply unseen_modify. intros w. apply blind.
Qed.

Lemma unseen_role_delete r : unseen (role_delete r).
Proof.
  destruct blind as (_ & Hr & Hp & Hu & _).
  apply unseen_bind; [ apply unseen_inst_delete; exact Hr | intros r' ].
  destruct (inst_pk r); [ | apply unseen_ret ].
  apply unseen_bind; [ | intros; apply unseen_ret ].
  apply unseen_modify. intros w. now rewrite Hu, Hp.
Qed.

Ltac footprint :=
  repeat first
    [ apply unseen_ret | apply unseen_raise | apply unseen_deref
    | apply unseen_role_permissions_add | apply unseen_role_permissions_clear
    | apply unseen_role_user_set_add | apply unseen_role_user_set_remove
    | apply unseen_role_delete
    | apply unseen_inst_save; apply blind
    | apply unseen_inst_delete; apply blind
    | apply unseen_get_or_create; apply blind
    | apply unseen_for_each; intros ?
    | apply unseen_try_except
    | apply unseen_bind; [ | intros ? ] ].

Ltac reassociate :=
  repeat first [ reflexivity | rewrite bind_assoc | apply bind_ext; intros ? ? ].

(** The action [execute] hands to [pass_action] is the one it was called
    on, up to the reference its effect refreshed. *)
Definition same_action (a a' : t) : Prop :=
  pk a' = pk a /\ community a' = community a /\ initiator a' = initiator a /\
  is_bundled a' = is_bundled a /\ data a' = data a /\ proposal a' = proposal a /\
  ready a' = ready a /\ class_name (kind a') = class_name (kind a).

Lemma execute_footprint (a : t) :
  exists (B : Type) (body : M World B) (f : B -> t),
    unseen body /\ (forall x, same_action a (f x)) /\
    forall w, execute a w
              = (log (EvEffect Constitution (pk a)) ;; x <- body ;; pass_action (f x)) w.
Proof.
  unfold execute.
  destruct (kind a) as
    [ name text | doc name text | doc | name description permissions | role
    | role name description permissions | role users | role users
    | e | e | pol e | pol e | pol | pol ] eqn:Hk.
  - unfold PolicykitAddCommunityDoc_execute.
    eexists _, (doc <- get_or_create docs set_docs _ _ ;; inst_save docs set_docs _),
      (fun _ => a).
    split; [ footprint | ]. split; [ intros; repeat split; cbn; now rewrite ?Hk | ].
    intros w. apply bind_ext; intros ? ?. reassociate.
  - unfold PolicykitChangeCommunityDoc_execute.
    eexists _, (d <- deref doc ;; inst_save docs set_docs _),
      (fun d' => with_kind (PolicykitChangeCommunityDoc (Some d') name text) a).
    split; [ footprint | ]. split; [ intros; repeat split; cbn; now rewrite ?Hk | ].
    intros w. apply bind_ext; intros ? ?. reassociate.
  - unfold PolicykitDeleteCommunityDoc_execute.
    eexists _, (d <- deref doc ;; inst_delete docs set_docs d),
      (fun d' => with_kind (PolicykitDeleteCommunityDoc (Some d')) a).
    split; [ footprint | ]. split; [ intros; repeat split; cbn; now rewrite ?Hk | ].
    intros w. apply bind_ext; intros ? ?. reassociate.
  - unfold PolicykitAddRole_execute.
    destruct (Community.platform (community a)) as [platform | ].
    + eexists _, (role <- get_or_create roles set_roles _ _ ;;
                  for_each permissions (fun p => role_permissions_add role p) ;;
                  inst_save roles set_roles _),
        (fun _ => a).
      split; [ footprint | ]. split; [ intros; repeat split; cbn; now rewrite ?Hk | ].
      intros w. apply bind_ext; intros ? ?. reassociate.
    + exists unit, (raise TypeError), (fun _ => a).
      split; [ footprint | ]. split; [ intros; repeat split; cbn; now rewrite ?Hk | ].
      intros w. reflexivity.
  - unfold PolicykitDeleteRole_execute.
    eexists _, _, (fun role' => with_kind (PolicykitDeleteRole role') a).
    split; [ | split; [ intros; repeat split; cbn; now rewrite ?Hk | intros w; reflexivity ] ].
    footprint.
  - unfold PolicykitEditRole_execute.
    eexists _,
      (r <- deref role ;;
       role_permissions_clear _ ;;
       for_each permissions (fun p => role_permissions_add _ p) ;;
       inst_save roles set_roles
         {| inst_pk := inst_pk r;
            inst_val := {| CommunityRole.name := CommunityRole.name (inst_val r);
                           CommunityRole.role_name := Some name;
                           CommunityRole.description := description;
                           CommunityRole.community := CommunityRole.community (inst_val r) |} |}),
      (fun r2 => with_kind (PolicykitEditRole (Some r2) name description permissions) a).
    split; [ footprint | ]. split; [ intros; repeat split; cbn; now rewrite ?Hk | ].
    intros w. apply bind_ext; intros ? ?. reassociate.
  - unfold PolicykitAddUserRole_execute.
    eexists _, _, (fun _ => a).
    split; [ | split; [ intros; repeat split; cbn; now rewrite ?Hk | intros w; reflexivity ] ].
    footprint.
  - unfold PolicykitRemoveUserRole_execute.
    eexists _, _, (fun _ => a).
    split; [ | split; [ intros; repeat split; cbn; now rewrite ?Hk | intros w; reflexivity ] ].
    footprint.
  - unfold PolicykitAddPlatformPolicy_execute.
    eexists _, _, (fun _ => a).
    split; [ | split; [ intros; repeat split; cbn; now rewrite ?Hk | intros w; reflexivity ] ].
    footprint.
  - unfold PolicykitAddConstitutionPolicy_execute.
    eexists _, _, (fun _ => a).
    split; [ | split; [ intros; repeat split; cbn; now rewrite ?Hk | intros w; reflexivity ] ].
    footprint.
  - unfold PolicykitChangePlatformPolicy_execute.
    eexists _, (p <- deref pol ;; inst_save platform_policies set_platform_policies _),
      (fun p' => with_kind (PolicykitChangePlatformPolicy (Some p') e) a).
    split; [ footprint | ]. split; [ intros; repeat split; cbn; now rewrite ?Hk | ].
    intros w. apply bind_ext; intros ? ?. reassociate.
  - unfold PolicykitChangeConstitutionPolicy_execute.
    eexists _, (p <- deref pol ;; inst_save constitution_policies set_constitution_policies _),
      (fun p' => with_kind (PolicykitChangeConstitutionPolicy (Some p') e) a).
    split; [ footprint | ]. split; [ intros; repeat split; cbn; now rewrite ?Hk | ].
    intros w. apply bind_ext; intros ? ?. reassociate.
  - unfold PolicykitRemovePlatformPolicy_execute.
    eexists _, (p <- deref pol ;; inst_delete platform_policies set_platform_policies p),
      (fun p' => with_kind (PolicykitRemovePlatformPolicy (Some p')) a).
    split; [ footprint | ]. split; [ intros; repeat split; cbn; now rewrite ?Hk | ].
    intros w. apply bind_ext; intros ? ?. reassociate.
  - unfold PolicykitRemoveConstitutionPolicy_execute.
    eexists _, (p <- deref pol ;; inst_delete constitution_policies set_constitution_policies p),
      (fun p' => with_kind (PolicykitRemoveConstitutionPolicy (Some p')) a).
    split; [ footprint | ]. split; [ intros; repeat split; cbn; now rewrite ?Hk | ].
    intros w. apply bind_ext; intros ? ?. reassociate.
Qed.

End Footprint.

(** [Proposal.save] writes the proposal's row and, for a proposal without
    a key, a fresh DataStore row; nothing else. *)
Definition beyond_proposals (w : World) :=
  (docs w, roles w, role_permissions w, role_users w, platform_policies w,
   constitution_policies w, constitution_actions w, platform_actions w,
   boolean_votes w, number_votes w, activity w, trace w).

Lemma Proposal_save_footprint (p : Proposal.t) (w : World) :
  beyond_proposals (snd (Proposal_save p w)) = beyond_proposals w /\
  (pk_truthy (Proposal.pk p) = true ->
   datastores (snd (Proposal_save p w)) = datastores w).
Proof.
  destruct p as [[[ | n] | ] s a d]; unfold Proposal_save, bind; simpl;
    split; try reflexivity; discriminate.
Qed.

(** What the effects cannot write. *)
Definition beyond_effects (w : World) :=
  (proposals w, datastores w, constitution_actions w, platform_actions w,
   boolean_votes w, number_votes w, activity w).

Lemma beyond_effects_blind : blind_to_effects beyond_effects.
Proof. repeat split. Qed.

(** [pass_action] with a proposal: the row written, the one activity
    entry, and nothing else but a DataStore for a proposal without a key. *)
Lemma ConstitutionAction_pass_action_writes (a : ConstitutionAction.t) (p : Proposal.t)
    (w : World) :
  ConstitutionAction.proposal a = Some p ->
  exists p' w' k,
    ConstitutionAction.pass_action a w
      = (Ok (ConstitutionAction.with_proposal (Some p') a), w') /\
    Proposal.status p' = Proposal.PASSED /\
    Proposal.author p' = Proposal.author p /\
    Proposal.pk p' = Some k /\
    (forall k0, Proposal.pk p = Some k0 -> k = k0) /\
    (Proposal.pk p = None -> k = next_pk (proposals w)) /\
    rows (proposals w') !! k = Some p' /\
    (forall j, j <> k -> rows (proposals w') !! j = rows (proposals w) !! j) /\
    activity w'
      = activity w ++ [ {| actor := (Constitution, ConstitutionAction.pk a);
                           verb := "was passed";
                           community_id := Community.id (ConstitutionAction.community a) |} ] /\
    (docs w', roles w', role_permissions w', role_users w', platform_policies w',
     constitution_policies w', constitution_actions w', platform_actions w',
     boolean_votes w', number_votes w', trace w')
    = (docs w, roles w, role_permissions w, role_users w, platform_policies w,
       constitution_policies w, constitution_actions w, platform_actions w,
       boolean_votes w, number_votes w, trace w) /\
    (pk_truthy (Proposal.pk p) = true -> datastores w' = datastores w).
Proof.
  intros Hp. unfold ConstitutionAction.pass_action. rewrite Hp.
  unfold bind at 1. simpl deref. unfold ret at 1. unfold bind at 1.
  destruct (Proposal_save_footprint (Proposal.with_status Proposal.PASSED p) w) as [Hfp Hds].
  destruct (Proposal_save_spec (Proposal.with_status Proposal.PASSED p) w)
    as (p' & w2 & k & E & Hs & Hau & Hk & Hk0 & Hnew & Hrow & Hother & _ & Hact).
  rewrite E in *. simpl in Hfp, Hds. inversion Hfp.
  eexists p', _, k. split; [ reflexivity | ]. cbn.
  repeat split; try assumption; congruence.
Qed.

(** [execute] is its effect, which either raises or hands the same
    action to [pass_action], in a world the effect left as it was beyond
    its own tables. *)
Lemma execute_as_pass_action (a : ConstitutionAction.t) (w : World) :
  exists a1 w1,
    same_action a a1 /\ beyond_effects w1 = beyond_effects w /\
    (ConstitutionAction.execute a w = ConstitutionAction.pass_action a1 w1 \/
     exists e, ConstitutionAction.execute a w = (Raise e, w1)).
Proof.
  destruct (execute_footprint beyond_effects beyond_effects_blind a)
    as (B & body & f & Hun & Hsame & Hex).
  set (w0 := set_trace (trace w ++ [EvEffect Constitution (ConstitutionAction.pk a)]) w).
  assert (E : ConstitutionAction.execute a w
              = (x <- body ;; ConstitutionAction.pass_action (f x)) w0).
  { rewrite Hex. reflexivity. }
  rewrite E. unfold bind. specialize (Hun w0).
  destruct (body w0) as [[x | e] w1]; simpl in Hun.
  - exists (f x), w1. split; [ apply Hsame | ]. split; [ exact Hun | now left ].
  - exists a, w1. split; [ repeat split | ]. split; [ exact Hun | right; now exists e ].
Qed.

(** The classes whose effect adds or deletes a role.  The database
    refuses a role whose group name is taken, and deletes in cascade what
    refers to a deleted role. *)
Definition adds_or_deletes_role (k : ConstitutionKind) : bool :=
  match k with
  | PolicykitAddRole _ _ _ => true
  | PolicykitDeleteRole _ => true
  | _ => false
  end.

(** X6.  [execute] of a stored constitution action, of any class but
    [PolicykitAddRole] and [PolicykitDeleteRole].  It never writes the
    stored platform actions or the votes.  When it raises, no proposal,
    DataStore or activity entry was written.  When it returns, the
    action has the key, community, initiator and class it had, its
    proposal's row holds the passed proposal, no other proposal row
    changed, and the activity stream gained exactly one entry: this
    action [was passed]. *)
Theorem ConstitutionAction_execute_writes (a : ConstitutionAction.t) (k : nat) (w : World) :
  ConstitutionAction.pk a = Some k ->
  adds_or_deletes_role (ConstitutionAction.kind a) = false ->
  let r := ConstitutionAction.execute a w in
  platform_actions (snd r) = platform_actions w /\
  boolean_votes (snd r) = boolean_votes w /\
  number_votes (snd r) = number_votes w /\
  match fst r with
  | Raise _ =>
      proposals (snd r) = proposals w /\ datastores (snd r) = datastores w /\
      activity (snd r) = activity w
  | Ok a' =>
      ConstitutionAction.pk a' = Some k /\
      ConstitutionAction.community a' = ConstitutionAction.community a /\
      ConstitutionAction.initiator a' = ConstitutionAction.initiator a /\
      class_name (ConstitutionAction.kind a') = class_name (ConstitutionAction.kind a) /\
      exists p p' j,
        ConstitutionAction.proposal a = Some p /\
        ConstitutionAction.proposal a' = Some p' /\
        Proposal.status p' = Proposal.PASSED /\
        Proposal.author p' = Proposal.author p /\
        Proposal.pk p' = Some j /\
        (forall j0, Proposal.pk p = Some j0 -> j = j0) /\
        rows (proposals (snd r)) !! j = Some p' /\
        (forall i, i <> j -> rows (proposals (snd r)) !! i = rows (proposals w) !! i) /\
        activity (snd r)
          = activity w ++ [ {| actor := (Constitution, Some k);
                               verb := "was passed";
                               community_id :=
                                 Community.id (ConstitutionAction.community a) |} ]
  end.
Proof.
  intros Hkey _ r.
  destruct (execute_as_pass_action a w) as (a1 & w1 & Hsame & Hun & Hex).
  destruct Hsame as (Hpk & Hcomm & Hinit & _ & _ & Hprop & _ & Hcls).
  inversion Hun.
  destruct Hex as [Hex | [e Hex]]; subst r; rewrite Hex.
  2:{ simpl. repeat split; assumption. }
  destruct (ConstitutionAction.proposal a) as [p | ] eqn:Hp.
  - destruct (ConstitutionAction_pass_action_writes a1 p w1 Hprop)
      as (p' & w2 & j & -> & Hs & Hau & Hj & Hj0 & _ & Hrow & Hother & Hact & Hrest & _).
    inversion Hrest. simpl.
    do 7 (split; [ congruence | ]).
    exists p, p', j.
    do 7 (split; [ first [ assumption | reflexivity | congruence ] | ]).
    split; [ | congruence ].
    intros i Hi. rewrite Hother by exact Hi. congruence.
  - assert (Hr : ConstitutionAction.pass_action a1 w1 = (Raise AttributeError, w1)).
    { unfold ConstitutionAction.pass_action. now rewrite Hprop. }
    rewrite Hr. simpl. repeat split; assumption.
Qed.

Lemma ConstitutionAction_execute_writes_witness :
  let a := bundled 1 (PolicykitAddCommunityDoc "rules" "be kind") in
  let r := ConstitutionAction.execute a pending_world in
  ConstitutionAction.pk a = Some 1%nat /\
  adds_or_deletes_role (ConstitutionAction.kind a) = false /\
  platform_actions (snd r) = platform_actions pending_world /\
  boolean_votes (snd r) = boolean_votes pending_world /\
  number_votes (snd r) = number_votes pending_world.
Proof.
  intros a r.
  split; [ reflexivity | ]. split; [ reflexivity | ].
  destruct (ConstitutionAction_execute_writes a 1 pending_world eq_refl eq_refl)
    as (Hpa & Hbv & Hnv & _).
  split; [ exact Hpa | ]. split; [ exact Hbv | exact Hnv ].
Defined.

(** ** The effect of a platform action *)

Lemma PlatformAction_pass_action_writes (a : PlatformAction.t) (p : Proposal.t) (w : World) :
  PlatformAction.proposal a = Some p ->
  exists p' w' k,
    PlatformAction.pass_action a w = (Ok (PlatformAction.with_proposal (Some p') a), w') /\
    Proposal.status p' = Proposal.PASSED /\
    Proposal.author p' = Proposal.author p /\
    Proposal.pk p' = Some k /\
    (forall k0, Proposal.pk p = Some k0 -> k = k0) /\
    (Proposal.pk p = None -> k = next_pk (proposals w)) /\
    rows (proposals w') !! k = Some p' /\
    (forall j, j <> k -> rows (proposals w') !! j = rows (proposals w) !! j) /\
    activity w'
      = activity w ++ [ {| actor := (Platform, PlatformAction.pk a);
                           verb := "was passed";
                           community_id := Community.id (PlatformAction.community a) |} ] /\
    (docs w', roles w', role_permissions w', role_users w', platform_policies w',
     constitution_policies w', constitution_actions w', platform_actions w',
     boolean_votes w', number_votes w', trace w')
    = (docs w, roles w, role_permissions w, role_users w, platform_policies w,
       constitution_policies w, constitution_actions w, platform_actions w,
       boolean_votes w, number_votes w, trace w) /\
    (pk_truthy (Proposal.pk p) = true -> datastores w' = datastores w).
Proof.
  intros Hp. unfold PlatformAction.pass_action. rewrite Hp.
  unfold bind at 1. simpl deref. unfold ret at 1. unfold bind at 1.
  destruct (Proposal_save_footprint (Proposal.with_status Proposal.PASSED p) w) as [Hfp Hds].
  destruct (Proposal_save_spec (Proposal.with_status Proposal.PASSED p) w)
    as (p' & w2 & k & E & Hs & Hau & Hk & Hk0 & Hnew & Hrow & Hother & _ & Hact).
  rewrite E in *. simpl in Hfp, Hds. inversion Hfp.
  eexists p', _, k. split; [ reflexivity | ]. cbn.
  repeat split; try assumption; congruence.
Qed.

(** ** Activity entries of a bundle *)

Definition was_passed (fam : Family) (pk : option nat) (c : Community.t) : Activity :=
  {| actor := (fam, pk); verb := "was passed"; community_id := Community.id c |}.

Lemma constitution_loop_activity (actions : list ConstitutionAction.t) :
  forall w w',
    constitution_loop actions w = (Ok tt, w') ->
    activity w'
    = activity w ++
      flat_map (fun a => [ was_passed Constitution (ConstitutionAction.pk a)
                             (ConstitutionAction.community a);
                           was_passed Constitution (ConstitutionAction.pk a)
                             (ConstitutionAction.community a) ]) actions.
Proof.
  induction actions as [ | a actions IH ]; intros w w' Hrun.
  - inversion Hrun; subst. now rewrite app_nil_r.
  - unfold constitution_loop in Hrun. simpl in Hrun. unfold bind at 1 2 in Hrun.
    destruct (execute_as_pass_action a w) as (a1 & w1 & Hsame & Hun & Hex).
    destruct Hsame as (Hpk & Hcomm & _ & _ & _ & Hprop & _).
    inversion Hun.
    destruct Hex as [Hex | [e Hex]]; rewrite Hex in Hrun; [ | discriminate ].
    destruct (ConstitutionAction.proposal a1) as [p | ] eqn:Hp1.
    2:{ unfold ConstitutionAction.pass_action in Hrun. rewrite Hp1 in Hrun. discriminate. }
    destruct (ConstitutionAction_pass_action_writes a1 p w1 Hp1)
      as (p1 & w2 & k & E1 & _ & _ & _ & _ & _ & _ & _ & Hact1 & _).
    rewrite E1 in Hrun. unfold bind at 1 in Hrun.
    destruct (ConstitutionAction_pass_action_writes
                (ConstitutionAction.with_proposal (Some p1) a1) p1 w2 eq_refl)
      as (p2 & w3 & k2 & E2 & _ & _ & _ & _ & _ & _ & _ & Hact2 & _).
    rewrite E2 in Hrun. unfold ret at 1 in Hrun.
    rewrite (IH w3 w' Hrun), Hact2, Hact1. simpl.
    rewrite Hpk, Hcomm. unfold was_passed.
    rewrite <- !app_assoc. simpl. congruence.
Qed.

Lemma platform_loop_activity adapter (c : Community.t) (actions : list PlatformAction.t) :
  forall w w',
    platform_loop adapter c actions w = (Ok tt, w') ->
    activity w'
    = activity w ++
      map (fun a => was_passed Platform (PlatformAction.pk a) (PlatformAction.community a))
        actions.
Proof.
  induction actions as [ | a actions IH ]; intros w w' Hrun.
  - inversion Hrun; subst. now rewrite app_nil_r.
  - unfold platform_loop in Hrun. simpl in Hrun. unfold bind at 1 2 in Hrun.
    destruct (PlatformAction_run_effect_spec adapter c a w) as [Hw Hr].
    destruct (PlatformAction.run_effect adapter c a w) as [[[] | e] w0]; [ | discriminate ].
    simpl in Hw. clear Hr. unfold bind at 1 in Hrun.
    destruct (PlatformAction.proposal a) as [p | ] eqn:Hp.
    2:{ unfold PlatformAction.pass_action in Hrun. rewrite Hp in Hrun. discriminate. }
    destruct (PlatformAction_pass_action_writes a p w0 Hp)
      as (p1 & w1 & k & E1 & _ & _ & _ & _ & _ & _ & _ & Hact1 & _).
    rewrite E1 in Hrun. unfold ret at 1 in Hrun.
    rewrite (IH w1 w' Hrun), Hact1, Hw. simpl.
    rewrite <- app_assoc. reflexivity.
Qed.

(** X8.  A bundle of type [bundle] whose [execute] returns has announced every
    contained constitution action twice ([execute] of the action passes
    it, and the bundle passes it again), and every contained platform
    action once. *)
Theorem bundle_execute_activity :
  (forall (self : ConstitutionActionBundle.t) (w w' : World),
     ConstitutionActionBundle.bundle_type self = ConstitutionActionBundle.BUNDLE ->
     ConstitutionActionBundle.execute self w = (Ok tt, w') ->
     activity w'
     = activity w ++
       flat_map (fun a => [ was_passed Constitution (ConstitutionAction.pk a)
                              (ConstitutionAction.community a);
                            was_passed Constitution (ConstitutionAction.pk a)
                              (ConstitutionAction.community a) ])
         (ConstitutionActionBundle.bundled_actions self)) /\
  (forall adapter (self : PlatformActionBundle.t) (w w' : World),
     PlatformActionBundle.bundle_type self = PlatformActionBundle.BUNDLE ->
     PlatformActionBundle.execute adapter self w = (Ok tt, w') ->
     activity w'
     = activity w ++
       map (fun a => was_passed Platform (PlatformAction.pk a) (PlatformAction.community a))
         (PlatformActionBundle.bundled_actions self)).
Proof.
  split.
  - intros self w w' Hty Hrun.
    unfold ConstitutionActionBundle.execute in Hrun. rewrite Hty in Hrun.
    rewrite bool_decide_eq_true_2 in Hrun by reflexivity.
    now apply constitution_loop_activity.
  - intros adapter self w w' Hty Hrun.
    unfold PlatformActionBundle.execute in Hrun. rewrite Hty in Hrun.
    rewrite bool_decide_eq_true_2 in Hrun by reflexivity.
    now apply (platform_loop_activity adapter (PlatformActionBundle.community self)).
Qed.

Lemma bundle_execute_activity_witness :
  let w' := snd (ConstitutionActionBundle.execute three_roles pending_world) in
  ConstitutionActionBundle.bundle_type three_roles = ConstitutionActionBundle.BUNDLE /\
  ConstitutionActionBundle.execute three_roles pending_world = (Ok tt, w') /\
  length (activity w') = 6.
Proof.
  intros w'.
  assert (Hrun : ConstitutionActionBundle.execute three_roles pending_world = (Ok tt, w'))
    by (vm_compute; reflexivity).
  split; [ reflexivity | ]. split; [ exact Hrun | ].
  rewrite (proj1 bundle_execute_activity three_roles pending_world w' eq_refl Hrun).
  reflexivity.
Defined.

(** ** What [save] stores besides the proposal *)

(** X9.  A constitution action whose proposer is denied is not stored:
    [save] returns without calling the model's own save, so a new action
    keeps no key and no row is written, while its failed proposal is
    stored.  A denied platform action is stored.  A constitution action
    of a role class saved before it is ready is stored with a failed
    proposal, whatever its initiator may do: no permission is looked at. *)
Theorem denied_action_storage :
  (forall execute_policy (self : ConstitutionAction.t) (w : World),
     ConstitutionAction.shouldCreate self = true ->
     CommunityUser.has_perm (ConstitutionAction.initiator self)
       (ConstitutionAction.propose_perm (ConstitutionAction.kind self)) = false ->
     exists self' w',
       ConstitutionAction.save execute_policy self w = (Ok self', w') /\
       ConstitutionAction.pk self' = ConstitutionAction.pk self /\
       constitution_actions w' = constitution_actions w /\
       activity w' = activity w) /\
  (forall execute_platform_action execute_policy (self : PlatformAction.t) (w : World),
     PlatformAction.pk self = None ->
     CommunityUser.has_perm (PlatformAction.initiator self)
       (PlatformAction.propose_perm self) = false ->
     exists self' w' k,
       PlatformAction.save execute_platform_action execute_policy self w = (Ok self', w') /\
       PlatformAction.pk self' = Some k /\
       k = next_pk (platform_actions w) /\
       rows (platform_actions w') !! k = Some (PlatformAction.action_codename self) /\
       activity w' = activity w) /\
  (forall execute_policy (self : ConstitutionAction.t) (w : World),
     ConstitutionAction.pk self = None ->
     ConstitutionAction.shouldCreate self = false ->
     exists self' w' k p j,
       ConstitutionAction.save execute_policy self w = (Ok self', w') /\
       ConstitutionAction.pk self' = Some k /\
       k = next_pk (constitution_actions w) /\
       rows (constitution_actions w') !! k = Some (class_name (ConstitutionAction.kind self)) /\
       ConstitutionAction.proposal self' = Some p /\
       Proposal.status p = Proposal.FAILED /\
       Proposal.pk p = Some j /\
       rows (proposals w') !! j = Some p /\
       trace w' = trace w /\ activity w' = activity w).
Proof.
  split; [ | split ].
  - intros execute_policy self w Hsc Hperm.
    unfold ConstitutionAction.save. rewrite Hsc.
    destruct self as [pk comm init bundled data prop ready kind].
    simpl in Hperm.
    destruct data as [ds | ]; cbn; rewrite Hperm; cbn;
      (eexists _, _; split; [ reflexivity | ]); repeat split.
  - intros adapter execute_policy self w Hpk Hperm.
    destruct self as [pk comm init rev orig bundled data prop label name codename].
    simpl in Hpk. subst pk.
    unfold PlatformAction.save, PlatformAction.propose_perm in *.
    cbn [PlatformAction.pk pk_truthy negb].
    destruct data as [ds | ]; cbn in Hperm |- *; rewrite Hperm; cbn;
      (eexists _, _, _; split; [ reflexivity | ]);
      repeat split; cbn; apply lookup_insert_eq.
  - intros execute_policy self w Hpk Hsc.
    unfold ConstitutionAction.save. rewrite Hsc.
    destruct self as [pk comm init bundled data prop ready kind].
    simpl in Hpk. subst pk. cbn.
    eexists _, _, _, _, _. split; [ reflexivity | ].
    repeat split; cbn; apply lookup_insert_eq.
Qed.

Lemma denied_action_storage_witness :
  ConstitutionAction.shouldCreate (new_action outsider add_rules) = true /\
  CommunityUser.has_perm outsider (ConstitutionAction.propose_perm add_rules) = false /\
  exists self' w',
    ConstitutionAction.save no_policy (new_action outsider add_rules) empty_world
      = (Ok self', w') /\
    ConstitutionAction.pk self' = None /\
    constitution_actions w' = empty_table.
Proof.
  split; [ reflexivity | ]. split; [ vm_compute; reflexivity | ].
  destruct (proj1 denied_action_storage no_policy (new_action outsider add_rules)
              empty_world eq_refl ltac:(vm_compute; reflexivity))
    as (self' & w' & Hsave & Hpk & Hrows & _).
  exists self', w'. split; [ exact Hsave | ]. split; [ exact Hpk | exact Hrows ].
Defined.

(** The effect tables: what only an effect writes. *)
Definition effect_tables (w : World) :=
  (docs w, roles w, role_permissions w, role_users w, platform_policies w,
   constitution_policies w).

(** X10.  A bundled action that passes the propose check is recorded and
    nothing more: its proposal is [proposed], its row is written, no
    effect is started and no policy is evaluated, also when its initiator
    holds the bypass permission. *)
Theorem bundled_action_is_only_recorded :
  (forall execute_policy (self : ConstitutionAction.t) (w : World),
     ConstitutionAction.shouldCreate self = true ->
     CommunityUser.has_perm (ConstitutionAction.initiator self)
       (ConstitutionAction.propose_perm (ConstitutionAction.kind self)) = true ->
     ConstitutionAction.is_bundled self = true ->
     exists self' w' p k,
       ConstitutionAction.save execute_policy self w = (Ok self', w') /\
       ConstitutionAction.proposal self' = Some p /\
       Proposal.status p = Proposal.PROPOSED /\
       ConstitutionAction.pk self' = Some k /\
       rows (constitution_actions w') !! k = Some (class_name (ConstitutionAction.kind self)) /\
       trace w' = trace w /\ activity w' = activity w /\
       effect_tables w' = effect_tables w) /\
  (forall execute_platform_action execute_policy (self : PlatformAction.t) (w : World),
     PlatformAction.pk self = None ->
     CommunityUser.has_perm (PlatformAction.initiator self)
       (PlatformAction.propose_perm self) = true ->
     PlatformAction.is_bundled self = true ->
     exists self' w' p k j,
       PlatformAction.save execute_platform_action execute_policy self w = (Ok self', w') /\
       PlatformAction.proposal self' = Some p /\
       Proposal.status p = Proposal.PROPOSED /\
       Proposal.pk p = Some j /\
       rows (proposals w') !! j = Some p /\
       PlatformAction.pk self' = Some k /\
       rows (platform_actions w') !! k = Some (PlatformAction.action_codename self) /\
       trace w' = trace w /\ activity w' = activity w /\
       effect_tables w' = effect_tables w).
Proof.
  split.
  - intros execute_policy self w Hsc Hperm Hb.
    unfold ConstitutionAction.save. rewrite Hsc.
    destruct self as [pk comm init bundled data prop ready kind].
    simpl in Hperm, Hb. subst bundled.
    destruct data as [ds | ], prop as [p0 | ], pk as [k0 | ];
      cbn; rewrite Hperm; cbn;
      (eexists _, _, _, _; split; [ reflexivity | ]);
      repeat split; cbn; apply lookup_insert_eq.
  - intros adapter execute_policy self w Hpk Hperm Hb.
    destruct self as [pk comm init rev orig bundled data prop label name codename].
    simpl in Hpk, Hb. subst pk bundled.
    unfold PlatformAction.save, PlatformAction.propose_perm in *.
    cbn [PlatformAction.pk pk_truthy negb].
    destruct data as [ds | ]; cbn in Hperm |- *; rewrite Hperm; cbn;
      (eexists _, _, _, _, _; split; [ reflexivity | ]);
      repeat split; cbn; apply lookup_insert_eq.
Qed.

Definition bundled_new : ConstitutionAction.t :=
  {| ConstitutionAction.pk := None; ConstitutionAction.community := guild;
     ConstitutionAction.initiator := doc_admin; ConstitutionAction.is_bundled := true;
     ConstitutionAction.data := None; ConstitutionAction.proposal := None;
     ConstitutionAction.ready := false; ConstitutionAction.kind := add_rules |}.

Lemma bundled_action_is_only_recorded_witness :
  ConstitutionAction.shouldCreate bundled_new = true /\
  CommunityUser.has_perm doc_admin (ConstitutionAction.execute_perm add_rules) = true /\
  exists self' w',
    ConstitutionAction.save no_policy bundled_new empty_world = (Ok self', w') /\
    trace w' = [] /\ rows (docs w') = ∅.
Proof.
  split; [ reflexivity | ]. split; [ vm_compute; reflexivity | ].
  destruct (proj1 bundled_action_is_only_recorded no_policy bundled_new
              empty_world eq_refl ltac:(vm_compute; reflexivity) eq_refl)
    as (self' & w' & p & k & Hsave & _ & _ & _ & _ & Htr & _ & Heff).
  exists self', w'. split; [ exact Hsave | ]. split; [ exact Htr | ].
  assert (Hdocs : docs w' = docs empty_world)
    by (unfold effect_tables in Heff; congruence).
  now rewrite Hdocs.
Defined.

(** ** The review path of [save] *)

Section TableFacts.
Context {A : Type}.

Lemma NoDup_fst_filter (g : nat * A -> bool) (l : list (nat * A)) :
  List.NoDup (map fst l) -> List.NoDup (map fst (List.filter g l)).
Proof.
  induction l as [ | x l IH ]; simpl; intros H; [ constructor | ].
  inversion H as [ | ? ? Hx Hl ]; subst.
  destruct (g x); simpl; [ | now apply IH ].
  constructor; [ | now apply IH ].
  intros Hin. apply Hx. apply in_map_iff in Hin. destruct Hin as (y & Hy & Hin).
  apply filter_In in Hin. apply in_map_iff. exists y. tauto.
Qed.

(** The rows a filter selects: each matching row once, and no other. *)
Lemma tbl_filter_spec (f : A -> bool) (t : Table A) :
  List.NoDup (map fst (tbl_filter f t)) /\
  forall k v, In (k, v) (tbl_filter f t) <-> rows t !! k = Some v /\ f v = true.
Proof.
  unfold tbl_filter. split.
  - apply NoDup_fst_filter. apply NoDup_ListNoDup. apply NoDup_fst_map_to_list.
  - intros k v. rewrite filter_In. simpl.
    rewrite <- list_elem_of_In, elem_of_map_to_list. reflexivity.
Qed.

End TableFacts.

(** An engine whose hooks return, start no effect and evaluate no other
    action: it hands the action back with its key and leaves the trace as
    it is (as when every policy leaves the action pending). *)
Definition quiet_engine {T : Type} (pk : T -> option nat)
    (execute_policy : Inst BasePolicy.t -> T -> M World T) : Prop :=
  forall policy action w,
  exists action' w',
    execute_policy policy action w = (Ok action', w') /\
    pk action' = pk action /\ trace w' = trace w.

Lemma constitution_review_loop execute_policy (policies : list (Inst BasePolicy.t)) :
  quiet_engine ConstitutionAction.pk execute_policy ->
  forall a w,
  exists a' w',
    for_each_acc policies a (ConstitutionAction.run_policy execute_policy) w = (Ok a', w') /\
    ConstitutionAction.pk a' = ConstitutionAction.pk a /\
    trace w' = trace w ++ map (fun pol => EvExecutePolicy (inst_pk pol) Constitution
                                            (ConstitutionAction.pk a)) policies.
Proof.
  intros Hq. induction policies as [ | pol policies IH ]; intros a w.
  - exists a, w. simpl. now rewrite app_nil_r.
  - simpl. unfold bind at 1. unfold ConstitutionAction.run_policy at 1.
    unfold bind at 1, log, modify. simpl.
    destruct (Hq pol a (set_trace (trace w ++ [EvExecutePolicy (inst_pk pol) Constitution
                                                 (ConstitutionAction.pk a)]) w))
      as (a1 & w1 & -> & Hpk & Htr).
    destruct (IH a1 w1) as (a' & w' & -> & Hpk' & Htr').
    exists a', w'. split; [ reflexivity | ]. split; [ congruence | ].
    rewrite Htr', Htr, Hpk. simpl. now rewrite <- app_assoc.
Qed.

Lemma platform_review_loop execute_policy (policies : list (Inst BasePolicy.t)) :
  quiet_engine PlatformAction.pk execute_policy ->
  forall a w,
  exists a' w',
    for_each_acc policies a (PlatformAction.run_policy execute_policy) w = (Ok a', w') /\
    PlatformAction.pk a' = PlatformAction.pk a /\
    trace w' = trace w ++ map (fun pol => EvExecutePolicy (inst_pk pol) Platform
                                            (PlatformAction.pk a)) policies.
Proof.
  intros Hq. induction policies as [ | pol policies IH ]; intros a w.
  - exists a, w. simpl. now rewrite app_nil_r.
  - simpl. unfold bind at 1. unfold PlatformAction.run_policy at 1.
    unfold bind at 1, log, modify. simpl.
    destruct (Hq pol a (set_trace (trace w ++ [EvExecutePolicy (inst_pk pol) Platform
                                                 (PlatformAction.pk a)]) w))
      as (a1 & w1 & -> & Hpk & Htr).
    destruct (IH a1 w1) as (a' & w' & -> & Hpk' & Htr').
    exists a', w'. split; [ reflexivity | ]. split; [ congruence | ].
    rewrite Htr', Htr, Hpk. simpl. now rewrite <- app_assoc.
Qed.

(** The policies [save] hands to the engine. *)
Definition of_community (c : Community.t) (p : BasePolicy.t) : bool :=
  Nat.eqb (BasePolicy.community p) (Community.id c).

Lemma evaluated_policies_spec (tbl : Table BasePolicy.t) (c : Community.t) :
  List.NoDup (map fst (tbl_filter (of_community c) tbl)) /\
  forall k, In k (map fst (tbl_filter (of_community c) tbl)) <->
            exists p, rows tbl !! k = Some p /\ BasePolicy.community p = Community.id c.
Proof.
  destruct (tbl_filter_spec (of_community c) tbl) as [Hnd Hin].
  split; [ exact Hnd | ]. intros k. rewrite in_map_iff. split.
  - intros ([k' p] & <- & H). apply Hin in H. destruct H as [Hrow Hc].
    exists p. split; [ exact Hrow | now apply Nat.eqb_eq ].
  - intros (p & Hrow & Hc). exists (k, p). split; [ reflexivity | ].
    apply Hin. split; [ exact Hrow | now apply Nat.eqb_eq ].
Qed.

(** The review path, with the keys in the order the table yields them. *)
Lemma constitution_review_trace execute_policy (self : ConstitutionAction.t) (w : World) :
  quiet_engine ConstitutionAction.pk execute_policy ->
  ConstitutionAction.shouldCreate self = true ->
  CommunityUser.has_perm (ConstitutionAction.initiator self)
    (ConstitutionAction.propose_perm (ConstitutionAction.kind self)) = true ->
  CommunityUser.has_perm (ConstitutionAction.initiator self)
    (ConstitutionAction.execute_perm (ConstitutionAction.kind self)) = false ->
  ConstitutionAction.is_bundled self = false ->
  exists self' w',
    ConstitutionAction.save execute_policy self w = (Ok self', w') /\
    trace w'
    = trace w ++
      map (fun k => EvExecutePolicy (Some k) Constitution (ConstitutionAction.pk self'))
        (map fst (tbl_filter (of_community (ConstitutionAction.community self))
                    (constitution_policies w))).
Proof.
  intros Hq Hsc Hprop Hexec Hb.
  unfold ConstitutionAction.save. rewrite Hsc.
  destruct self as [pk comm init bundled data prop ready kind].
  simpl in Hprop, Hexec, Hb. subst bundled.
  Opaque tbl_filter for_each_acc.
  destruct data as [ds | ], prop as [p0 | ], pk as [k0 | ];
    cbn; rewrite Hprop; cbn; rewrite Hexec; cbn;
    match goal with
    | |- context [for_each_acc ?l ?a _ ?w1] =>
        destruct (constitution_review_loop execute_policy l Hq a w1)
          as (a' & w' & -> & Hpk & Htr)
    end;
    (exists a', w'); (split; [ reflexivity | ]);
    rewrite Htr, Hpk, !map_map; reflexivity.
  Transparent tbl_filter for_each_acc.
Qed.

Lemma platform_review_trace execute_platform_action execute_policy
    (self : PlatformAction.t) (w : World) :
  quiet_engine PlatformAction.pk execute_policy ->
  PlatformAction.pk self = None ->
  CommunityUser.has_perm (PlatformAction.initiator self)
    (PlatformAction.propose_perm self) = true ->
  CommunityUser.has_perm (PlatformAction.initiator self)
    (PlatformAction.execute_perm self) = false ->
  PlatformAction.is_bundled self = false ->
  exists self' w',
    PlatformAction.save execute_platform_action execute_policy self w = (Ok self', w') /\
    trace w'
    = trace w ++
      map (fun k => EvExecutePolicy (Some k) Platform (PlatformAction.pk self'))
        (map fst (tbl_filter (of_community (PlatformAction.community self))
                    (platform_policies w))).
Proof.
  intros Hq Hpk0 Hprop Hexec Hb.
  destruct self as [pk comm init rev orig bundled data prop label name codename].
  unfold PlatformAction.propose_perm, PlatformAction.execute_perm in *.
  simpl in Hpk0, Hprop, Hexec, Hb. subst pk bundled.
  unfold PlatformAction.save, PlatformAction.propose_perm, PlatformAction.execute_perm.
  Opaque tbl_filter for_each_acc.
  destruct data as [ds | ];
    cbn in Hprop, Hexec |- *; rewrite Hprop; cbn; rewrite Hexec; cbn;
    match goal with
    | |- context [for_each_acc ?l ?a _ ?w1] =>
        destruct (platform_review_loop execute_policy l Hq a w1)
          as (a' & w' & -> & Hpk & Htr)
    end;
    (exists a', w'); (split; [ reflexivity | ]);
    rewrite Htr, Hpk, !map_map; reflexivity.
  Transparent tbl_filter for_each_acc.
Qed.

Lemma constitution_review execute_policy (self : ConstitutionAction.t) (w : World) :
  quiet_engine ConstitutionAction.pk execute_policy ->
  ConstitutionAction.shouldCreate self = true ->
  CommunityUser.has_perm (ConstitutionAction.initiator self)
    (ConstitutionAction.propose_perm (ConstitutionAction.kind self)) = true ->
  CommunityUser.has_perm (ConstitutionAction.initiator self)
    (ConstitutionAction.execute_perm (ConstitutionAction.kind self)) = false ->
  ConstitutionAction.is_bundled self = false ->
  exists self' w' evaluated,
    ConstitutionAction.save execute_policy self w = (Ok self', w') /\
    trace w' = trace w ++ map (fun k => EvExecutePolicy (Some k) Constitution
                                          (ConstitutionAction.pk self')) evaluated /\
    List.NoDup evaluated /\
    forall k, In k evaluated <->
              exists p, rows (constitution_policies w) !! k = Some p /\
                        BasePolicy.community p
                        = Community.id (ConstitutionAction.community self).
Proof.
  intros Hq Hsc Hprop Hexec Hb.
  destruct (constitution_review_trace execute_policy self w Hq Hsc Hprop Hexec Hb)
    as (self' & w' & Hsave & Htr).
  destruct (evaluated_policies_spec (constitution_policies w)
              (ConstitutionAction.community self)) as [Hnd Hin].
  eexists self', w', _. split; [ exact Hsave | ]. split; [ exact Htr | ].
  split; [ exact Hnd | exact Hin ].
Qed.

Lemma platform_review execute_platform_action execute_policy
    (self : PlatformAction.t) (w : World) :
  quiet_engine PlatformAction.pk execute_policy ->
  PlatformAction.pk self = None ->
  CommunityUser.has_perm (PlatformAction.initiator self)
    (PlatformAction.propose_perm self) = true ->
  CommunityUser.has_perm (PlatformAction.initiator self)
    (PlatformAction.execute_perm self) = false ->
  PlatformAction.is_bundled self = false ->
  exists self' w' evaluated,
    PlatformAction.save execute_platform_action execute_policy self w = (Ok self', w') /\
    trace w' = trace w ++ map (fun k => EvExecutePolicy (Some k) Platform
                                          (PlatformAction.pk self')) evaluated /\
    List.NoDup evaluated /\
    forall k, In k evaluated <->
              exists p, rows (platform_policies w) !! k = Some p /\
                        BasePolicy.community p
                        = Community.id (PlatformAction.community self).
Proof.
  intros Hq Hpk Hprop Hexec Hb.
  destruct (platform_review_trace execute_platform_action execute_policy self w
              Hq Hpk Hprop Hexec Hb) as (self' & w' & Hsave & Htr).
  destruct (evaluated_policies_spec (platform_policies w)
              (PlatformAction.community self)) as [Hnd Hin].
  eexists self', w', _. split; [ exact Hsave | ]. split; [ exact Htr | ].
  split; [ exact Hnd | exact Hin ].
Qed.

(** X11.  An action that may be proposed but not executed by its initiator,
    and is not bundled, goes to review: with a quiet engine, [save]
    returns after calling [execute_policy] once for each policy of the
    action's community stored in the family's policy table, for no policy
    of another community, and starting no effect. *)
Theorem reviewed_action_meets_each_policy_once :
  (forall execute_policy (self : ConstitutionAction.t) (w : World),
     quiet_engine ConstitutionAction.pk execute_policy ->
     ConstitutionAction.shouldCreate self = true ->
     CommunityUser.has_perm (ConstitutionAction.initiator self)
       (ConstitutionAction.propose_perm (ConstitutionAction.kind self)) = true ->
     CommunityUser.has_perm (ConstitutionAction.initiator self)
       (ConstitutionAction.execute_perm (ConstitutionAction.kind self)) = false ->
     ConstitutionAction.is_bundled self = false ->
     exists self' w' evaluated,
       ConstitutionAction.save execute_policy self w = (Ok self', w') /\
       trace w' = trace w ++ map (fun k => EvExecutePolicy (Some k) Constitution
                                             (ConstitutionAction.pk self')) evaluated /\
       List.NoDup evaluated /\
       forall k, In k evaluated <->
                 exists p, rows (constitution_policies w) !! k = Some p /\
                           BasePolicy.community p
                           = Community.id (ConstitutionAction.community self)) /\
  (forall execute_platform_action execute_policy (self : PlatformAction.t) (w : World),
     quiet_engine PlatformAction.pk execute_policy ->
     PlatformAction.pk self = None ->
     CommunityUser.has_perm (PlatformAction.initiator self)
       (PlatformAction.propose_perm self) = true ->
     CommunityUser.has_perm (PlatformAction.initiator self)
       (PlatformAction.execute_perm self) = false ->
     PlatformAction.is_bundled self = false ->
     exists self' w' evaluated,
       PlatformAction.save execute_platform_action execute_policy self w = (Ok self', w') /\
       trace w' = trace w ++ map (fun k => EvExecutePolicy (Some k) Platform
                                             (PlatformAction.pk self')) evaluated /\
       List.NoDup evaluated /\
       forall k, In k evaluated <->
                 exists p, rows (platform_policies w) !! k = Some p /\
                           BasePolicy.community p
                           = Community.id (PlatformAction.community self)).
Proof.
  split.
  - intros. now apply constitution_review.
  - intros. now apply platform_review.
Qed.

Definition policy_of (c : nat) : BasePolicy.t :=
  {| BasePolicy.filter := "return True"; BasePolicy.initialize := "pass";
     BasePolicy.check := "return PROPOSED"; BasePolicy.notify := "pass";
     BasePolicy.success := "action.execute()"; BasePolicy.fail := "pass";
     BasePolicy.name := None; BasePolicy.community := c;
     BasePolicy.description := None; BasePolicy.is_bundled := false;
     BasePolicy.has_notified := false; BasePolicy.data := None |}.

(** Two constitution policies of community 1 and one of community 2. *)
Definition three_policies : World :=
  set_constitution_policies
    (tbl_write 3 (policy_of 1) (tbl_write 2 (policy_of 2) (tbl_write 1 (policy_of 1) empty_table)))
    empty_world.

Definition proposer : CommunityUser.t :=
  member_with [ "policyengine.add_policykitaddcommunitydoc"%string ].

Lemma no_policy_quiet {T : Type} (pk : T -> option nat) : quiet_engine pk no_policy.
Proof. intros policy action w. exists action, w. repeat split. Qed.

Lemma reviewed_action_meets_each_policy_once_witness :
  quiet_engine ConstitutionAction.pk no_policy /\
  ConstitutionAction.shouldCreate (new_action proposer add_rules) = true /\
  exists self' w' evaluated,
    ConstitutionAction.save no_policy (new_action proposer add_rules) three_policies
      = (Ok self', w') /\
    length (trace w') = length evaluated /\
    In 1 evaluated /\ In 3 evaluated /\ ~ In 2 evaluated.
Proof.
  split; [ apply no_policy_quiet | ]. split; [ reflexivity | ].
  destruct (proj1 reviewed_action_meets_each_policy_once no_policy
              (new_action proposer add_rules) three_policies
              (no_policy_quiet _) eq_refl ltac:(vm_compute; reflexivity)
              ltac:(vm_compute; reflexivity) eq_refl)
    as (self' & w' & evaluated & Hsave & Htr & _ & Hin).
  exists self', w', evaluated. split; [ exact Hsave | ].
  split; [ rewrite Htr; simpl; now rewrite length_map | ].
  split; [ apply Hin; exists (policy_of 1); split; reflexivity | ].
  split; [ apply Hin; exists (policy_of 1); split; reflexivity | ].
  intros H. apply Hin in H. destruct H as (p & Hrow & Hc).
  vm_compute in Hrow. inversion Hrow; subst p. discriminate Hc.
Defined.

(** ** The two saves of a role action *)

(** [action.ready = True], set before a role action is saved again. *)
Definition mark_ready (self : ConstitutionAction.t) : ConstitutionAction.t :=
  {| ConstitutionAction.pk := ConstitutionAction.pk self;
     ConstitutionAction.community := ConstitutionAction.community self;
     ConstitutionAction.initiator := ConstitutionAction.initiator self;
     ConstitutionAction.is_bundled := ConstitutionAction.is_bundled self;
     ConstitutionAction.data := ConstitutionAction.data self;
     ConstitutionAction.proposal := ConstitutionAction.proposal self;
     ConstitutionAction.ready := true;
     ConstitutionAction.kind := ConstitutionAction.kind self |}.

(** X12.  A role action is saved twice: first not ready, which stores it with
    a failed proposal in row [k]; then marked ready.  In the second save
    the proposal is set to [proposed] on the object only: when the action
    is bundled, [save] returns with the object saying [proposed] and row
    [k] still [failed].  With the bypass permission and no bundling, a
    second save that returns has passed the same proposal, in row [k].
    Without the propose permission the second save creates a second
    failed proposal, in a new row. *)
Theorem role_action_saved_twice (execute_policy :
      Inst BasePolicy.t -> ConstitutionAction.t -> M World ConstitutionAction.t)
    (self : ConstitutionAction.t) (w : World) :
  ConstitutionAction.pk self = None ->
  ConstitutionAction.shouldCreate self = false ->
  let propose := CommunityUser.has_perm (ConstitutionAction.initiator self)
                   (ConstitutionAction.propose_perm (ConstitutionAction.kind self)) in
  let bypass := CommunityUser.has_perm (ConstitutionAction.initiator self)
                  (ConstitutionAction.execute_perm (ConstitutionAction.kind self)) in
  exists self1 w1 p k,
    ConstitutionAction.save execute_policy self w = (Ok self1, w1) /\
    ConstitutionAction.proposal self1 = Some p /\
    Proposal.pk p = Some k /\ k = next_pk (proposals w) /\
    stored_status w1 k = Some Proposal.FAILED /\
    ConstitutionAction.shouldCreate (mark_ready self1) = true /\
    (propose = true -> ConstitutionAction.is_bundled self = true ->
     exists self2 w2,
       ConstitutionAction.save execute_policy (mark_ready self1) w1 = (Ok self2, w2) /\
       ConstitutionAction.proposal self2 = Some (Proposal.with_status Proposal.PROPOSED p) /\
       proposals w2 = proposals w1 /\
       stored_status w2 k = Some Proposal.FAILED) /\
    (propose = true -> bypass = true -> ConstitutionAction.is_bundled self = false ->
     forall self2 w2,
       ConstitutionAction.save execute_policy (mark_ready self1) w1 = (Ok self2, w2) ->
       exists p2,
         ConstitutionAction.proposal self2 = Some p2 /\
         Proposal.pk p2 = Some k /\
         stored_status w2 k = Some Proposal.PASSED) /\
    (propose = false ->
     exists self2 w2 p2 k2,
       ConstitutionAction.save execute_policy (mark_ready self1) w1 = (Ok self2, w2) /\
       ConstitutionAction.proposal self2 = Some p2 /\
       Proposal.status p2 = Proposal.FAILED /\
       Proposal.pk p2 = Some k2 /\ k2 <> k /\
       stored_status w2 k2 = Some Proposal.FAILED /\
       stored_status w2 k = Some Proposal.FAILED).
Proof.
  intros Hpk Hsc propose bypass.
  destruct self as [pk comm init bundled data prop ready kind].
  simpl in Hpk. subst pk.
  unfold ConstitutionAction.save at 1. rewrite Hsc. cbn.
  eexists _, _, _, _. split; [ reflexivity | ].
  split; [ reflexivity | ]. split; [ reflexivity | ]. split; [ reflexivity | ].
  split; [ unfold stored_status; cbn; now rewrite lookup_insert_eq | ].
  split; [ destruct kind; try reflexivity; discriminate Hsc | ].
  subst propose bypass. cbn [ConstitutionAction.initiator ConstitutionAction.kind
                             ConstitutionAction.is_bundled].
  split; [ | split ].
  - intros Hprop Hb. subst bundled.
    unfold ConstitutionAction.save.
    match goal with
    | |- context [ConstitutionAction.shouldCreate ?a] =>
        replace (ConstitutionAction.shouldCreate a) with true
          by (symmetry; destruct kind; try reflexivity; discriminate Hsc)
    end.
    destruct data as [ds | ]; cbn; rewrite Hprop; cbn;
      (eexists _, _; split; [ reflexivity | ]);
      (split; [ reflexivity | ]); (split; [ reflexivity | ]);
      unfold stored_status; cbn; now rewrite lookup_insert_eq.
  - intros Hprop Hexec Hb self2 w2 Hsave. subst bundled.
    unfold ConstitutionAction.save in Hsave.
    match type of Hsave with
    | context [ConstitutionAction.shouldCreate ?a] =>
        replace (ConstitutionAction.shouldCreate a) with true in Hsave
          by (symmetry; destruct kind; try reflexivity; discriminate Hsc)
    end.
    Opaque ConstitutionAction.execute.
    destruct data as [ds | ]; cbn in Hsave; rewrite Hprop in Hsave; cbn in Hsave;
      rewrite Hexec in Hsave;
      match type of Hsave with
      | ConstitutionAction.execute ?a ?w1 = _ =>
          destruct (ConstitutionAction_execute_spec a w1) as (_ & _ & Hres);
          rewrite Hsave in Hres; simpl in Hres;
          destruct Hres as (_ & p & p' & k & Hp & Hp' & _ & Hk & Hk0 & Hst);
          injection Hp as <-; exists p'; rewrite Hk;
          rewrite <- (Hk0 _ eq_refl) in *; repeat split; assumption
      end.
    Transparent ConstitutionAction.execute.
  - intros Hprop.
    unfold ConstitutionAction.save.
    match goal with
    | |- context [ConstitutionAction.shouldCreate ?a] =>
        replace (ConstitutionAction.shouldCreate a) with true
          by (symmetry; destruct kind; try reflexivity; discriminate Hsc)
    end.
    destruct data as [ds | ]; cbn; rewrite Hprop; cbn;
      (eexists _, _, _, _; split; [ reflexivity | ]);
      (split; [ reflexivity | ]); (split; [ reflexivity | ]);
      (split; [ reflexivity | ]); (split; [ lia | ]);
      unfold stored_status; cbn;
      (split; [ now rewrite lookup_insert_eq | ]);
      (rewrite lookup_insert_ne by lia); now rewrite lookup_insert_eq.
Qed.

Lemma role_action_saved_twice_witness :
  let a := new_action role_admin (PolicykitAddRole "moderator" None []) in
  ConstitutionAction.pk a = None /\ ConstitutionAction.shouldCreate a = false /\
  exists self1 w1 p,
    ConstitutionAction.save no_policy a empty_world = (Ok self1, w1) /\
    ConstitutionAction.proposal self1 = Some p /\
    Proposal.pk p = Some 1 /\
    stored_status w1 1 = Some Proposal.FAILED.
Proof.
  intros a. split; [ reflexivity | ]. split; [ reflexivity | ].
  destruct (role_action_saved_twice no_policy a empty_world eq_refl eq_refl)
    as (self1 & w1 & p & k & Hsave & Hp & Hk & -> & Hst & _).
  exists self1, w1, p. split; [ exact Hsave | ]. split; [ exact Hp | ].
  split; [ exact Hk | exact Hst ].
Defined.

(** ** What each effect writes *)

Set Warnings "-clear-no-such-hyp".

Lemma execute_unfold (a : ConstitutionAction.t) (w : World) :
  ConstitutionAction.execute a w
  = match ConstitutionAction.kind a with
    | PolicykitAddCommunityDoc name text =>
        ConstitutionAction.PolicykitAddCommunityDoc_execute a name text
    | PolicykitChangeCommunityDoc doc name text =>
        ConstitutionAction.PolicykitChangeCommunityDoc_execute a doc name text
    | PolicykitDeleteCommunityDoc doc =>
        ConstitutionAction.PolicykitDeleteCommunityDoc_execute a doc
    | PolicykitAddRole name description permissions =>
        ConstitutionAction.PolicykitAddRole_execute a name description permissions
    | PolicykitDeleteRole role => ConstitutionAction.PolicykitDeleteRole_execute a role
    | PolicykitEditRole role name description permissions =>
        ConstitutionAction.PolicykitEditRole_execute a role name description permissions
    | PolicykitAddUserRole role users =>
        ConstitutionAction.PolicykitAddUserRole_execute a role users
    | PolicykitRemoveUserRole role users =>
        ConstitutionAction.PolicykitRemoveUserRole_execute a role users
    | PolicykitAddPlatformPolicy e =>
        ConstitutionAction.PolicykitAddPlatformPolicy_execute a e
    | PolicykitAddConstitutionPolicy e =>
        ConstitutionAction.PolicykitAddConstitutionPolicy_execute a e
    | PolicykitChangePlatformPolicy p e =>
        ConstitutionAction.PolicykitChangePlatformPolicy_execute a p e
    | PolicykitChangeConstitutionPolicy p e =>
        ConstitutionAction.PolicykitChangeConstitutionPolicy_execute a p e
    | PolicykitRemovePlatformPolicy p =>
        ConstitutionAction.PolicykitRemovePlatformPolicy_execute a p
    | PolicykitRemoveConstitutionPolicy p =>
        ConstitutionAction.PolicykitRemoveConstitutionPolicy_execute a p
    end (set_trace (trace w ++ [EvEffect Constitution (ConstitutionAction.pk a)]) w).
Proof. reflexivity. Qed.

(** The members of the role with key [k]. *)
Definition members (w : World) (k : nat) : gset nat := default ∅ (role_users w !! k).

Definition user_keys (users : list CommunityUser.t) : gset nat :=
  list_to_set (map CommunityUser.pk users).

(** Everything but the membership relation. *)
Definition beyond_role_users (w : World) :=
  (datastores w, proposals w, docs w, roles w, role_permissions w, platform_policies w,
   constitution_policies w, constitution_actions w, platform_actions w,
   boolean_votes w, number_votes w, activity w, trace w).

Lemma add_users_loop (role : Inst CommunityRole.t) (k : nat) (users : list CommunityUser.t) :
  inst_pk role = Some k ->
  forall w, exists w',
    for_each users (fun u => r <- deref (Some role) ;; role_user_set_add r u) w = (Ok tt, w') /\
    members w' k = user_keys users ∪ members w k /\
    (forall j, j <> k -> role_users w' !! j = role_users w !! j) /\
    beyond_role_users w' = beyond_role_users w.
Proof.
  intros Hk. induction users as [ | u users IH ]; intros w.
  - exists w. split; [ reflexivity | ]. split; [ | split; reflexivity ].
    unfold user_keys. simpl. now rewrite union_empty_l_L.
  - assert (Estep : (r <- deref (Some role) ;; role_user_set_add r u) w
                    = (Ok tt, set_role_users
                                (<[k := {[CommunityUser.pk u]} ∪ members w k]> (role_users w)) w)).
    { unfold role_user_set_add, m2m_key, bind, deref, ret, modify. now rewrite Hk. }
    cbn [for_each]. unfold bind at 1. rewrite Estep.
    match goal with
    | |- context [for_each _ _ ?w1] =>
        destruct (IH w1) as (w' & -> & Hm & Hother & Hrest)
    end.
    exists w'. split; [ reflexivity | ]. split; [ | split ].
    + rewrite Hm. unfold members, user_keys. cbn. rewrite lookup_insert_eq. cbn.
      set_solver.
    + intros j Hj. rewrite Hother by exact Hj. cbn. now apply lookup_insert_ne.
    + rewrite Hrest. reflexivity.
Qed.

Lemma remove_users_loop (role : Inst CommunityRole.t) (k : nat) (users : list CommunityUser.t) :
  inst_pk role = Some k ->
  forall w, exists w',
    for_each users (fun u => r <- deref (Some role) ;; role_user_set_remove r u) w
      = (Ok tt, w') /\
    members w' k = members w k ∖ user_keys users /\
    (forall j, j <> k -> role_users w' !! j = role_users w !! j) /\
    beyond_role_users w' = beyond_role_users w.
Proof.
  intros Hk. induction users as [ | u users IH ]; intros w.
  - exists w. split; [ reflexivity | ]. split; [ | split; reflexivity ].
    unfold user_keys. simpl. now rewrite difference_empty_L.
  - assert (Estep : (r <- deref (Some role) ;; role_user_set_remove r u) w
                    = (Ok tt, set_role_users
                                (<[k := members w k ∖ {[CommunityUser.pk u]}]> (role_users w)) w)).
    { unfold role_user_set_remove, m2m_key, bind, deref, ret, modify. now rewrite Hk. }
    cbn [for_each]. unfold bind at 1. rewrite Estep.
    match goal with
    | |- context [for_each _ _ ?w1] =>
        destruct (IH w1) as (w' & -> & Hm & Hother & Hrest)
    end.
    exists w'. split; [ reflexivity | ]. split; [ | split ].
    + rewrite Hm. unfold members, user_keys. cbn. rewrite lookup_insert_eq. cbn.
      set_solver.
    + intros j Hj. rewrite Hother by exact Hj. cbn. now apply lookup_insert_ne.
    + rewrite Hrest. reflexivity.
Qed.

Lemma user_role_effect (self : ConstitutionAction.t)
    (role : Inst CommunityRole.t) (k : nat) (users : list CommunityUser.t)
    (p : Proposal.t) (w : World) :
  inst_pk role = Some k ->
  ConstitutionAction.proposal self = Some p ->
  (exists a' w',
     ConstitutionAction.execute
       (ConstitutionAction.with_kind (PolicykitAddUserRole (Some role) users) self) w
     = (Ok a', w') /\
     members w' k = user_keys users ∪ members w k /\
     (forall j, j <> k -> role_users w' !! j = role_users w !! j) /\
     roles w' = roles w /\ role_permissions w' = role_permissions w /\
     (Proposal.status <$> ConstitutionAction.proposal a') = Some Proposal.PASSED) /\
  (exists a' w',
     ConstitutionAction.execute
       (ConstitutionAction.with_kind (PolicykitRemoveUserRole (Some role) users) self) w
     = (Ok a', w') /\
     members w' k = members w k ∖ user_keys users /\
     (forall j, j <> k -> role_users w' !! j = role_users w !! j) /\
     roles w' = roles w /\ role_permissions w' = role_permissions w /\
     (Proposal.status <$> ConstitutionAction.proposal a') = Some Proposal.PASSED).
Proof.
  intros Hk Hp. split.
  - rewrite execute_unfold. cbn [ConstitutionAction.kind ConstitutionAction.with_kind].
    unfold ConstitutionAction.PolicykitAddUserRole_execute. unfold bind at 1.
    match goal with
    | |- context [for_each _ _ ?w0] =>
        destruct (add_users_loop role k users Hk w0) as (w1 & -> & Hm & Hother & Hrest)
    end.
    match goal with
    | |- context [ConstitutionAction.pass_action ?a w1] =>
        destruct (ConstitutionAction_pass_action_writes a p w1 Hp)
          as (p' & w2 & j & -> & Hs & _ & _ & _ & _ & _ & _ & _ & Hpass & _)
    end.
    inversion Hrest. inversion Hpass.
    eexists _, w2. split; [ reflexivity | ].
    split; [ unfold members in *; cbn in Hm; congruence | ].
    split; [ intros i Hi; specialize (Hother i Hi); cbn in Hother; congruence | ].
    split; [ congruence | ]. split; [ congruence | ].
    cbn. now rewrite Hs.
  - rewrite execute_unfold. cbn [ConstitutionAction.kind ConstitutionAction.with_kind].
    unfold ConstitutionAction.PolicykitRemoveUserRole_execute. unfold bind at 1.
    match goal with
    | |- context [for_each _ _ ?w0] =>
        destruct (remove_users_loop role k users Hk w0) as (w1 & -> & Hm & Hother & Hrest)
    end.
    match goal with
    | |- context [ConstitutionAction.pass_action ?a w1] =>
        destruct (ConstitutionAction_pass_action_writes a p w1 Hp)
          as (p' & w2 & j & -> & Hs & _ & _ & _ & _ & _ & _ & _ & Hpass & _)
    end.
    inversion Hrest. inversion Hpass.
    eexists _, w2. split; [ reflexivity | ].
    split; [ unfold members in *; cbn in Hm; congruence | ].
    split; [ intros i Hi; specialize (Hother i Hi); cbn in Hother; congruence | ].
    split; [ congruence | ]. split; [ congruence | ].
    cbn. now rewrite Hs.
Qed.

(** X13.  [PolicykitAddUserRole] makes every listed user a member of the role
    and [PolicykitRemoveUserRole] makes every listed user a non-member;
    the other members of the role, the members of every other role, the
    roles themselves and their permissions stay as they are, and the
    action's proposal is passed. *)
Theorem user_role_actions_set_membership (self : ConstitutionAction.t)
    (role : Inst CommunityRole.t) (k : nat) (users : list CommunityUser.t)
    (p : Proposal.t) (w : World) :
  inst_pk role = Some k ->
  ConstitutionAction.proposal self = Some p ->
  (exists a' w',
     ConstitutionAction.execute
       (ConstitutionAction.with_kind (PolicykitAddUserRole (Some role) users) self) w
     = (Ok a', w') /\
     members w' k = user_keys users ∪ members w k /\
     (forall j, j <> k -> role_users w' !! j = role_users w !! j) /\
     roles w' = roles w /\ role_permissions w' = role_permissions w /\
     (Proposal.status <$> ConstitutionAction.proposal a') = Some Proposal.PASSED) /\
  (exists a' w',
     ConstitutionAction.execute
       (ConstitutionAction.with_kind (PolicykitRemoveUserRole (Some role) users) self) w
     = (Ok a', w') /\
     members w' k = members w k ∖ user_keys users /\
     (forall j, j <> k -> role_users w' !! j = role_users w !! j) /\
     roles w' = roles w /\ role_permissions w' = role_permissions w /\
     (Proposal.status <$> ConstitutionAction.proposal a') = Some Proposal.PASSED).
Proof. exact (user_role_effect self role k users p w). Qed.

Section FilterShapes.
Context {A : Type}.

Lemma NoDup_fst_all_equal (x : nat * A) (l : list (nat * A)) :
  List.NoDup (map fst l) -> In x l -> (forall y, In y l -> y = x) -> l = [x].
Proof.
  destruct l as [ | a [ | b l ] ]; simpl; intros Hnd Hin Hall.
  - destruct Hin.
  - f_equal. apply Hall. now left.
  - exfalso. rewrite (Hall a), (Hall b) in Hnd by auto.
    inversion Hnd as [ | ? ? Hx _ ]. apply Hx. now left.
Qed.

Lemma tbl_filter_none (f : A -> bool) (t : Table A) :
  (forall k v, rows t !! k = Some v -> f v = false) -> tbl_filter f t = [].
Proof.
  intros H. destruct (tbl_filter_spec f t) as [_ Hin].
  destruct (tbl_filter f t) as [ | [k v] l ]; [ reflexivity | ].
  destruct (proj1 (Hin k v) (or_introl eq_refl)) as [Hrow Hf].
  rewrite (H k v Hrow) in Hf. discriminate.
Qed.

Lemma tbl_filter_one (f : A -> bool) (t : Table A) (k : nat) (v : A) :
  rows t !! k = Some v -> f v = true ->
  (forall k' v', rows t !! k' = Some v' -> f v' = true -> k' = k) ->
  tbl_filter f t = [(k, v)].
Proof.
  intros Hrow Hf Huniq. destruct (tbl_filter_spec f t) as [Hnd Hin].
  apply NoDup_fst_all_equal; [ exact Hnd | now apply Hin | ].
  intros [k' v'] H. apply Hin in H. destruct H as [Hrow' Hf'].
  pose proof (Huniq k' v' Hrow' Hf') as ->. congruence.
Qed.

Lemma tbl_filter_several (f : A -> bool) (t : Table A) (k1 k2 : nat) (v1 v2 : A) :
  k1 <> k2 ->
  rows t !! k1 = Some v1 -> f v1 = true ->
  rows t !! k2 = Some v2 -> f v2 = true ->
  exists x y l, tbl_filter f t = x :: y :: l.
Proof.
  intros Hne H1 F1 H2 F2. destruct (tbl_filter_spec f t) as [_ Hin].
  pose proof (proj2 (Hin k1 v1) (conj H1 F1)) as In1.
  pose proof (proj2 (Hin k2 v2) (conj H2 F2)) as In2.
  destruct (tbl_filter f t) as [ | x [ | y l ] ].
  - destruct In1.
  - destruct In1 as [E1 | []], In2 as [E2 | []]. congruence.
  - now exists x, y, l.
Qed.

End FilterShapes.

Lemma PolicykitAddCommunityDoc_lookup
    (self : ConstitutionAction.t) (name text : string) (p : Proposal.t) (w : World) :
  ConstitutionAction.proposal self = Some p ->
  let r := ConstitutionAction.execute
             (ConstitutionAction.with_kind (PolicykitAddCommunityDoc name text) self) w in
  let same d := CommunityDoc.name d = name /\ CommunityDoc.text d = text in
  let doc := {| CommunityDoc.name := name; CommunityDoc.text := text;
                CommunityDoc.community
                  := Some (Community.id (ConstitutionAction.community self)) |} in
  ((forall k d, rows (docs w) !! k = Some d -> ~ same d) ->
   exists a', fst r = Ok a' /\
              rows (docs (snd r)) = <[next_pk (docs w) := doc]> (rows (docs w))) /\
  (forall k d,
     rows (docs w) !! k = Some d -> same d ->
     (forall k' d', rows (docs w) !! k' = Some d' -> same d' -> k' = k) ->
     exists a', fst r = Ok a' /\ rows (docs (snd r)) = <[k := doc]> (rows (docs w))) /\
  (forall k1 k2 d1 d2,
     k1 <> k2 ->
     rows (docs w) !! k1 = Some d1 -> same d1 ->
     rows (docs w) !! k2 = Some d2 -> same d2 ->
     fst r = Raise MultipleObjectsReturned /\
     docs (snd r) = docs w /\ proposals (snd r) = proposals w).
Proof.
  intros Hp r same doc.
  set (matches := fun d => bool_decide (CommunityDoc.name d = name)
                           && bool_decide (CommunityDoc.text d = text)).
  assert (Hsame : forall d, matches d = true <-> same d).
  { intros d. unfold matches, same.
    now rewrite andb_true_iff, !bool_decide_eq_true. }
  set (w0 := set_trace (trace w ++ [EvEffect Constitution (ConstitutionAction.pk self)]) w).
  assert (E : r = (d <- get_or_create docs set_docs matches
                         {| CommunityDoc.name := name; CommunityDoc.text := text;
                            CommunityDoc.community := None |} ;;
                   inst_save docs set_docs
                     {| inst_pk := inst_pk d;
                        inst_val := {| CommunityDoc.name := CommunityDoc.name (inst_val d);
                                       CommunityDoc.text := CommunityDoc.text (inst_val d);
                                       CommunityDoc.community
                                         := Some (Community.id
                                                    (ConstitutionAction.community self)) |} |} ;;
                   ConstitutionAction.pass_action
                     (ConstitutionAction.with_kind (PolicykitAddCommunityDoc name text) self))
                    w0).
  { reflexivity. }
  clearbody r.
  split; [ | split ].
  - intros Hnone.
    assert (F : tbl_filter matches (docs w0) = []).
    { apply tbl_filter_none. intros k d Hrow.
      destruct (matches d) eqn:Hm; [ | reflexivity ].
      now destruct (Hnone k d Hrow); apply Hsame. }
    assert (E1 : r = ConstitutionAction.pass_action
                       (ConstitutionAction.with_kind (PolicykitAddCommunityDoc name text) self)
                       (set_docs (tbl_write (next_pk (docs w)) doc
                                    (snd (tbl_insert
                                            {| CommunityDoc.name := name;
                                               CommunityDoc.text := text;
                                               CommunityDoc.community := None |} (docs w))))
                          w0)).
    { rewrite E. unfold bind at 1. unfold get_or_create. rewrite F. reflexivity. }
    rewrite E1.
    match goal with
    | |- context [ConstitutionAction.pass_action ?a ?w1] =>
        destruct (ConstitutionAction_pass_action_writes a p w1 Hp)
          as (p' & w2 & j & -> & _ & _ & _ & _ & _ & _ & _ & _ & Hpass & _);
        assert (Hdocs : docs w2 = docs w1) by (inversion Hpass; congruence)
    end.
    eexists. split; [ reflexivity | ].
    cbn [fst snd]. rewrite Hdocs. cbn. now rewrite insert_insert_eq.
  - intros k d Hrow Hd Huniq.
    assert (F : tbl_filter matches (docs w0) = [(k, d)]).
    { apply tbl_filter_one; [ exact Hrow | now apply Hsame | ].
      intros k' d' Hrow' Hm. apply (Huniq k' d' Hrow'). now apply Hsame. }
    assert (E1 : r = ConstitutionAction.pass_action
                       (ConstitutionAction.with_kind (PolicykitAddCommunityDoc name text) self)
                       (set_docs (tbl_write k
                                    {| CommunityDoc.name := CommunityDoc.name d;
                                       CommunityDoc.text := CommunityDoc.text d;
                                       CommunityDoc.community
                                         := Some (Community.id
                                                    (ConstitutionAction.community self)) |}
                                    (docs w)) w0)).
    { rewrite E. unfold bind at 1. unfold get_or_create. rewrite F. reflexivity. }
    rewrite E1.
    match goal with
    | |- context [ConstitutionAction.pass_action ?a ?w1] =>
        destruct (ConstitutionAction_pass_action_writes a p w1 Hp)
          as (p' & w2 & j & -> & _ & _ & _ & _ & _ & _ & _ & _ & Hpass & _);
        assert (Hdocs : docs w2 = docs w1) by (inversion Hpass; congruence)
    end.
    eexists. split; [ reflexivity | ].
    cbn [fst snd]. rewrite Hdocs. cbn. destruct Hd as [-> ->]. reflexivity.
  - intros k1 k2 d1 d2 Hne H1 S1 H2 S2.
    destruct (tbl_filter_several matches (docs w0) k1 k2 d1 d2 Hne H1
                (proj2 (Hsame d1) S1) H2 (proj2 (Hsame d2) S2)) as (x & y & l & F).
    assert (E1 : r = (Raise MultipleObjectsReturned, w0)).
    { rewrite E. unfold bind at 1. unfold get_or_create. rewrite F.
      destruct x as [kx vx]. reflexivity. }
    rewrite E1. repeat split.
Qed.

(** X14.  [PolicykitAddCommunityDoc] looks the document up by name and text
    alone, in every community.  When no document has them, a new one is
    created for the action's community.  When exactly one has them, that
    document is assigned to the action's community, whichever community
    it belonged to, and no document is created.  When several have them,
    [execute] raises [MultipleObjectsReturned] and writes neither a
    document nor a proposal. *)
Theorem PolicykitAddCommunityDoc_looks_up_by_name_and_text
    (self : ConstitutionAction.t) (name text : string) (p : Proposal.t) (w : World) :
  ConstitutionAction.proposal self = Some p ->
  let r := ConstitutionAction.execute
             (ConstitutionAction.with_kind (PolicykitAddCommunityDoc name text) self) w in
  let same d := CommunityDoc.name d = name /\ CommunityDoc.text d = text in
  let doc := {| CommunityDoc.name := name; CommunityDoc.text := text;
                CommunityDoc.community
                  := Some (Community.id (ConstitutionAction.community self)) |} in
  ((forall k d, rows (docs w) !! k = Some d -> ~ same d) ->
   exists a', fst r = Ok a' /\
              rows (docs (snd r)) = <[next_pk (docs w) := doc]> (rows (docs w))) /\
  (forall k d,
     rows (docs w) !! k = Some d -> same d ->
     (forall k' d', rows (docs w) !! k' = Some d' -> same d' -> k' = k) ->
     exists a', fst r = Ok a' /\ rows (docs (snd r)) = <[k := doc]> (rows (docs w))) /\
  (forall k1 k2 d1 d2,
     k1 <> k2 ->
     rows (docs w) !! k1 = Some d1 -> same d1 ->
     rows (docs w) !! k2 = Some d2 -> same d2 ->
     fst r = Raise MultipleObjectsReturned /\
     docs (snd r) = docs w /\ proposals (snd r) = proposals w).
Proof. exact (PolicykitAddCommunityDoc_lookup self name text p w). Qed.

(** A document with the name and text of [add_rules], held by community 2. *)
Definition foreign_rules : World :=
  set_docs
    (tbl_write 1 {| CommunityDoc.name := "rules"; CommunityDoc.text := "be kind";
                    CommunityDoc.community := Some 2 |} empty_table)
    empty_world.

Lemma PolicykitAddCommunityDoc_looks_up_by_name_and_text_witness :
  ConstitutionAction.proposal (bundled 1 add_rules) = Some (pending 1) /\
  rows (docs (snd (ConstitutionAction.execute
                     (ConstitutionAction.with_kind add_rules (bundled 1 add_rules))
                     foreign_rules)))
  = {[ 1 := {| CommunityDoc.name := "rules"; CommunityDoc.text := "be kind";
               CommunityDoc.community := Some 1 |} ]}.
Proof.
  split; [ reflexivity | ].
  destruct (PolicykitAddCommunityDoc_looks_up_by_name_and_text (bundled 1 add_rules)
              "rules" "be kind" (pending 1) foreign_rules eq_refl) as (_ & Hone & _).
  destruct (Hone 1 {| CommunityDoc.name := "rules"; CommunityDoc.text := "be kind";
                      CommunityDoc.community := Some 2 |} eq_refl (conj eq_refl eq_refl))
    as (a' & _ & Hrows).
  - intros k' d' Hrow _. cbn in Hrow.
    apply lookup_insert_Some in Hrow. destruct Hrow as [[Hk _] | [_ Hrow]].
    + now symmetry.
    + rewrite lookup_empty in Hrow. discriminate.
  - etransitivity; [ exact Hrows | ]. cbn. apply insert_insert_eq.
Defined.

(** The permissions granted to the role with key [k]. *)
Definition granted (w : World) (k : nat) : gset string :=
  default ∅ (role_permissions w !! k).

(** Everything but the permission relation. *)
Definition beyond_role_permissions (w : World) :=
  (datastores w, proposals w, docs w, roles w, role_users w, platform_policies w,
   constitution_policies w, constitution_actions w, platform_actions w,
   boolean_votes w, number_votes w, activity w, trace w).

Lemma add_permissions_loop (role : Inst CommunityRole.t) (k : nat) (perms : list string) :
  inst_pk role = Some k ->
  forall w, exists w',
    for_each perms (fun p => role_permissions_add role p) w = (Ok tt, w') /\
    granted w' k = list_to_set perms ∪ granted w k /\
    (forall j, j <> k -> role_permissions w' !! j = role_permissions w !! j) /\
    beyond_role_permissions w' = beyond_role_permissions w.
Proof.
  intros Hk. induction perms as [ | x perms IH ]; intros w.
  - exists w. split; [ reflexivity | ]. split; [ | split; reflexivity ].
    simpl. now rewrite union_empty_l_L.
  - assert (Estep : role_permissions_add role x w
                    = (Ok tt, set_role_permissions
                                (<[k := {[x]} ∪ granted w k]> (role_permissions w)) w)).
    { unfold role_permissions_add, m2m_key, bind, ret, modify. now rewrite Hk. }
    cbn [for_each]. unfold bind at 1. rewrite Estep.
    match goal with
    | |- context [for_each _ _ ?w1] =>
        destruct (IH w1) as (w' & -> & Hm & Hother & Hrest)
    end.
    exists w'. split; [ reflexivity | ]. split; [ | split ].
    + rewrite Hm. unfold granted. cbn. rewrite lookup_insert_eq. cbn. set_solver.
    + intros j Hj. rewrite Hother by exact Hj. cbn. now apply lookup_insert_ne.
    + rewrite Hrest. reflexivity.
Qed.

Lemma PolicykitEditRole_effect (self : ConstitutionAction.t)
    (role : Inst CommunityRole.t) (k : nat) (name : string) (description : option string)
    (permissions : list string) (p : Proposal.t) (w : World) :
  inst_pk role = Some k ->
  ConstitutionAction.proposal self = Some p ->
  exists a' w',
    ConstitutionAction.execute
      (ConstitutionAction.with_kind
         (PolicykitEditRole (Some role) name description permissions) self) w
    = (Ok a', w') /\
    granted w' k = list_to_set permissions /\
    (forall j, j <> k -> role_permissions w' !! j = role_permissions w !! j) /\
    role_users w' = role_users w /\
    rows (roles w')
    = <[k := {| CommunityRole.name := CommunityRole.name (inst_val role);
                CommunityRole.role_name := Some name;
                CommunityRole.description := description;
                CommunityRole.community := CommunityRole.community (inst_val role) |}]>
        (rows (roles w)) /\
    (Proposal.status <$> ConstitutionAction.proposal a') = Some Proposal.PASSED.
Proof.
  intros Hk Hp.
  set (r1 := {| inst_pk := inst_pk role;
                inst_val := {| CommunityRole.name := CommunityRole.name (inst_val role);
                               CommunityRole.role_name := Some name;
                               CommunityRole.description := description;
                               CommunityRole.community
                                 := CommunityRole.community (inst_val role) |} |}).
  set (w0 := set_trace (trace w ++ [EvEffect Constitution (ConstitutionAction.pk self)]) w).
  set (w1 := set_role_permissions (<[k := ∅]> (role_permissions w0)) w0).
  destruct (add_permissions_loop r1 k permissions Hk w1) as (w2 & Hloop & Hg & Hother & Hrest).
  set (a1 := ConstitutionAction.with_kind
               (PolicykitEditRole (Some r1) name description permissions)
               (ConstitutionAction.with_kind
                  (PolicykitEditRole (Some role) name description permissions) self)).
  assert (E : ConstitutionAction.execute
                (ConstitutionAction.with_kind
                   (PolicykitEditRole (Some role) name description permissions) self) w
              = ConstitutionAction.pass_action a1
                  (set_roles (tbl_write k (inst_val r1) (roles w2)) w2)).
  { assert (Ec : role_permissions_clear r1 w0 = (Ok tt, w1)).
    { unfold role_permissions_clear, m2m_key, bind, ret, modify. cbn [inst_pk r1].
      now rewrite Hk. }
    transitivity
      ((role_permissions_clear r1 ;;
        for_each permissions (fun x => role_permissions_add r1 x) ;;
        r2 <- inst_save roles set_roles r1 ;;
        ConstitutionAction.pass_action
          (ConstitutionAction.with_kind
             (PolicykitEditRole (Some r2) name description permissions)
             (ConstitutionAction.with_kind
                (PolicykitEditRole (Some role) name description permissions) self))) w0);
      [ reflexivity | ].
    unfold bind at 1. rewrite Ec. unfold bind at 1. rewrite Hloop.
    unfold bind at 1. unfold inst_save. cbn [inst_pk r1]. rewrite Hk. reflexivity. }
  rewrite E.
  destruct (ConstitutionAction_pass_action_writes a1 p
              (set_roles (tbl_write k (inst_val r1) (roles w2)) w2) Hp)
    as (p' & w3 & j & -> & Hs & _ & _ & _ & _ & _ & _ & _ & Hpass & _).
  inversion Hrest. inversion Hpass.
  eexists _, w3. split; [ reflexivity | ].
  split.
  { unfold granted in *. cbn in Hg. rewrite lookup_insert_eq in Hg. cbn in Hg.
    rewrite union_empty_r_L in Hg. cbn in *. congruence. }
  split.
  { intros i Hi. specialize (Hother i Hi). cbn in Hother.
    rewrite lookup_insert_ne in Hother by congruence. cbn in *. congruence. }
  split; [ cbn in *; congruence | ].
  split.
  { repeat match goal with
           | H : roles _ = _ |- _ => rewrite H; clear H
           end.
    reflexivity. }
  cbn. now rewrite Hs.
Qed.

(** X15.  [PolicykitEditRole] replaces the permissions of the role by those of
    the action: a permission the role held and the action does not list
    is gone.  The role keeps its members, its group name and its
    community; it takes the name and description of the action; no other
    role changes. *)
Theorem PolicykitEditRole_replaces_permissions (self : ConstitutionAction.t)
    (role : Inst CommunityRole.t) (k : nat) (name : string) (description : option string)
    (permissions : list string) (p : Proposal.t) (w : World) :
  inst_pk role = Some k ->
  ConstitutionAction.proposal self = Some p ->
  exists a' w',
    ConstitutionAction.execute
      (ConstitutionAction.with_kind
         (PolicykitEditRole (Some role) name description permissions) self) w
    = (Ok a', w') /\
    granted w' k = list_to_set permissions /\
    (forall j, j <> k -> role_permissions w' !! j = role_permissions w !! j) /\
    role_users w' = role_users w /\
    rows (roles w')
    = <[k := {| CommunityRole.name := CommunityRole.name (inst_val role);
                CommunityRole.role_name := Some name;
                CommunityRole.description := description;
                CommunityRole.community := CommunityRole.community (inst_val role) |}]>
        (rows (roles w)) /\
    (Proposal.status <$> ConstitutionAction.proposal a') = Some Proposal.PASSED.
Proof. exact (PolicykitEditRole_effect self role k name description permissions p w). Qed.

(** A stored role with key 4. *)
Definition moderators : Inst CommunityRole.t :=
  {| inst_pk := Some 4;
     inst_val := {| CommunityRole.name := "slack: guild: moderator";
                    CommunityRole.role_name := Some "moderator"%string;
                    CommunityRole.description := None;
                    CommunityRole.community := Some 1 |} |}.

Lemma user_role_actions_set_membership_witness :
  inst_pk moderators = Some 4 /\
  ConstitutionAction.proposal (bundled 1 add_rules) = Some (pending 1) /\
  exists a' w',
    ConstitutionAction.execute
      (ConstitutionAction.with_kind (PolicykitAddUserRole (Some moderators) [outsider])
         (bundled 1 add_rules)) pending_world = (Ok a', w') /\
    members w' 4 = {[ 3 ]}.
Proof.
  split; [ reflexivity | ]. split; [ reflexivity | ].
  destruct (user_role_actions_set_membership (bundled 1 add_rules) moderators 4 [outsider]
              (pending 1) pending_world eq_refl eq_refl)
    as ((a' & w' & Hex & Hm & _) & _).
  exists a', w'. split; [ exact Hex | ].
  rewrite Hm. unfold user_keys, members. cbn.
  rewrite lookup_empty. cbn. now rewrite !union_empty_r_L.
Defined.

Lemma PolicykitEditRole_replaces_permissions_witness :
  inst_pk moderators = Some 4 /\
  ConstitutionAction.proposal (bundled 1 add_rules) = Some (pending 1) /\
  exists a' w',
    ConstitutionAction.execute
      (ConstitutionAction.with_kind
         (PolicykitEditRole (Some moderators) "mods" None []) (bundled 1 add_rules))
      (set_role_permissions {[ 4 := {[ "policyengine.add_policykitaddrole"%string ]} ]}
         pending_world) = (Ok a', w') /\
    granted w' 4 = ∅.
Proof.
  split; [ reflexivity | ]. split; [ reflexivity | ].
  destruct (PolicykitEditRole_replaces_permissions (bundled 1 add_rules) moderators 4
              "mods" None [] (pending 1)
              (set_role_permissions {[ 4 := {[ "policyengine.add_policykitaddrole"%string ]} ]}
                 pending_world) eq_refl eq_refl)
    as (a' & w' & Hex & Hg & _).
  exists a', w'. split; [ exact Hex | exact Hg ].
Defined.

Lemma PolicykitDeleteRole_effect (self : ConstitutionAction.t)
    (role : Inst CommunityRole.t) (k : nat) (p : Proposal.t) (w : World) :
  inst_pk role = Some k ->
  ConstitutionAction.proposal self = Some p ->
  exists a' w',
    ConstitutionAction.execute
      (ConstitutionAction.with_kind (PolicykitDeleteRole (Some role)) self) w
    = (Ok a', w') /\
    rows (roles w') = delete k (rows (roles w)) /\
    role_users w' = delete k (role_users w) /\
    role_permissions w' = delete k (role_permissions w) /\
    ConstitutionAction.kind a'
    = PolicykitDeleteRole (Some {| inst_pk := None; inst_val := inst_val role |}) /\
    (Proposal.status <$> ConstitutionAction.proposal a') = Some Proposal.PASSED.
Proof.
  intros Hk Hp.
  set (w0 := set_trace (trace w ++ [EvEffect Constitution (ConstitutionAction.pk self)]) w).
  set (w1 := set_role_users (delete k (role_users w0))
               (set_role_permissions (delete k (role_permissions w0))
                  (set_roles (tbl_delete k (roles w0)) w0))).
  set (a1 := ConstitutionAction.with_kind
               (PolicykitDeleteRole (Some {| inst_pk := None; inst_val := inst_val role |}))
               (ConstitutionAction.with_kind (PolicykitDeleteRole (Some role)) self)).
  assert (E : ConstitutionAction.execute
                (ConstitutionAction.with_kind (PolicykitDeleteRole (Some role)) self) w
              = ConstitutionAction.pass_action a1 w1).
  { rewrite execute_unfold. cbn [ConstitutionAction.kind ConstitutionAction.with_kind].
    unfold ConstitutionAction.PolicykitDeleteRole_execute.
    unfold bind at 1. unfold try_except. unfold bind at 1. cbn [deref ret].
    unfold bind at 1. unfold role_delete. unfold bind at 1.
    unfold inst_delete. rewrite Hk. reflexivity. }
  rewrite E.
  destruct (ConstitutionAction_pass_action_writes a1 p w1 Hp)
    as (p' & w2 & j & -> & Hs & _ & _ & _ & _ & _ & _ & _ & Hpass & _).
  assert (Hr : roles w2 = roles w1) by congruence.
  assert (Hu : role_users w2 = role_users w1) by congruence.
  assert (Hg : role_permissions w2 = role_permissions w1) by congruence.
  eexists _, w2. split; [ reflexivity | ].
  split; [ now rewrite Hr | ]. split; [ now rewrite Hu | ]. split; [ now rewrite Hg | ].
  split; [ reflexivity | ]. cbn. now rewrite Hs.
Qed.

(** ** Policies added and removed by actions *)

(** X17.  A policy added by [PolicykitAddConstitutionPolicy] is a new row of
    the constitution policies, for the community of the action; the
    platform policies are not touched.  From then on it is evaluated on
    every constitution action of that community that goes to review.
    The same holds for [PolicykitAddPlatformPolicy], the platform
    policies and the platform actions. *)
Theorem added_policy_is_enforced (self : ConstitutionAction.t) (e : EditorModel.t)
    (p : Proposal.t) (w : World) :
  ConstitutionAction.proposal self = Some p ->
  (exists a1 w1 k,
     ConstitutionAction.execute
       (ConstitutionAction.with_kind (PolicykitAddConstitutionPolicy e) self) w
     = (Ok a1, w1) /\
     k = next_pk (constitution_policies w) /\
     rows (constitution_policies w1)
     = <[k := ConstitutionAction.new_policy self e]> (rows (constitution_policies w)) /\
     platform_policies w1 = platform_policies w /\
     forall execute_policy (next : ConstitutionAction.t),
       quiet_engine ConstitutionAction.pk execute_policy ->
       ConstitutionAction.community next = ConstitutionAction.community self ->
       ConstitutionAction.shouldCreate next = true ->
       CommunityUser.has_perm (ConstitutionAction.initiator next)
         (ConstitutionAction.propose_perm (ConstitutionAction.kind next)) = true ->
       CommunityUser.has_perm (ConstitutionAction.initiator next)
         (ConstitutionAction.execute_perm (ConstitutionAction.kind next)) = false ->
       ConstitutionAction.is_bundled next = false ->
       exists next' w2,
         ConstitutionAction.save execute_policy next w1 = (Ok next', w2) /\
         In (EvExecutePolicy (Some k) Constitution (ConstitutionAction.pk next'))
            (trace w2)) /\
  (exists a1 w1 k,
     ConstitutionAction.execute
       (ConstitutionAction.with_kind (PolicykitAddPlatformPolicy e) self) w
     = (Ok a1, w1) /\
     k = next_pk (platform_policies w) /\
     rows (platform_policies w1)
     = <[k := ConstitutionAction.new_policy self e]> (rows (platform_policies w)) /\
     constitution_policies w1 = constitution_policies w /\
     forall execute_platform_action execute_policy (next : PlatformAction.t),
       quiet_engine PlatformAction.pk execute_policy ->
       PlatformAction.community next = ConstitutionAction.community self ->
       PlatformAction.pk next = None ->
       CommunityUser.has_perm (PlatformAction.initiator next)
         (PlatformAction.propose_perm next) = true ->
       CommunityUser.has_perm (PlatformAction.initiator next)
         (PlatformAction.execute_perm next) = false ->
       PlatformAction.is_bundled next = false ->
       exists next' w2,
         PlatformAction.save execute_platform_action execute_policy next w1 = (Ok next', w2) /\
         In (EvExecutePolicy (Some k) Platform (PlatformAction.pk next')) (trace w2)).
Proof.
  intros Hp.
  set (w0 := set_trace (trace w ++ [EvEffect Constitution (ConstitutionAction.pk self)]) w).
  split.
  - set (a := ConstitutionAction.with_kind (PolicykitAddConstitutionPolicy e) self).
    set (w1 := set_constitution_policies
                 (snd (tbl_insert (ConstitutionAction.new_policy self e)
                         (constitution_policies w0))) w0).
    assert (E : ConstitutionAction.execute a w = ConstitutionAction.pass_action a w1)
      by reflexivity.
    rewrite E.
    destruct (ConstitutionAction_pass_action_writes a p w1 Hp)
      as (p' & w2 & j & -> & _ & _ & _ & _ & _ & _ & _ & _ & Hpass & _).
    assert (Hc : constitution_policies w2 = constitution_policies w1) by congruence.
    assert (Hpl : platform_policies w2 = platform_policies w1) by congruence.
    eexists _, w2, _. split; [ reflexivity | ]. split; [ reflexivity | ].
    split; [ now rewrite Hc | ]. split; [ now rewrite Hpl | ].
    intros execute_policy next Hq Hcomm Hsc Hprop Hexec Hb.
    destruct (constitution_review execute_policy next w2 Hq Hsc Hprop Hexec Hb)
      as (next' & w3 & evaluated & Hsave & Htr & _ & Hin).
    exists next', w3. split; [ exact Hsave | ].
    rewrite Htr. apply in_or_app. right.
    apply (in_map (fun k => EvExecutePolicy (Some k) Constitution
                              (ConstitutionAction.pk next'))).
    apply Hin. exists (ConstitutionAction.new_policy self e).
    split; [ rewrite Hc; cbn; apply lookup_insert_eq | now rewrite Hcomm ].
  - set (a := ConstitutionAction.with_kind (PolicykitAddPlatformPolicy e) self).
    set (w1 := set_platform_policies
                 (snd (tbl_insert (ConstitutionAction.new_policy self e)
                         (platform_policies w0))) w0).
    assert (E : ConstitutionAction.execute a w = ConstitutionAction.pass_action a w1)
      by reflexivity.
    rewrite E.
    destruct (ConstitutionAction_pass_action_writes a p w1 Hp)
      as (p' & w2 & j & -> & _ & _ & _ & _ & _ & _ & _ & _ & Hpass & _).
    assert (Hc : constitution_policies w2 = constitution_policies w1) by congruence.
    assert (Hpl : platform_policies w2 = platform_policies w1) by congruence.
    eexists _, w2, _. split; [ reflexivity | ]. split; [ reflexivity | ].
    split; [ now rewrite Hpl | ]. split; [ now rewrite Hc | ].
    intros adapter execute_policy next Hq Hcomm Hpk Hprop Hexec Hb.
    destruct (platform_review adapter execute_policy next w2 Hq Hpk Hprop Hexec Hb)
      as (next' & w3 & evaluated & Hsave & Htr & _ & Hin).
    exists next', w3. split; [ exact Hsave | ].
    rewrite Htr. apply in_or_app. right.
    apply (in_map (fun k => EvExecutePolicy (Some k) Platform (PlatformAction.pk next'))).
    apply Hin. exists (ConstitutionAction.new_policy self e).
    split; [ rewrite Hpl; cbn; apply lookup_insert_eq | now rewrite Hcomm ].
Qed.

Lemma added_policy_is_enforced_witness :
  ConstitutionAction.proposal (bundled 1 add_rules) = Some (pending 1) /\
  exists a1 w1,
    ConstitutionAction.execute
      (ConstitutionAction.with_kind (PolicykitAddConstitutionPolicy sample_policy)
         (bundled 1 add_rules)) pending_world = (Ok a1, w1) /\
    exists next' w2,
      ConstitutionAction.save no_policy (new_action proposer add_rules) w1 = (Ok next', w2) /\
      In (EvExecutePolicy (Some 1) Constitution (ConstitutionAction.pk next')) (trace w2).
Proof.
  split; [ reflexivity | ].
  destruct (added_policy_is_enforced (bundled 1 add_rules) sample_policy (pending 1)
              pending_world eq_refl) as ((a1 & w1 & k & Hex & -> & _ & _ & Hnext) & _).
  exists a1, w1. split; [ exact Hex | ].
  apply (Hnext no_policy (new_action proposer add_rules) (no_policy_quiet _) eq_refl
           eq_refl ltac:(vm_compute; reflexivity) ltac:(vm_compute; reflexivity) eq_refl).
Defined.

(** X18.  A policy removed by [PolicykitRemoveConstitutionPolicy] is deleted
    from the constitution policies and is evaluated on no later action
    that goes to review. *)
Theorem removed_policy_is_not_enforced (self : ConstitutionAction.t)
    (policy : Inst BasePolicy.t) (k : nat) (p : Proposal.t) (w : World) :
  inst_pk policy = Some k ->
  ConstitutionAction.proposal self = Some p ->
  exists a1 w1,
    ConstitutionAction.execute
      (ConstitutionAction.with_kind (PolicykitRemoveConstitutionPolicy (Some policy)) self) w
    = (Ok a1, w1) /\
    rows (constitution_policies w1) = delete k (rows (constitution_policies w)) /\
    platform_policies w1 = platform_policies w /\
    forall execute_policy (next : ConstitutionAction.t),
      quiet_engine ConstitutionAction.pk execute_policy ->
      ConstitutionAction.shouldCreate next = true ->
      CommunityUser.has_perm (ConstitutionAction.initiator next)
        (ConstitutionAction.propose_perm (ConstitutionAction.kind next)) = true ->
      CommunityUser.has_perm (ConstitutionAction.initiator next)
        (ConstitutionAction.execute_perm (ConstitutionAction.kind next)) = false ->
      ConstitutionAction.is_bundled next = false ->
      exists next' w2 events,
        ConstitutionAction.save execute_policy next w1 = (Ok next', w2) /\
        trace w2 = trace w1 ++ events /\
        forall a, ~ In (EvExecutePolicy (Some k) Constitution a) events.
Proof.
  intros Hk Hp.
  set (w0 := set_trace (trace w ++ [EvEffect Constitution (ConstitutionAction.pk self)]) w).
  set (a := ConstitutionAction.with_kind
              (PolicykitRemoveConstitutionPolicy
                 (Some {| inst_pk := None; inst_val := inst_val policy |}))
              (ConstitutionAction.with_kind
                 (PolicykitRemoveConstitutionPolicy (Some policy)) self)).
  set (w1 := set_constitution_policies (tbl_delete k (constitution_policies w0)) w0).
  assert (E : ConstitutionAction.execute
                (ConstitutionAction.with_kind
                   (PolicykitRemoveConstitutionPolicy (Some policy)) self) w
              = ConstitutionAction.pass_action a w1).
  { rewrite execute_unfold. cbn [ConstitutionAction.kind ConstitutionAction.with_kind].
    unfold ConstitutionAction.PolicykitRemoveConstitutionPolicy_execute.
    unfold bind at 1. cbn [deref ret]. unfold bind at 1.
    unfold inst_delete. rewrite Hk. reflexivity. }
  rewrite E.
  destruct (ConstitutionAction_pass_action_writes a p w1 Hp)
    as (p' & w2 & j & -> & _ & _ & _ & _ & _ & _ & _ & _ & Hpass & _).
  assert (Hc : constitution_policies w2 = constitution_policies w1) by congruence.
  assert (Hpl : platform_policies w2 = platform_policies w1) by congruence.
  eexists _, w2. split; [ reflexivity | ].
  split; [ now rewrite Hc | ]. split; [ now rewrite Hpl | ].
  intros execute_policy next Hq Hsc Hprop Hexec Hb.
  destruct (constitution_review execute_policy next w2 Hq Hsc Hprop Hexec Hb)
    as (next' & w3 & evaluated & Hsave & Htr & _ & Hin).
  eexists next', w3, _. split; [ exact Hsave | ]. split; [ exact Htr | ].
  intros a0 H. apply in_map_iff in H. destruct H as (k' & Ek & H).
  injection Ek as -> _. apply Hin in H. destruct H as (q & Hrow & _).
  rewrite Hc in Hrow. cbn in Hrow. rewrite lookup_delete_eq in Hrow. discriminate.
Qed.

Lemma removed_policy_is_not_enforced_witness :
  let quorum := {| inst_pk := Some 1; inst_val := policy_of 1 |} in
  inst_pk quorum = Some 1 /\
  ConstitutionAction.proposal (bundled 1 add_rules) = Some (pending 1) /\
  exists a1 w1,
    ConstitutionAction.execute
      (ConstitutionAction.with_kind (PolicykitRemoveConstitutionPolicy (Some quorum))
         (bundled 1 add_rules)) three_policies = (Ok a1, w1) /\
    rows (constitution_policies w1) !! 1 = None /\
    rows (constitution_policies w1) !! 3 = Some (policy_of 1).
Proof.
  intros quorum. split; [ reflexivity | ]. split; [ reflexivity | ].
  destruct (removed_policy_is_not_enforced (bundled 1 add_rules) quorum 1 (pending 1)
              three_policies eq_refl eq_refl) as (a1 & w1 & Hex & Hrows & _).
  exists a1, w1. split; [ exact Hex | ]. rewrite Hrows. split; reflexivity.
Defined.

(** ** The queries of a community *)

(** A stored row as the object a query yields. *)
Definition as_inst {A : Type} (kv : nat * A) : Inst A :=
  {| inst_pk := Some (fst kv); inst_val := snd kv |}.

(** [CommunityRole.objects.filter(community=self)] *)
Definition Community_get_roles (self : Community.t) (w : World)
  : list (Inst CommunityRole.t) :=
  map as_inst
    (tbl_filter (fun r => bool_decide (CommunityRole.community r = Some (Community.id self)))
       (roles w)).

(** [PlatformPolicy.objects.filter(community=self)] *)
Definition Community_get_platform_policies (self : Community.t) (w : World)
  : list (Inst BasePolicy.t) :=
  map as_inst
    (tbl_filter (fun p => Nat.eqb (BasePolicy.community p) (Community.id self))
       (platform_policies w)).

(** [ConstitutionPolicy.objects.filter(community=self)] *)
Definition Community_get_constitution_policies (self : Community.t) (w : World)
  : list (Inst BasePolicy.t) :=
  map as_inst
    (tbl_filter (fun p => Nat.eqb (BasePolicy.community p) (Community.id self))
       (constitution_policies w)).

(** [CommunityDoc.objects.filter(community=self)] *)
Definition Community_get_documents (self : Community.t) (w : World)
  : list (Inst CommunityDoc.t) :=
  map as_inst
    (tbl_filter (fun d => bool_decide (CommunityDoc.community d = Some (Community.id self)))
       (docs w)).

Lemma in_query {A : Type} (f : A -> bool) (t : Table A) (k : nat) (v : A) :
  In {| inst_pk := Some k; inst_val := v |} (map as_inst (tbl_filter f t)) <->
  rows t !! k = Some v /\ f v = true.
Proof.
  destruct (tbl_filter_spec f t) as [_ Hin]. rewrite <- Hin, in_map_iff. split.
  - intros ([k' v'] & E & H). unfold as_inst in E. simpl in E. now inversion E; subst.
  - intros H. now exists (k, v).
Qed.

(** X19.  The policies a reviewed action is evaluated against are those the
    queries of its community list, [get_constitution_policies] for a
    constitution action and [get_platform_policies] for a platform
    action, each once. *)
Theorem review_evaluates_the_policies_of_the_community :
  (forall execute_policy (self : ConstitutionAction.t) (w : World),
     quiet_engine ConstitutionAction.pk execute_policy ->
     ConstitutionAction.shouldCreate self = true ->
     CommunityUser.has_perm (ConstitutionAction.initiator self)
       (ConstitutionAction.propose_perm (ConstitutionAction.kind self)) = true ->
     CommunityUser.has_perm (ConstitutionAction.initiator self)
       (ConstitutionAction.execute_perm (ConstitutionAction.kind self)) = false ->
     ConstitutionAction.is_bundled self = false ->
     exists self' w',
       ConstitutionAction.save execute_policy self w = (Ok self', w') /\
       trace w'
       = trace w ++
         map (fun policy => EvExecutePolicy (inst_pk policy) Constitution
                              (ConstitutionAction.pk self'))
           (Community_get_constitution_policies (ConstitutionAction.community self) w)) /\
  (forall execute_platform_action execute_policy (self : PlatformAction.t) (w : World),
     quiet_engine PlatformAction.pk execute_policy ->
     PlatformAction.pk self = None ->
     CommunityUser.has_perm (PlatformAction.initiator self)
       (PlatformAction.propose_perm self) = true ->
     CommunityUser.has_perm (PlatformAction.initiator self)
       (PlatformAction.execute_perm self) = false ->
     PlatformAction.is_bundled self = false ->
     exists self' w',
       PlatformAction.save execute_platform_action execute_policy self w = (Ok self', w') /\
       trace w'
       = trace w ++
         map (fun policy => EvExecutePolicy (inst_pk policy) Platform
                              (PlatformAction.pk self'))
           (Community_get_platform_policies (PlatformAction.community self) w)).
Proof.
  split.
  - intros execute_policy self w Hq Hsc Hprop Hexec Hb.
    destruct (constitution_review_trace execute_policy self w Hq Hsc Hprop Hexec Hb)
      as (self' & w' & Hsave & Htr).
    exists self', w'. split; [ exact Hsave | ].
    rewrite Htr. unfold Community_get_constitution_policies. now rewrite !map_map.
  - intros adapter execute_policy self w Hq Hpk Hprop Hexec Hb.
    destruct (platform_review_trace adapter execute_policy self w Hq Hpk Hprop Hexec Hb)
      as (self' & w' & Hsave & Htr).
    exists self', w'. split; [ exact Hsave | ].
    rewrite Htr. unfold Community_get_platform_policies. now rewrite !map_map.
Qed.

Lemma review_evaluates_the_policies_of_the_community_witness :
  quiet_engine ConstitutionAction.pk no_policy /\
  exists self' w',
    ConstitutionAction.save no_policy (new_action proposer add_rules) three_policies
      = (Ok self', w') /\
    length (trace w') = 2.
Proof.
  split; [ apply no_policy_quiet | ].
  destruct (proj1 review_evaluates_the_policies_of_the_community no_policy
              (new_action proposer add_rules) three_policies
              (no_policy_quiet _) eq_refl ltac:(vm_compute; reflexivity)
              ltac:(vm_compute; reflexivity) eq_refl)
    as (self' & w' & Hsave & Htr).
  exists self', w'. split; [ exact Hsave | ].
  rewrite Htr. rewrite length_app, length_map. reflexivity.
Defined.

(** X20.  A document that [PolicykitAddCommunityDoc] finds in another
    community leaves that community: afterwards the documents of the
    action's community list it, and the documents of a community with
    another key do not. *)
Theorem PolicykitAddCommunityDoc_takes_over_document (self : ConstitutionAction.t)
    (name text : string) (p : Proposal.t) (k : nat) (d : CommunityDoc.t) (w : World) :
  ConstitutionAction.proposal self = Some p ->
  rows (docs w) !! k = Some d ->
  CommunityDoc.name d = name -> CommunityDoc.text d = text ->
  (forall k' d', rows (docs w) !! k' = Some d' ->
                 CommunityDoc.name d' = name -> CommunityDoc.text d' = text -> k' = k) ->
  let w' := snd (ConstitutionAction.execute
                   (ConstitutionAction.with_kind (PolicykitAddCommunityDoc name text) self) w) in
  In {| inst_pk := Some k;
        inst_val := {| CommunityDoc.name := name; CommunityDoc.text := text;
                       CommunityDoc.community
                         := Some (Community.id (ConstitutionAction.community self)) |} |}
     (Community_get_documents (ConstitutionAction.community self) w') /\
  (forall other x,
     Community.id other <> Community.id (ConstitutionAction.community self) ->
     ~ In {| inst_pk := Some k; inst_val := x |} (Community_get_documents other w')) /\
  size (rows (docs w')) = size (rows (docs w)).
Proof.
  intros Hp Hrow Hn Ht Huniq w'.
  destruct (PolicykitAddCommunityDoc_lookup self name text p w Hp) as (_ & Hone & _).
  destruct (Hone k d Hrow (conj Hn Ht)) as (a' & _ & Hrows).
  { intros k' d' Hrow' [Hn' Ht']. now apply (Huniq k' d'). }
  fold w' in Hrows.
  split; [ | split ].
  - apply in_query. rewrite Hrows, lookup_insert_eq. split; [ reflexivity | ].
    now apply bool_decide_eq_true.
  - intros other x Hne H. apply in_query in H. destruct H as [Hx Hc].
    rewrite Hrows, lookup_insert_eq in Hx. inversion Hx; subst x.
    apply bool_decide_eq_true in Hc. simpl in Hc. congruence.
  - rewrite Hrows. apply map_size_insert_Some. now exists d.
Qed.

Definition league : Community.t :=
  {| Community.id := 2; Community.community_name := "league";
     Community.platform := Some "slack"%string |}.

Lemma PolicykitAddCommunityDoc_takes_over_document_witness :
  ConstitutionAction.proposal (bundled 1 add_rules) = Some (pending 1) /\
  In {| inst_pk := Some 1;
        inst_val := {| CommunityDoc.name := "rules"; CommunityDoc.text := "be kind";
                       CommunityDoc.community := Some 2 |} |}
     (Community_get_documents league foreign_rules) /\
  forall x,
    ~ In {| inst_pk := Some 1; inst_val := x |}
         (Community_get_documents league
            (snd (ConstitutionAction.execute
                    (ConstitutionAction.with_kind (PolicykitAddCommunityDoc "rules" "be kind")
                       (bundled 1 add_rules)) foreign_rules))).
Proof.
  split; [ reflexivity | ]. split; [ vm_compute; now left | ].
  destruct (PolicykitAddCommunityDoc_takes_over_document (bundled 1 add_rules)
              "rules" "be kind" (pending 1) 1
              {| CommunityDoc.name := "rules"; CommunityDoc.text := "be kind";
                 CommunityDoc.community := Some 2 |} foreign_rules
              eq_refl eq_refl eq_refl eq_refl) as (_ & Hgone & _).
  - intros k' d' Hrow _ _. cbn in Hrow.
    apply lookup_insert_Some in Hrow. destruct Hrow as [[Hk _] | [_ Hrow]].
    + now symmetry.
    + rewrite lookup_empty in Hrow. discriminate.
  - intros x. apply (Hgone league x). discriminate.
Defined.

(** X21.  The roles of a community after an edit and after a deletion: an
    edited role is listed by the community its object belongs to, with
    the new name and description; a deleted role is listed by no
    community. *)
Theorem role_queries_after_edit_and_delete (self : ConstitutionAction.t)
    (role : Inst CommunityRole.t) (k : nat) (c : Community.t) (p : Proposal.t) (w : World) :
  inst_pk role = Some k ->
  CommunityRole.community (inst_val role) = Some (Community.id c) ->
  ConstitutionAction.proposal self = Some p ->
  (forall name description permissions,
     In {| inst_pk := Some k;
           inst_val := {| CommunityRole.name := CommunityRole.name (inst_val role);
                          CommunityRole.role_name := Some name;
                          CommunityRole.description := description;
                          CommunityRole.community := Some (Community.id c) |} |}
        (Community_get_roles c
           (snd (ConstitutionAction.execute
                   (ConstitutionAction.with_kind
                      (PolicykitEditRole (Some role) name description permissions) self) w)))) /\
  (forall other x,
     ~ In {| inst_pk := Some k; inst_val := x |}
          (Community_get_roles other
             (snd (ConstitutionAction.execute
                     (ConstitutionAction.with_kind (PolicykitDeleteRole (Some role)) self)
                     w)))).
Proof.
  intros Hk Hc Hp. split.
  - intros name description permissions.
    destruct (PolicykitEditRole_effect self role k name description permissions p w Hk Hp)
      as (a' & w' & -> & _ & _ & _ & Hrows & _).
    apply in_query. cbn [snd]. rewrite Hrows, lookup_insert_eq, Hc.
    split; [ reflexivity | ]. now apply bool_decide_eq_true.
  - intros other x H.
    destruct (PolicykitDeleteRole_effect self role k p w Hk Hp)
      as (a' & w' & E & Hrows & _).
    rewrite E in H. apply in_query in H. destruct H as [Hx _].
    cbn [snd] in Hx. rewrite Hrows, lookup_delete_eq in Hx. discriminate.
Qed.

Lemma role_queries_after_edit_and_delete_witness :
  inst_pk moderators = Some 4 /\
  CommunityRole.community (inst_val moderators) = Some (Community.id guild) /\
  ConstitutionAction.proposal (bundled 1 add_rules) = Some (pending 1) /\
  forall x,
    ~ In {| inst_pk := Some 4; inst_val := x |}
         (Community_get_roles guild
            (snd (ConstitutionAction.execute
                    (ConstitutionAction.with_kind (PolicykitDeleteRole (Some moderators))
                       (bundled 1 add_rules))
                    (set_roles (tbl_write 4 (inst_val moderators) empty_table)
                       pending_world)))).
Proof.
  split; [ reflexivity | ]. split; [ reflexivity | ]. split; [ reflexivity | ].
  destruct (role_queries_after_edit_and_delete (bundled 1 add_rules) moderators 4 guild
              (pending 1)
              (set_roles (tbl_write 4 (inst_val moderators) empty_table) pending_world)
              eq_refl eq_refl eq_refl) as [_ Hgone].
  exact (Hgone guild).
Defined.

(** ** The role queries of a user *)

Section UserQueries.

(** The stored community users, by the key of their user row, and the
    community a user belongs to ([self.community]). *)
Variable users : gmap nat CommunityUser.t.
Variable community_of : CommunityUser.t -> Community.t.

(** [r.user_set.all()], for the role with key [k]: the users of the role,
    by key. *)
Definition user_set_all (k : nat) (w : World) : list nat :=
  elements (members w k).

(** [u.communityuser]: a user that is no community user has none, and
    the access raises [RelatedObjectDoesNotExist], an [AttributeError]. *)
Definition communityuser (pk : nat) : Res CommunityUser.t :=
  match users !! pk with
  | Some u => Ok u
  | None => Raise AttributeError
  end.

(** [u.communityuser.username == self.username] *)
Definition same_username (self u : CommunityUser.t) : bool :=
  String.eqb (CommunityUser.username u) (CommunityUser.username self).

(** The inner loop of [get_roles], over the users of the role [r]. *)
Fixpoint get_roles_users (self : CommunityUser.t) (r : Inst CommunityRole.t)
    (us : list nat) (user_roles : list (Inst CommunityRole.t))
  : Res (list (Inst CommunityRole.t)) :=
  match us with
  | [] => Ok user_roles
  | pk :: rest =>
      match communityuser pk with
      | Ok u =>
          get_roles_users self r rest
            (if same_username self u then user_roles ++ [r] else user_roles)
      | Raise e => Raise e
      end
  end.

(** The outer loop, over the roles of the community. *)
Fixpoint get_roles_roles (self : CommunityUser.t) (rs : list (nat * CommunityRole.t))
    (w : World) (user_roles : list (Inst CommunityRole.t))
  : Res (list (Inst CommunityRole.t)) :=
  match rs with
  | [] => Ok user_roles
  | kv :: rest =>
      match get_roles_users self (as_inst kv) (user_set_all (fst kv) w) user_roles with
      | Ok user_roles' => get_roles_roles self rest w user_roles'
      | Raise e => Raise e
      end
  end.

Definition CommunityUser_get_roles (self : CommunityUser.t) (w : World)
  : Res (list (Inst CommunityRole.t)) :=
  get_roles_roles self
    (tbl_filter (fun r => bool_decide (CommunityRole.community r
                                       = Some (Community.id (community_of self))))
       (roles w))
    w [].

(** The loop of [has_role]: it returns at the first user with the name. *)
Fixpoint has_role_users (self : CommunityUser.t) (us : list nat) : Res bool :=
  match us with
  | [] => Ok false
  | pk :: rest =>
      match communityuser pk with
      | Ok u => if same_username self u then Ok true else has_role_users self rest
      | Raise e => Raise e
      end
  end.

(** [roles[0]] is the first row the filter yields. *)
Definition CommunityUser_has_role (self : CommunityUser.t) (role_name : string) (w : World)
  : Res bool :=
  match tbl_filter
          (fun r => bool_decide (CommunityRole.community r
                                 = Some (Community.id (community_of self)))
                    && bool_decide (CommunityRole.role_name r = Some role_name))
          (roles w) with
  | [] => Ok false
  | (k, _) :: _ => has_role_users self (user_set_all k w)
  end.

(** Every user of the role with key [k] is a community user. *)
Definition community_users_in (k : nat) (w : World) : Prop :=
  forall pk, pk ∈ members w k -> is_Some (users !! pk).

(** A member of the role with the user's name. *)
Definition namesake_in (self : CommunityUser.t) (k : nat) (w : World) : Prop :=
  exists pk u, pk ∈ members w k /\ users !! pk = Some u /\
               CommunityUser.username u = CommunityUser.username self.

Definition namesake_among (self : CommunityUser.t) (us : list nat) : Prop :=
  exists pk u, In pk us /\ users !! pk = Some u /\
               CommunityUser.username u = CommunityUser.username self.

Lemma in_user_set_all (pk k : nat) (w : World) :
  In pk (user_set_all k w) <-> pk ∈ members w k.
Proof. unfold user_set_all. rewrite <- list_elem_of_In. apply elem_of_elements. Qed.

Lemma namesake_among_members (self : CommunityUser.t) (k : nat) (w : World) :
  namesake_among self (user_set_all k w) <-> namesake_in self k w.
Proof.
  split; intros (pk & u & Hin & Hu & E); exists pk, u;
    (split; [ now apply in_user_set_all | split; assumption ]).
Qed.

Lemma get_roles_users_ok (self : CommunityUser.t) (r : Inst CommunityRole.t)
    (us : list nat) (user_roles : list (Inst CommunityRole.t)) :
  (forall pk, In pk us -> is_Some (users !! pk)) ->
  exists more,
    get_roles_users self r us user_roles = Ok (user_roles ++ more) /\
    (forall x, In x more -> x = r) /\
    (more <> [] <-> namesake_among self us).
Proof.
  revert user_roles. induction us as [ | pk us IH ]; intros user_roles Hall.
  - exists []. split; [ simpl; now rewrite app_nil_r | ]. split; [ intros x [] | ].
    split; [ congruence | ]. intros (pk & u & [] & _).
  - simpl. unfold communityuser.
    destruct (Hall pk (or_introl eq_refl)) as [u Hu]. rewrite Hu.
    destruct (IH (if same_username self u then user_roles ++ [r] else user_roles))
      as (more & E & Hr & Hn).
    { intros pk' Hin. apply Hall. now right. }
    rewrite E. destruct (same_username self u) eqn:Hsame.
    + exists (r :: more). split; [ now rewrite <- app_assoc | ].
      split; [ intros x [<- | Hx]; [ reflexivity | now apply Hr ] | ].
      split; [ | discriminate ]. intros _. exists pk, u.
      split; [ now left | ]. split; [ exact Hu | ]. now apply String.eqb_eq.
    + exists more. split; [ reflexivity | ]. split; [ exact Hr | ].
      rewrite Hn. split.
      * intros (pk' & u' & Hin & Hu' & E'). exists pk', u'.
        split; [ now right | split; assumption ].
      * intros (pk' & u' & [<- | Hin] & Hu' & E').
        -- rewrite Hu in Hu'. inversion Hu'; subst u'.
           unfold same_username in Hsame. apply String.eqb_neq in Hsame. contradiction.
        -- exists pk', u'. split; [ exact Hin | split; assumption ].
Qed.

Lemma get_roles_users_raise (self : CommunityUser.t) (r : Inst CommunityRole.t)
    (us : list nat) (user_roles : list (Inst CommunityRole.t)) (pk : nat) :
  In pk us -> users !! pk = None ->
  get_roles_users self r us user_roles = Raise AttributeError.
Proof.
  revert user_roles. induction us as [ | pk0 us IH ]; intros user_roles Hin Hnone;
    [ destruct Hin | ].
  simpl. unfold communityuser. destruct (users !! pk0) as [u | ] eqn:Hu; [ | reflexivity ].
  destruct Hin as [-> | Hin]; [ congruence | ]. now apply IH.
Qed.

Lemma get_roles_users_result (self : CommunityUser.t) (r : Inst CommunityRole.t)
    (us : list nat) (user_roles : list (Inst CommunityRole.t)) :
  (exists l, get_roles_users self r us user_roles = Ok l) \/
  get_roles_users self r us user_roles = Raise AttributeError.
Proof.
  revert user_roles. induction us as [ | pk us IH ]; intros user_roles.
  - left. now exists user_roles.
  - simpl. unfold communityuser. destruct (users !! pk) as [u | ]; [ apply IH | now right ].
Qed.

Lemma get_roles_roles_ok (self : CommunityUser.t) (rs : list (nat * CommunityRole.t))
    (w : World) (user_roles : list (Inst CommunityRole.t)) :
  (forall k r, In (k, r) rs -> community_users_in k w) ->
  exists more,
    get_roles_roles self rs w user_roles = Ok (user_roles ++ more) /\
    forall x, In x more <->
              exists k r, In (k, r) rs /\ x = as_inst (k, r) /\ namesake_in self k w.
Proof.
  revert user_roles. induction rs as [ | [k r] rs IH ]; intros user_roles Hall.
  - exists []. split; [ simpl; now rewrite app_nil_r | ].
    intros x. split; [ intros [] | intros (k & r & [] & _) ].
  - simpl.
    destruct (get_roles_users_ok self (as_inst (k, r)) (user_set_all k w) user_roles)
      as (here & E & Hr & Hn).
    { intros pk Hin. apply (Hall k r (or_introl eq_refl)). now apply in_user_set_all. }
    rewrite E. destruct (IH (user_roles ++ here)) as (rest & E' & Hrest).
    { intros k' r' Hin. apply (Hall k' r'). now right. }
    rewrite E'. exists (here ++ rest). split; [ now rewrite <- app_assoc | ].
    intros x. rewrite in_app_iff, Hrest. split.
    + intros [Hx | (k' & r' & Hin & -> & Hm)].
      * exists k, r. split; [ now left | ]. split; [ now apply Hr | ].
        apply namesake_among_members, Hn. intros ->. destruct Hx.
      * exists k', r'. split; [ now right | split; [ reflexivity | exact Hm ] ].
    + intros (k' & r' & [Heq | Hin] & -> & Hm).
      * inversion Heq; subst k' r'. left.
        apply namesake_among_members, Hn in Hm.
        destruct here as [ | y here ]; [ congruence | ].
        left. apply Hr. now left.
      * right. exists k', r'. split; [ exact Hin | split; [ reflexivity | exact Hm ] ].
Qed.

Lemma get_roles_roles_raise (self : CommunityUser.t) (rs : list (nat * CommunityRole.t))
    (w : World) (user_roles : list (Inst CommunityRole.t)) (k pk : nat) (r : CommunityRole.t) :
  In (k, r) rs -> pk ∈ members w k -> users !! pk = None ->
  get_roles_roles self rs w user_roles = Raise AttributeError.
Proof.
  revert user_roles. induction rs as [ | [k0 r0] rs IH ]; intros user_roles Hin Hpk Hnone;
    [ destruct Hin | ].
  simpl. destruct Hin as [Heq | Hin].
  - inversion Heq; subst k0 r0.
    rewrite (get_roles_users_raise self _ _ user_roles pk); [ reflexivity | | exact Hnone ].
    now apply in_user_set_all.
  - destruct (get_roles_users_result self (as_inst (k0, r0)) (user_set_all k0 w) user_roles)
      as [[l ->] | ->]; [ now apply IH | reflexivity ].
Qed.

Lemma has_role_users_ok (self : CommunityUser.t) (us : list nat) :
  (forall pk, In pk us -> is_Some (users !! pk)) ->
  exists b, has_role_users self us = Ok b /\ (b = true <-> namesake_among self us).
Proof.
  induction us as [ | pk us IH ]; intros Hall.
  - exists false. split; [ reflexivity | ]. split; [ discriminate | ].
    intros (pk & u & [] & _).
  - simpl. unfold communityuser.
    destruct (Hall pk (or_introl eq_refl)) as [u Hu]. rewrite Hu.
    destruct (same_username self u) eqn:Hsame.
    + exists true. split; [ reflexivity | ]. split; [ | reflexivity ].
      intros _. exists pk, u. split; [ now left | ]. split; [ exact Hu | ].
      now apply String.eqb_eq.
    + destruct IH as (b & E & Hb). { intros pk' Hin. apply Hall. now right. }
      exists b. split; [ exact E | ]. rewrite Hb. split.
      * intros (pk' & u' & Hin & Hu' & E'). exists pk', u'.
        split; [ now right | split; assumption ].
      * intros (pk' & u' & [<- | Hin] & Hu' & E').
        -- rewrite Hu in Hu'. inversion Hu'; subst u'.
           unfold same_username in Hsame. apply String.eqb_neq in Hsame. contradiction.
        -- exists pk', u'. split; [ exact Hin | split; assumption ].
Qed.

(** [has_role] when one role of the user's community has the name, and
    its users are community users. *)
Lemma has_role_of_single_role (self : CommunityUser.t) (role_name : string) (k : nat)
    (r : CommunityRole.t) (w : World) :
  rows (roles w) !! k = Some r ->
  CommunityRole.community r = Some (Community.id (community_of self)) ->
  CommunityRole.role_name r = Some role_name ->
  (forall k' r', rows (roles w) !! k' = Some r' ->
                 CommunityRole.community r' = Some (Community.id (community_of self)) ->
                 CommunityRole.role_name r' = Some role_name -> k' = k) ->
  community_users_in k w ->
  exists b, CommunityUser_has_role self role_name w = Ok b /\
            (b = true <-> namesake_in self k w).
Proof.
  intros Hrow Hc Hn Huniq Hstored. unfold CommunityUser_has_role.
  rewrite (tbl_filter_one _ (roles w) k r Hrow).
  - destruct (has_role_users_ok self (user_set_all k w)) as (b & E & Hb).
    { intros pk Hin. apply Hstored. now apply in_user_set_all. }
    exists b. split; [ exact E | ]. now rewrite Hb, namesake_among_members.
  - apply andb_true_iff. split; now apply bool_decide_eq_true.
  - intros k' r' Hrow' H. apply andb_true_iff in H. destruct H as [H1 H2].
    apply bool_decide_eq_true in H1, H2. now apply (Huniq k' r').
Qed.

End UserQueries.

(** X22.  [get_roles], when the users of every role of the user's
    community are community users, returns a list that holds a role
    exactly when it is a stored role of that community one of whose
    users has the user's name.  When a user of such a role is not a
    community user, [get_roles] raises [AttributeError].  [has_role]
    returns [False] when no role of the community has the name asked
    for. *)
Theorem CommunityUser_get_roles_membership (users : gmap nat CommunityUser.t)
    (community_of : CommunityUser.t -> Community.t) (self : CommunityUser.t) (w : World) :
  ((forall k r, rows (roles w) !! k = Some r ->
                CommunityRole.community r = Some (Community.id (community_of self)) ->
                community_users_in users k w) ->
   exists l,
     CommunityUser_get_roles users community_of self w = Ok l /\
     forall k r,
       In {| inst_pk := Some k; inst_val := r |} l <->
       rows (roles w) !! k = Some r /\
       CommunityRole.community r = Some (Community.id (community_of self)) /\
       namesake_in users self k w) /\
  (forall k r pk,
     rows (roles w) !! k = Some r ->
     CommunityRole.community r = Some (Community.id (community_of self)) ->
     pk ∈ members w k -> users !! pk = None ->
     CommunityUser_get_roles users community_of self w = Raise AttributeError) /\
  (forall role_name,
     (forall k r, rows (roles w) !! k = Some r ->
                  CommunityRole.community r = Some (Community.id (community_of self)) ->
                  CommunityRole.role_name r <> Some role_name) ->
     CommunityUser_has_role users community_of self role_name w = Ok false).
Proof.
  split; [ | split ].
  - intros Hstored. unfold CommunityUser_get_roles.
    destruct (get_roles_roles_ok users self
                (tbl_filter (fun r => bool_decide (CommunityRole.community r
                                                   = Some (Community.id (community_of self))))
                   (roles w)) w [])
      as (l & E & Hl).
    { intros k r Hin. apply tbl_filter_spec in Hin. destruct Hin as [Hrow Hc].
      apply bool_decide_eq_true in Hc. now apply (Hstored k r). }
    exists l. split; [ exact E | ]. intros k r. rewrite Hl. split.
    + intros (k' & r' & Hin & Heq & Hm). unfold as_inst in Heq. simpl in Heq.
      inversion Heq; subst k' r'.
      apply tbl_filter_spec in Hin. destruct Hin as [Hrow Hc].
      apply bool_decide_eq_true in Hc. repeat split; assumption.
    + intros (Hrow & Hc & Hm). exists k, r. split; [ | split; [ reflexivity | exact Hm ] ].
      apply tbl_filter_spec. split; [ exact Hrow | now apply bool_decide_eq_true ].
  - intros k r pk Hrow Hc Hpk Hnone. unfold CommunityUser_get_roles.
    apply (get_roles_roles_raise users self _ w [] k pk r); [ | exact Hpk | exact Hnone ].
    apply tbl_filter_spec. split; [ exact Hrow | now apply bool_decide_eq_true ].
  - intros role_name Hnone. unfold CommunityUser_has_role.
    rewrite tbl_filter_none; [ reflexivity | ].
    intros k r Hrow. apply andb_false_iff.
    destruct (bool_decide_reflect
                (CommunityRole.community r = Some (Community.id (community_of self))))
      as [Hc | Hc]; [ right | now left ].
    apply bool_decide_eq_false. now apply (Hnone k r).
Qed.

(** X23.  The role is the only one of the user's community with its
    name, and its users, like those the action names, are community
    users.  After [PolicykitAddUserRole] has run for a user, [has_role]
    returns [True] for that user and the name of the role; after
    [PolicykitRemoveUserRole], when no other community user has the
    same name, it returns [False]. *)
Theorem has_role_follows_user_role_actions (users : gmap nat CommunityUser.t)
    (community_of : CommunityUser.t -> Community.t) (self : ConstitutionAction.t)
    (role : Inst CommunityRole.t) (k : nat) (r : CommunityRole.t) (role_name : string)
    (member : CommunityUser.t) (others : list CommunityUser.t) (p : Proposal.t) (w : World) :
  inst_pk role = Some k ->
  rows (roles w) !! k = Some r ->
  CommunityRole.community r = Some (Community.id (community_of member)) ->
  CommunityRole.role_name r = Some role_name ->
  (forall k' r', rows (roles w) !! k' = Some r' ->
                 CommunityRole.community r' = Some (Community.id (community_of member)) ->
                 CommunityRole.role_name r' = Some role_name -> k' = k) ->
  users !! CommunityUser.pk member = Some member ->
  (forall u, In u others -> is_Some (users !! CommunityUser.pk u)) ->
  community_users_in users k w ->
  ConstitutionAction.proposal self = Some p ->
  CommunityUser_has_role users community_of member role_name
    (snd (ConstitutionAction.execute
            (ConstitutionAction.with_kind
               (PolicykitAddUserRole (Some role) (member :: others)) self) w)) = Ok true /\
  ((forall pk u, users !! pk = Some u ->
                 CommunityUser.username u = CommunityUser.username member ->
                 pk = CommunityUser.pk member) ->
   CommunityUser_has_role users community_of member role_name
     (snd (ConstitutionAction.execute
             (ConstitutionAction.with_kind
                (PolicykitRemoveUserRole (Some role) (member :: others)) self) w)) = Ok false).
Proof.
  intros Hk Hrow Hc Hn Huniq Huser Hothers Hstored Hp.
  destruct (user_role_effect self role k (member :: others) p w Hk Hp)
    as ((a1 & w1 & -> & Hm1 & _ & Hr1 & _) & (a2 & w2 & -> & Hm2 & _ & Hr2 & _)).
  cbn [snd]. split.
  - destruct (has_role_of_single_role users community_of member role_name k r w1)
      as (b & E & Hb).
    + now rewrite Hr1.
    + exact Hc.
    + exact Hn.
    + intros k' r'. rewrite Hr1. apply Huniq.
    + intros pk Hpk. rewrite Hm1 in Hpk. apply elem_of_union in Hpk.
      destruct Hpk as [Hpk | Hpk]; [ | now apply Hstored ].
      unfold user_keys in Hpk. apply elem_of_list_to_set, list_elem_of_In, in_map_iff in Hpk.
      destruct Hpk as (u & <- & [<- | Hu]); [ now rewrite Huser | now apply Hothers ].
    + rewrite E. f_equal. apply Hb.
      exists (CommunityUser.pk member), member. split; [ | split; [ exact Huser | reflexivity ] ].
      rewrite Hm1. unfold user_keys. cbn. set_solver.
  - intros Hinj.
    destruct (has_role_of_single_role users community_of member role_name k r w2)
      as (b & E & Hb).
    + now rewrite Hr2.
    + exact Hc.
    + exact Hn.
    + intros k' r'. rewrite Hr2. apply Huniq.
    + intros pk Hpk. rewrite Hm2 in Hpk. apply elem_of_difference in Hpk.
      now apply Hstored.
    + rewrite E. f_equal. destruct b; [ | reflexivity ].
      destruct (proj1 Hb eq_refl) as (pk & u & Hpk & Hu & Hname).
      pose proof (Hinj pk u Hu Hname) as ->.
      rewrite Hm2 in Hpk. unfold user_keys in Hpk. cbn in Hpk. set_solver.
Qed.

Definition role_world : World :=
  set_role_users {[ 4 := {[ 3 ]} ]}
    (set_roles (tbl_write 4 (inst_val moderators) empty_table) pending_world).

Lemma CommunityUser_get_roles_membership_witness :
  (exists l,
     CommunityUser_get_roles {[ 3 := outsider ]} (fun _ => guild) outsider role_world = Ok l /\
     In moderators l) /\
  CommunityUser_get_roles ∅ (fun _ => guild) outsider role_world = Raise AttributeError /\
  CommunityUser_has_role {[ 3 := outsider ]} (fun _ => guild) outsider "treasurer" role_world
  = Ok false.
Proof.
  destruct (CommunityUser_get_roles_membership {[ 3 := outsider ]} (fun _ => guild)
              outsider role_world) as (Hin & _ & Hnone).
  destruct (CommunityUser_get_roles_membership ∅ (fun _ => guild)
              outsider role_world) as (_ & Hraise & _).
  split; [ | split ].
  - destruct Hin as (l & E & Hl).
    + intros k r Hrow _ pk Hpk. cbn in Hrow.
      apply lookup_insert_Some in Hrow. destruct Hrow as [[<- _] | [_ Hrow]].
      * unfold members in Hpk. cbn in Hpk. rewrite lookup_singleton_eq in Hpk. cbn in Hpk.
        apply elem_of_singleton in Hpk. subst pk. rewrite lookup_singleton_eq. now eexists.
      * rewrite lookup_empty in Hrow. discriminate.
    + exists l. split; [ exact E | ].
      apply (Hl 4 (inst_val moderators)). split; [ reflexivity | ]. split; [ reflexivity | ].
      exists 3, outsider. split; [ | split; reflexivity ].
      unfold members. cbn. rewrite lookup_singleton_eq. cbn. now apply elem_of_singleton.
  - apply (Hraise 4 (inst_val moderators) 3); try reflexivity;
      unfold members; cbn; rewrite lookup_singleton_eq; cbn; now apply elem_of_singleton.
  - apply Hnone. intros k r Hrow _. cbn in Hrow.
    apply lookup_insert_Some in Hrow. destruct Hrow as [[_ <-] | [_ Hrow]].
    + discriminate.
    + rewrite lookup_empty in Hrow. discriminate.
Defined.

Lemma has_role_follows_user_role_actions_witness :
  CommunityUser_has_role {[ 3 := outsider ]} (fun _ => guild) outsider "moderator"
    (snd (ConstitutionAction.execute
            (ConstitutionAction.with_kind (PolicykitAddUserRole (Some moderators) [outsider])
               (bundled 1 add_rules))
            (set_roles (tbl_write 4 (inst_val moderators) empty_table) pending_world)))
  = Ok true.
Proof.
  refine (proj1 (has_role_follows_user_role_actions {[ 3 := outsider ]} (fun _ => guild)
                   (bundled 1 add_rules) moderators 4 (inst_val moderators) "moderator"
                   outsider [] (pending 1)
                   (set_roles (tbl_write 4 (inst_val moderators) empty_table) pending_world)
                   eq_refl eq_refl eq_refl eq_refl _ eq_refl _ _ eq_refl)).
  - intros k' r' Hrow _ _. cbn in Hrow.
    apply lookup_insert_Some in Hrow. destruct Hrow as [[Hk _] | [_ Hrow]].
    + now symmetry.
    + rewrite lookup_empty in Hrow. discriminate.
  - intros u [].
  - intros pk Hpk. unfold members in Hpk. cbn in Hpk. rewrite lookup_empty in Hpk.
    cbn in Hpk. now apply elem_of_empty in Hpk.
Defined.

(** ** The log of API calls and [revert] *)

Module LogAPICall.
Record t : Type := {
  community : nat;
  call_type : string;
  extra_info : string
}.
End LogAPICall.

(** The database with the table of logged calls. *)
Record Site : Type := {
  world : World;
  api_calls : Table LogAPICall.t
}.

(** A method of the models above, run on the larger database. *)
Definition in_world {A : Type} (m : M World A) : M Site A :=
  fun s =>
    let '(r, w') := m (world s) in
    (r, {| world := w'; api_calls := api_calls s |}).

Definition with_community_revert (x : bool) (self : PlatformAction.t) : PlatformAction.t :=
  {| PlatformAction.pk := PlatformAction.pk self;
     PlatformAction.community := PlatformAction.community self;
     PlatformAction.initiator := PlatformAction.initiator self;
     PlatformAction.community_revert := x;
     PlatformAction.community_origin := PlatformAction.community_origin self;
     PlatformAction.is_bundled := PlatformAction.is_bundled self;
     PlatformAction.data := PlatformAction.data self;
     PlatformAction.proposal := PlatformAction.proposal self;
     PlatformAction.app_label := PlatformAction.app_label self;
     PlatformAction.app_name := PlatformAction.app_name self;
     PlatformAction.action_codename := PlatformAction.action_codename self |}.

Section Revert.

(** [community.make_call(call, values=values, action=action, method=method)]:
    the platform adapter, defined by the community classes of the
    integrations.  It runs on the database and may write to it. *)
Variable make_call :
  Community.t -> string -> Json.json -> option PlatformAction.t -> option string
  -> M Site Json.json.
Variable execute_platform_action : Community.t -> PlatformAction.t -> Res unit.
Variable execute_policy : Inst BasePolicy.t -> PlatformAction.t -> M World PlatformAction.t.

(** [LogAPICall.objects.create(community=..., call_type=..., extra_info=...)] *)
Definition LogAPICall_objects_create (x : LogAPICall.t) : M Site unit :=
  modify (fun s => {| world := world s; api_calls := snd (tbl_insert x (api_calls s)) |}).

Definition LogAPICall_make_api_call (community : Community.t) (values : Json.json)
    (call : string) (action : option PlatformAction.t) (method : option string)
  : M Site Json.json :=
  LogAPICall_objects_create
    {| LogAPICall.community := Community.id community;
       LogAPICall.call_type := call;
       LogAPICall.extra_info := Json.dumps values |} ;;
  res <- make_call community call values action method ;;
  ret res.

Definition PlatformAction_revert (self : PlatformAction.t) (values : Json.json)
    (call : string) (method : option string) : M Site PlatformAction.t :=
  LogAPICall_make_api_call (PlatformAction.community self) values call None method ;;
  in_world (PlatformAction.save execute_platform_action execute_policy
              (with_community_revert true self)).

End Revert.

(** X24.  [revert] of a stored action writes the call to the log before it
    makes it: the call runs on a database whose log has one more row,
    for this community and this call, and that is otherwise as it was.
    When the call raises, [revert] raises and leaves the database as the
    call left it.  When the call returns, the action is marked reverted
    and saved again, which writes its row in the database the call left
    and nothing else: no proposal is created, no policy evaluated and no
    effect started. *)
Theorem PlatformAction_revert_logs_then_calls make_call execute_platform_action
    execute_policy (self : PlatformAction.t) (k : nat) (values : Json.json) (call : string)
    (method : option string) (s : Site) :
  PlatformAction.pk self = Some k -> pk_truthy (Some k) = true ->
  let r := PlatformAction_revert make_call execute_platform_action execute_policy
             self values call method s in
  exists logged text,
    world logged = world s /\
    rows (api_calls logged)
    = <[next_pk (api_calls s)
        := {| LogAPICall.community := Community.id (PlatformAction.community self);
              LogAPICall.call_type := call;
              LogAPICall.extra_info := text |}]> (rows (api_calls s)) /\
    next_pk (api_calls logged) = S (next_pk (api_calls s)) /\
    let called := make_call (PlatformAction.community self) call values None method logged in
    match fst called with
    | Raise e => r = (Raise e, snd called)
    | Ok _ =>
        fst r = Ok (with_community_revert true self) /\
        api_calls (snd r) = api_calls (snd called) /\
        rows (platform_actions (world (snd r)))
        = <[k := PlatformAction.action_codename self]>
            (rows (platform_actions (world (snd called)))) /\
        proposals (world (snd r)) = proposals (world (snd called)) /\
        datastores (world (snd r)) = datastores (world (snd called)) /\
        trace (world (snd r)) = trace (world (snd called)) /\
        activity (world (snd r)) = activity (world (snd called))
    end.
Proof.
  intros Hpk Ht r.
  assert (Hsave : forall w,
            PlatformAction.save execute_platform_action execute_policy
              (with_community_revert true self) w
            = (Ok (with_community_revert true self),
               set_platform_actions
                 (tbl_write k (PlatformAction.action_codename self) (platform_actions w)) w)).
  { intros w. unfold PlatformAction.save, PlatformAction.super_save.
    cbn [PlatformAction.pk with_community_revert]. rewrite Hpk, Ht. reflexivity. }
  subst r. unfold PlatformAction_revert, LogAPICall_make_api_call, LogAPICall_objects_create.
  unfold bind, modify, ret, in_world. cbn [world api_calls].
  exists {| world := world s;
            api_calls :=
              snd (tbl_insert
                     {| LogAPICall.community := Community.id (PlatformAction.community self);
                        LogAPICall.call_type := call;
                        LogAPICall.extra_info := Json.dumps values |} (api_calls s)) |},
    (Json.dumps values).
  split; [ reflexivity | ]. split; [ reflexivity | ].
  split; [ reflexivity | ]. cbn zeta.
  destruct (make_call (PlatformAction.community self) call values None method _)
    as [[res | e] s1]; cbn [fst snd]; [ | reflexivity ].
  rewrite Hsave. cbn. repeat split.
Qed.

(** A call that returns, and one that the platform refuses. *)
Definition call_ok :
  Community.t -> string -> Json.json -> option PlatformAction.t -> option string
  -> M Site Json.json :=
  fun _ _ _ _ _ => ret Json.JNull.

Definition call_refused :
  Community.t -> string -> Json.json -> option PlatformAction.t -> option string
  -> M Site Json.json :=
  fun _ _ _ _ _ => raise AdapterError.

Definition stored_post : PlatformAction.t :=
  PlatformAction.with_pk (Some 1) (new_platform_action outsider).

Lemma PlatformAction_revert_logs_then_calls_witness :
  let s := {| world := empty_world; api_calls := empty_table |} in
  let values := Json.JObj [("channel"%string, Json.JStr "general")] in
  let r := PlatformAction_revert call_ok adapter_ok no_policy stored_post values
             "chat.delete" None s in
  let r' := PlatformAction_revert call_refused adapter_ok no_policy stored_post values
              "chat.delete" None s in
  PlatformAction.pk stored_post = Some 1 /\ pk_truthy (Some 1) = true /\
  fst r = Ok (with_community_revert true stored_post) /\
  proposals (world (snd r)) = empty_table /\
  fst r' = Raise AdapterError /\
  size (rows (api_calls (snd r'))) = 1%nat.
Proof.
  intros s values r r'.
  split; [ reflexivity | ]. split; [ reflexivity | ].
  destruct (PlatformAction_revert_logs_then_calls call_ok adapter_ok no_policy stored_post 1
              values "chat.delete" None s eq_refl eq_refl)
    as (logged & text & Hw & _ & _ & Hres & _ & _ & Hprop & _).
  destruct (PlatformAction_revert_logs_then_calls call_refused adapter_ok no_policy
              stored_post 1 values "chat.delete" None s eq_refl eq_refl)
    as (logged' & text' & _ & Hrows & _ & Hraise).
  split; [ exact Hres | ]. split; [ cbn in Hprop; now rewrite Hprop, Hw | ].
  assert (Hr' : r' = (Raise AdapterError, logged')) by exact Hraise.
  rewrite Hr'. split; [ reflexivity | ].
  cbn [snd]. rewrite Hrows. reflexivity.
Defined.

(** ** The DataStore of a proposal *)

(** X25.  [Proposal.save] gives a proposal without a key a new, empty
    DataStore each time it is called, and a proposal with a key none: the
    data stores are left as they are and the object keeps the reference
    it has. *)
Theorem Proposal_save_allocates_for_new_proposals_only (p : Proposal.t) (w : World) :
  (pk_truthy (Proposal.pk p) = false ->
   exists p' w',
     Proposal_save p w = (Ok p', w') /\
     Proposal.data p' = Some (next_pk (datastores w)) /\
     rows (datastores w')
     = <[next_pk (datastores w) := EmptyString]> (rows (datastores w)) /\
     next_pk (datastores w') = S (next_pk (datastores w)) /\
     Proposal.status p' = Proposal.status p /\ Proposal.author p' = Proposal.author p) /\
  (pk_truthy (Proposal.pk p) = true ->
   exists w',
     Proposal_save p w = (Ok p, w') /\
     datastores w' = datastores w /\
     forall k, Proposal.pk p = Some k ->
               rows (proposals w') = <[k := p]> (rows (proposals w))).
Proof.
  destruct p as [[[ | n] | ] s a d]; split; intros Ht; try discriminate Ht;
    unfold Proposal_save, bind; simpl.
  - eexists _, _. repeat split.
  - eexists. split; [ reflexivity | ]. split; [ reflexivity | ].
    intros k [= <-]. reflexivity.
  - eexists _, _. repeat split.
Qed.

Lemma Proposal_save_allocates_for_new_proposals_only_witness :
  pk_truthy (Proposal.pk (pending 2)) = true /\
  datastores (snd (Proposal_save (pending 2) pending_world)) = empty_table /\
  exists p' w',
    Proposal_save (Proposal.with_pk None (pending 2)) pending_world = (Ok p', w') /\
    Proposal.data p' = Some 1.
Proof.
  destruct (Proposal_save_allocates_for_new_proposals_only (pending 2) pending_world)
    as [_ Hold].
  destruct (Proposal_save_allocates_for_new_proposals_only
              (Proposal.with_pk None (pending 2)) pending_world) as [Hnew _].
  split; [ reflexivity | ]. split.
  - destruct (Hold eq_refl) as (w' & -> & Hds & _). exact Hds.
  - destruct (Hnew eq_refl) as (p' & w' & Hsave & Hdata & _).
    exists p', w'. split; [ exact Hsave | exact Hdata ].
Defined.

(** ** A role for a community without a platform *)

Lemma AddRole_without_platform (self : ConstitutionAction.t)
    (name : string) (description : option string) (permissions : list string) (w : World) :
  Community.platform (ConstitutionAction.community self) = None ->
  ConstitutionAction.kind self = PolicykitAddRole name description permissions ->
  ConstitutionAction.execute self w
  = (Raise TypeError,
     set_trace (trace w ++ [EvEffect Constitution (ConstitutionAction.pk self)]) w).
Proof.
  intros Hplat Hkind. rewrite execute_unfold, Hkind.
  unfold ConstitutionAction.PolicykitAddRole_execute. now rewrite Hplat.
Qed.

(** X26.  [PolicykitAddRole] builds the group name from the platform of the
    community.  On a community whose platform is [None], as on the base
    class, [execute] raises [TypeError] before anything is written; when
    it is reached through [save] on the bypass path, [save] raises too
    and leaves the action stored with a proposal that stays [proposed]. *)
Theorem PolicykitAddRole_needs_a_platform execute_policy (self : ConstitutionAction.t)
    (name : string) (description : option string) (permissions : list string) (w : World) :
  Community.platform (ConstitutionAction.community self) = None ->
  ConstitutionAction.kind self = PolicykitAddRole name description permissions ->
  ConstitutionAction.execute self w
  = (Raise TypeError,
     set_trace (trace w ++ [EvEffect Constitution (ConstitutionAction.pk self)]) w) /\
  (ConstitutionAction.ready self = true ->
   ConstitutionAction.is_bundled self = false ->
   ConstitutionAction.proposal self = None ->
   CommunityUser.has_perm (ConstitutionAction.initiator self)
     (ConstitutionAction.propose_perm (ConstitutionAction.kind self)) = true ->
   CommunityUser.has_perm (ConstitutionAction.initiator self)
     (ConstitutionAction.execute_perm (ConstitutionAction.kind self)) = true ->
   exists w',
     ConstitutionAction.save execute_policy self w = (Raise TypeError, w') /\
     stored_status w' (next_pk (proposals w)) = Some Proposal.PROPOSED /\
     (exists k, rows (constitution_actions w') !! k = Some "PolicykitAddRole"%string) /\
     roles w' = roles w /\ role_permissions w' = role_permissions w /\
     activity w' = activity w).
Proof.
  intros Hplat Hkind.
  split; [ now apply (AddRole_without_platform self name description permissions) | ].
  destruct self as [pk comm init bundled data prop ready kind].
  simpl in Hplat, Hkind. subst kind.
  cbn [ConstitutionAction.ready ConstitutionAction.is_bundled ConstitutionAction.proposal
       ConstitutionAction.initiator ConstitutionAction.kind].
  intros -> -> -> Hprop Hexec.
  unfold ConstitutionAction.save. cbn [ConstitutionAction.shouldCreate
    ConstitutionAction.kind ConstitutionAction.ready].
  Opaque ConstitutionAction.execute.
  destruct data as [ds | ], pk as [k0 | ];
    cbn; rewrite Hprop; cbn; rewrite Hexec;
    (erewrite AddRole_without_platform; [ | exact Hplat | reflexivity ]);
    (eexists; split; [ reflexivity | ]);
    (split; [ unfold stored_status; cbn; now rewrite lookup_insert_eq | ]);
    (split; [ eexists; cbn; apply lookup_insert_eq | ]);
    repeat split.
  Transparent ConstitutionAction.execute.
Qed.

Definition base_community : Community.t :=
  {| Community.id := 9; Community.community_name := "commons"; Community.platform := None |}.

Lemma PolicykitAddRole_needs_a_platform_witness :
  let a := {| ConstitutionAction.pk := None; ConstitutionAction.community := base_community;
              ConstitutionAction.initiator := role_admin;
              ConstitutionAction.is_bundled := false;
              ConstitutionAction.data := None; ConstitutionAction.proposal := None;
              ConstitutionAction.ready := true;
              ConstitutionAction.kind := PolicykitAddRole "moderator" None [] |} in
  Community.platform (ConstitutionAction.community a) = None /\
  exists w',
    ConstitutionAction.save no_policy a empty_world = (Raise TypeError, w') /\
    stored_status w' 1 = Some Proposal.PROPOSED.
Proof.
  intros a. split; [ reflexivity | ].
  destruct (PolicykitAddRole_needs_a_platform no_policy a "moderator" None [] empty_world
              eq_refl eq_refl) as [_ Hsave].
  destruct (Hsave eq_refl eq_refl eq_refl ltac:(vm_compute; reflexivity)
              ltac:(vm_compute; reflexivity)) as (w' & E & Hst & _).
  exists w'. split; [ exact E | exact Hst ].
Defined.

Lemma PolicykitDeleteCommunityDoc_vanished_row_witness :
  rows (docs pending_world) !! 8 = None /\
  exists a',
    fst (ConstitutionAction.execute
           (ConstitutionAction.with_proposal (Some (pending 1))
              (ConstitutionAction.with_kind
                 (PolicykitDeleteCommunityDoc
                    (Some {| inst_pk := Some 8;
                             inst_val := {| CommunityDoc.name := "rules";
                                            CommunityDoc.text := "be kind";
                                            CommunityDoc.community := Some 1 |} |}))
                 (bundled 1 add_rules))) pending_world) = Ok a'.
Proof.
  split; [ reflexivity | ].
  destruct (PolicykitDeleteCommunityDoc_vanished_row (bundled 1 add_rules) (pending 1)
              {| CommunityDoc.name := "rules"; CommunityDoc.text := "be kind";
                 CommunityDoc.community := Some 1 |} 8 pending_world eq_refl)
    as (a' & Hok & _).
  exists a'. exact Hok.
Defined.

(** ** Changes to documents and policies *)

(** X2.  The three change actions write the object they hold, under its key:
    the fields the action lists are replaced, the others are written as
    the object has them (the community of a document; the community,
    bundling, notification flag and data of a policy).  The row is
    written whether or not it is still stored, so a change to an object
    whose row was deleted meanwhile stores it again; no other row and no
    other table of documents and policies changes; the proposal is
    passed. *)
Theorem change_actions_write_the_held_object (self : ConstitutionAction.t)
    (p : Proposal.t) (k : nat) (w : World) :
  ConstitutionAction.proposal self = Some p ->
  (forall (doc : Inst CommunityDoc.t) (name text : string),
     inst_pk doc = Some k ->
     exists a' w',
       ConstitutionAction.execute
         (ConstitutionAction.with_kind (PolicykitChangeCommunityDoc (Some doc) name text) self) w
       = (Ok a', w') /\
       rows (docs w')
       = <[k := {| CommunityDoc.name := name; CommunityDoc.text := text;
                   CommunityDoc.community := CommunityDoc.community (inst_val doc) |}]>
           (rows (docs w)) /\
       platform_policies w' = platform_policies w /\
       constitution_policies w' = constitution_policies w /\
       (Proposal.status <$> ConstitutionAction.proposal a') = Some Proposal.PASSED) /\
  (forall (policy : Inst BasePolicy.t) (e : EditorModel.t),
     inst_pk policy = Some k ->
     exists a' w',
       ConstitutionAction.execute
         (ConstitutionAction.with_kind (PolicykitChangePlatformPolicy (Some policy) e) self) w
       = (Ok a', w') /\
       rows (platform_policies w')
       = <[k := ConstitutionAction.changed_policy (inst_val policy) e]>
           (rows (platform_policies w)) /\
       constitution_policies w' = constitution_policies w /\ docs w' = docs w /\
       BasePolicy.community (ConstitutionAction.changed_policy (inst_val policy) e)
       = BasePolicy.community (inst_val policy) /\
       (Proposal.status <$> ConstitutionAction.proposal a') = Some Proposal.PASSED) /\
  (forall (policy : Inst BasePolicy.t) (e : EditorModel.t),
     inst_pk policy = Some k ->
     exists a' w',
       ConstitutionAction.execute
         (ConstitutionAction.with_kind (PolicykitChangeConstitutionPolicy (Some policy) e) self)
         w
       = (Ok a', w') /\
       rows (constitution_policies w')
       = <[k := ConstitutionAction.changed_policy (inst_val policy) e]>
           (rows (constitution_policies w)) /\
       platform_policies w' = platform_policies w /\ docs w' = docs w /\
       BasePolicy.community (ConstitutionAction.changed_policy (inst_val policy) e)
       = BasePolicy.community (inst_val policy) /\
       (Proposal.status <$> ConstitutionAction.proposal a') = Some Proposal.PASSED).
Proof.
  intros Hp.
  set (w0 := set_trace (trace w ++ [EvEffect Constitution (ConstitutionAction.pk self)]) w).
  split; [ | split ].
  - intros doc name text Hk.
    assert (Ed : doc = {| inst_pk := Some k; inst_val := inst_val doc |})
      by (destruct doc; cbn in Hk; now subst).
    set (d1 := {| CommunityDoc.name := name; CommunityDoc.text := text;
                  CommunityDoc.community := CommunityDoc.community (inst_val doc) |}).
    set (a1 := ConstitutionAction.with_kind
                 (PolicykitChangeCommunityDoc
                    (Some {| inst_pk := inst_pk doc; inst_val := d1 |}) name text)
                 (ConstitutionAction.with_kind
                    (PolicykitChangeCommunityDoc (Some doc) name text) self)).
    assert (E : ConstitutionAction.execute
                  (ConstitutionAction.with_kind
                     (PolicykitChangeCommunityDoc (Some doc) name text) self) w
                = ConstitutionAction.pass_action a1
                    (set_docs (tbl_write k d1 (docs w0)) w0)).
    { rewrite Ed at 1. rewrite execute_unfold. unfold a1. rewrite Hk. reflexivity. }
    rewrite E.
    match goal with
    | |- context [ConstitutionAction.pass_action a1 ?w1] =>
        destruct (ConstitutionAction_pass_action_writes a1 p w1 Hp)
          as (p' & w2 & j & -> & Hs & _ & _ & _ & _ & _ & _ & _ & Hpass & _)
    end.
    inversion Hpass.
    eexists _, w2. split; [ reflexivity | ].
    split; [ repeat match goal with H : docs _ = _ |- _ => rewrite H; clear H end;
             reflexivity | ].
    split; [ congruence | ]. split; [ congruence | ]. cbn. now rewrite Hs.
  - intros policy e Hk.
    assert (Ed : policy = {| inst_pk := Some k; inst_val := inst_val policy |})
      by (destruct policy; cbn in Hk; now subst).
    set (a1 := ConstitutionAction.with_kind
                 (PolicykitChangePlatformPolicy
                    (Some {| inst_pk := inst_pk policy;
                             inst_val := ConstitutionAction.changed_policy (inst_val policy) e |})
                    e)
                 (ConstitutionAction.with_kind
                    (PolicykitChangePlatformPolicy (Some policy) e) self)).
    assert (E : ConstitutionAction.execute
                  (ConstitutionAction.with_kind
                     (PolicykitChangePlatformPolicy (Some policy) e) self) w
                = ConstitutionAction.pass_action a1
                    (set_platform_policies
                       (tbl_write k (ConstitutionAction.changed_policy (inst_val policy) e)
                          (platform_policies w0)) w0)).
    { rewrite Ed at 1. rewrite execute_unfold. unfold a1. rewrite Hk. reflexivity. }
    rewrite E.
    match goal with
    | |- context [ConstitutionAction.pass_action a1 ?w1] =>
        destruct (ConstitutionAction_pass_action_writes a1 p w1 Hp)
          as (p' & w2 & j & -> & Hs & _ & _ & _ & _ & _ & _ & _ & Hpass & _)
    end.
    inversion Hpass.
    eexists _, w2. split; [ reflexivity | ].
    split; [ repeat match goal with H : platform_policies _ = _ |- _ => rewrite H; clear H end;
             reflexivity | ].
    split; [ congruence | ]. split; [ congruence | ]. split; [ reflexivity | ].
    cbn. now rewrite Hs.
  - intros policy e Hk.
    assert (Ed : policy = {| inst_pk := Some k; inst_val := inst_val policy |})
      by (destruct policy; cbn in Hk; now subst).
    set (a1 := ConstitutionAction.with_kind
                 (PolicykitChangeConstitutionPolicy
                    (Some {| inst_pk := inst_pk policy;
                             inst_val := ConstitutionAction.changed_policy (inst_val policy) e |})
                    e)
                 (ConstitutionAction.with_kind
                    (PolicykitChangeConstitutionPolicy (Some policy) e) self)).
    assert (E : ConstitutionAction.execute
                  (ConstitutionAction.with_kind
                     (PolicykitChangeConstitutionPolicy (Some policy) e) self) w
                = ConstitutionAction.pass_action a1
                    (set_constitution_policies
                       (tbl_write k (ConstitutionAction.changed_policy (inst_val policy) e)
                          (constitution_policies w0)) w0)).
    { rewrite Ed at 1. rewrite execute_unfold. unfold a1. rewrite Hk. reflexivity. }
    rewrite E.
    match goal with
    | |- context [ConstitutionAction.pass_action a1 ?w1] =>
        destruct (ConstitutionAction_pass_action_writes a1 p w1 Hp)
          as (p' & w2 & j & -> & Hs & _ & _ & _ & _ & _ & _ & _ & Hpass & _)
    end.
    inversion Hpass.
    eexists _, w2. split; [ reflexivity | ].
    split; [ repeat match goal with
                    | H : constitution_policies _ = _ |- _ => rewrite H; clear H
                    end; reflexivity | ].
    split; [ congruence | ]. split; [ congruence | ]. split; [ reflexivity | ].
    cbn. now rewrite Hs.
Qed.

Lemma change_actions_write_the_held_object_witness :
  ConstitutionAction.proposal (bundled 1 add_rules) = Some (pending 1) /\
  exists a' w',
    ConstitutionAction.execute
      (ConstitutionAction.with_kind
         (PolicykitChangeCommunityDoc
            (Some {| inst_pk := Some 1;
                     inst_val := {| CommunityDoc.name := "rules"; CommunityDoc.text := "be kind";
                                    CommunityDoc.community := Some 2 |} |})
            "rules" "be fair") (bundled 1 add_rules)) foreign_rules = (Ok a', w') /\
    rows (docs w') !! 1
    = Some {| CommunityDoc.name := "rules"; CommunityDoc.text := "be fair";
              CommunityDoc.community := Some 2 |}.
Proof.
  split; [ reflexivity | ].
  destruct (change_actions_write_the_held_object (bundled 1 add_rules) (pending 1) 1
              foreign_rules eq_refl) as (Hdoc & _).
  destruct (Hdoc {| inst_pk := Some 1;
                    inst_val := {| CommunityDoc.name := "rules";
                                   CommunityDoc.text := "be kind";
                                   CommunityDoc.community := Some 2 |} |}
              "rules" "be fair" eq_refl) as (a' & w' & Hex & Hrows & _).
  exists a', w'. split; [ exact Hex | ]. rewrite Hrows. apply lookup_insert_eq.
Defined.
